(** * SPI Flash Circular Buffer: the driver of [spi_flash_cb.c]

    A shallow embedding of the non-blocking driver (queue registration,
    the job API and the worker state machine) and the properties of its
    specification.

    Conventions of the embedding:
    - every C integer is a [Z]; the wrap-around of [uint8_t], [uint16_t]
      and [uint32_t] is written out with [wrap8], [wrap16] and [wrap32];
    - [uint8Spi] is the memory that starts at [&self->uint8Spi[0]], a map
      from byte index to byte value.  Indices at or above [SFCB_SPI_BUF]
      are the bytes that follow the array, so an overrun of the array is
      visible in the model.  What such a write destroys in C (other
      members of the handle, the table, memory of the application)
      depends on the layout of the struct and is not modelled: the model
      agrees with the program as long as no packet is longer than the
      array.  The one place where the driver hands a length of the
      application to the buffer unchecked is the raw read whose size check
      fails, so the properties of runs with API calls assume [reads_fit]
      (no raw read of the run asks for more than [SFCB_SPI_BUF - 4]
      bytes), and those of runs from an arbitrary handle [handle_fits];
    - [ptrCbs] is the caller's queue table, a list of descriptors; the
      driver addresses it by index.  An access outside the table is
      undefined in C; in the model such a slot reads as unused (all
      members zero) and an assignment to it is dropped.  The theorems
      about a queue assume a used slot, which lies inside the table;
    - [ptrData] is the content of the application buffer the stored
      pointer refers to;
    - the two headers ([spi_flash_cb.h], [spi_flash_cb_hal.h]) are not
      part of the sources at hand: the table of flash types and the size
      of the SPI buffer are parameters of the development, and the struct
      members are the ones [spi_flash_cb.c] uses, with the widths their
      names carry. *)

From Stdlib Require Import ZArith List Lia Bool.
Import ListNotations.
Open Scope Z_scope.

(** ** Machine integers *)

Definition wrap8 (x : Z) : Z := x mod 2 ^ 8.
Definition wrap16 (x : Z) : Z := x mod 2 ^ 16.
Definition wrap32 (x : Z) : Z := x mod 2 ^ 32.

(** ** Byte memory *)

Module Buf.

Definition t : Type := Z -> Z.

(** [p[i] = v] *)
Definition poke (i v : Z) (p : t) : t :=
  fun j => if j =? i then v else p j.

(** [memset(p, v, n)] *)
Definition memset (v n : Z) (p : t) : t :=
  fun j => if (0 <=? j) && (j <? n) then v else p j.

(** [memcpy(p + off, src, n)], the source given as a list of bytes *)
Definition memcpy (off : Z) (src : list Z) (n : Z) (p : t) : t :=
  fun j => if (off <=? j) && (j <? off + n)
           then nth (Z.to_nat (j - off)) src 0
           else p j.

(** the [n] bytes at [p + off] *)
Definition slice (off : Z) (n : nat) (p : t) : list Z :=
  map (fun k => p (off + Z.of_nat k)) (seq 0 n).

(** a [uint32_t] read at [p + off]; the header is little-endian in
    memory *)
Definition get32 (off : Z) (p : t) : Z :=
  p off + 2 ^ 8 * p (off + 1) + 2 ^ 16 * p (off + 2) + 2 ^ 24 * p (off + 3).

(** the four bytes of a [uint32_t], little-endian *)
Definition bytes32 (v : Z) : list Z :=
  [Z.land v 255; Z.land (Z.shiftr v 8) 255;
   Z.land (Z.shiftr v 16) 255; Z.land (Z.shiftr v 24) 255].

End Buf.

(** ** Data model *)

(** Modelled from the spec: one entry of [SPI_FLASH_CB_TYPES], declared in
    [spi_flash_cb_hal.h]; the flash descriptor of section 3 with the member
    names [spi_flash_cb.c] reads. *)
Record spi_flash_cb_type : Type := {
  uint32FlashTopoTotalSizeByte : Z;
  uint32FlashTopoSectorSizeByte : Z;
  uint32FlashTopoPageSizeByte : Z;
  uint8FlashTopoPagesPerSector : Z;
  uint8FlashIstRdData : Z;
  uint8FlashIstRdStateReg : Z;
  uint8FlashIstWrEnable : Z;
  uint8FlashIstEraseSector : Z;
  uint8FlashIstWrPage : Z;
  uint8FlashMngWipMsk : Z
}.

(** Modelled from the spec: the enumerations of [spi_flash_cb.h], the job,
    the stage of the worker and the error (section 3). *)
Inductive sfcb_cmd : Type := IDLE | MKCB | ADD | GET | RAW.

Inductive sfcb_stg : Type := SFCB_STG_00 | SFCB_STG_01 | SFCB_STG_02 | SFCB_STG_03.

Inductive sfcb_error : Type := NO | SPI_BUF_SIZE.

(** Modelled from the spec: [sizeof(spi_flash_cb_elem_head)], the record
    header of section 3, a [u32] magic number and a [u32] id. *)
Definition sizeof_head : Z := 8.

(** Modelled from the spec: the queue descriptor [spi_flash_cb_elem] of
    [spi_flash_cb.h] (section 3), with the members [spi_flash_cb.c] uses. *)
Record spi_flash_cb_elem : Type := {
  uint8Used : Z;
  uint8Init : Z;
  uint32MagicNum : Z;
  uint16NumPagesPerElem : Z;
  uint32StartSector : Z;
  uint32StopSector : Z;
  uint16NumEntriesMax : Z;
  uint16NumEntries : Z;
  uint32IdNumMin : Z;
  uint32IdNumMax : Z;
  uint32StartPageIdMin : Z;
  uint32StartPageWrite : Z
}.

(** Modelled from the spec: the driver handle [spi_flash_cb] of
    [spi_flash_cb.h] (section 3), with the members [spi_flash_cb.c] uses. *)
Record spi_flash_cb : Type := {
  uint8FlashType : Z;
  uint8FlashPresent : Z;
  uint8NumCbs : Z;
  uint16SpiLen : Z;
  uint8Busy : Z;
  cmd : sfcb_cmd;
  uint8Stg : sfcb_stg;
  error : sfcb_error;
  ptrCbs : list spi_flash_cb_elem;
  uint8Spi : Buf.t;
  uint8IterCb : Z;
  uint16IterElem : Z;
  uint32IterPage : Z;
  ptrData : list Z;
  uint16DataLen : Z
}.

(** *** Member assignment *)

Definition set_uint8Used (v : Z) (e : spi_flash_cb_elem) :=
  let '(Build_spi_flash_cb_elem _ a2 a3 a4 a5 a6 a7 a8 a9 a10 a11 a12) := e in
  Build_spi_flash_cb_elem v a2 a3 a4 a5 a6 a7 a8 a9 a10 a11 a12.
Definition set_uint8Init (v : Z) (e : spi_flash_cb_elem) :=
  let '(Build_spi_flash_cb_elem a1 _ a3 a4 a5 a6 a7 a8 a9 a10 a11 a12) := e in
  Build_spi_flash_cb_elem a1 v a3 a4 a5 a6 a7 a8 a9 a10 a11 a12.
Definition set_uint32MagicNum (v : Z) (e : spi_flash_cb_elem) :=
  let '(Build_spi_flash_cb_elem a1 a2 _ a4 a5 a6 a7 a8 a9 a10 a11 a12) := e in
  Build_spi_flash_cb_elem a1 a2 v a4 a5 a6 a7 a8 a9 a10 a11 a12.
Definition set_uint16NumPagesPerElem (v : Z) (e : spi_flash_cb_elem) :=
  let '(Build_spi_flash_cb_elem a1 a2 a3 _ a5 a6 a7 a8 a9 a10 a11 a12) := e in
  Build_spi_flash_cb_elem a1 a2 a3 v a5 a6 a7 a8 a9 a10 a11 a12.
Definition set_uint32StartSector (v : Z) (e : spi_flash_cb_elem) :=
  let '(Build_spi_flash_cb_elem a1 a2 a3 a4 _ a6 a7 a8 a9 a10 a11 a12) := e in
  Build_spi_flash_cb_elem a1 a2 a3 a4 v a6 a7 a8 a9 a10 a11 a12.
Definition set_uint32StopSector (v : Z) (e : spi_flash_cb_elem) :=
  let '(Build_spi_flash_cb_elem a1 a2 a3 a4 a5 _ a7 a8 a9 a10 a11 a12) := e in
  Build_spi_flash_cb_elem a1 a2 a3 a4 a5 v a7 a8 a9 a10 a11 a12.
Definition set_uint16NumEntriesMax (v : Z) (e : spi_flash_cb_elem) :=
  let '(Build_spi_flash_cb_elem a1 a2 a3 a4 a5 a6 _ a8 a9 a10 a11 a12) := e in
  Build_spi_flash_cb_elem a1 a2 a3 a4 a5 a6 v a8 a9 a10 a11 a12.
Definition set_uint16NumEntries (v : Z) (e : spi_flash_cb_elem) :=
  let '(Build_spi_flash_cb_elem a1 a2 a3 a4 a5 a6 a7 _ a9 a10 a11 a12) := e in
  Build_spi_flash_cb_elem a1 a2 a3 a4 a5 a6 a7 v a9 a10 a11 a12.
Definition set_uint32IdNumMin (v : Z) (e : spi_flash_cb_elem) :=
  let '(Build_spi_flash_cb_elem a1 a2 a3 a4 a5 a6 a7 a8 _ a10 a11 a12) := e in
  Build_spi_flash_cb_elem a1 a2 a3 a4 a5 a6 a7 a8 v a10 a11 a12.
Definition set_uint32IdNumMax (v : Z) (e : spi_flash_cb_elem) :=
  let '(Build_spi_flash_cb_elem a1 a2 a3 a4 a5 a6 a7 a8 a9 _ a11 a12) := e in
  Build_spi_flash_cb_elem a1 a2 a3 a4 a5 a6 a7 a8 a9 v a11 a12.
Definition set_uint32StartPageIdMin (v : Z) (e : spi_flash_cb_elem) :=
  let '(Build_spi_flash_cb_elem a1 a2 a3 a4 a5 a6 a7 a8 a9 a10 _ a12) := e in
  Build_spi_flash_cb_elem a1 a2 a3 a4 a5 a6 a7 a8 a9 a10 v a12.
Definition set_uint32StartPageWrite (v : Z) (e : spi_flash_cb_elem) :=
  let '(Build_spi_flash_cb_elem a1 a2 a3 a4 a5 a6 a7 a8 a9 a10 a11 _) := e in
  Build_spi_flash_cb_elem a1 a2 a3 a4 a5 a6 a7 a8 a9 a10 a11 v.

Definition set_uint8FlashType (v : Z) (s : spi_flash_cb) :=
  let '(Build_spi_flash_cb _ a2 a3 a4 a5 a6 a7 a8 a9 a10 a11 a12 a13 a14 a15) := s in
  Build_spi_flash_cb v a2 a3 a4 a5 a6 a7 a8 a9 a10 a11 a12 a13 a14 a15.
Definition set_uint8FlashPresent (v : Z) (s : spi_flash_cb) :=
  let '(Build_spi_flash_cb a1 _ a3 a4 a5 a6 a7 a8 a9 a10 a11 a12 a13 a14 a15) := s in
  Build_spi_flash_cb a1 v a3 a4 a5 a6 a7 a8 a9 a10 a11 a12 a13 a14 a15.
Definition set_uint8NumCbs (v : Z) (s : spi_flash_cb) :=
  let '(Build_spi_flash_cb a1 a2 _ a4 a5 a6 a7 a8 a9 a10 a11 a12 a13 a14 a15) := s in
  Build_spi_flash_cb a1 a2 v a4 a5 a6 a7 a8 a9 a10 a11 a12 a13 a14 a15.
Definition set_uint16SpiLen (v : Z) (s : spi_flash_cb) :=
  let '(Build_spi_flash_cb a1 a2 a3 _ a5 a6 a7 a8 a9 a10 a11 a12 a13 a14 a15) := s in
  Build_spi_flash_cb a1 a2 a3 v a5 a6 a7 a8 a9 a10 a11 a12 a13 a14 a15.
Definition set_uint8Busy (v : Z) (s : spi_flash_cb) :=
  let '(Build_spi_flash_cb a1 a2 a3 a4 _ a6 a7 a8 a9 a10 a11 a12 a13 a14 a15) := s in
  Build_spi_flash_cb a1 a2 a3 a4 v a6 a7 a8 a9 a10 a11 a12 a13 a14 a15.
Definition set_cmd (v : sfcb_cmd) (s : spi_flash_cb) :=
  let '(Build_spi_flash_cb a1 a2 a3 a4 a5 _ a7 a8 a9 a10 a11 a12 a13 a14 a15) := s in
  Build_spi_flash_cb a1 a2 a3 a4 a5 v a7 a8 a9 a10 a11 a12 a13 a14 a15.
Definition set_uint8Stg (v : sfcb_stg) (s : spi_flash_cb) :=
  let '(Build_spi_flash_cb a1 a2 a3 a4 a5 a6 _ a8 a9 a10 a11 a12 a13 a14 a15) := s in
  Build_spi_flash_cb a1 a2 a3 a4 a5 a6 v a8 a9 a10 a11 a12 a13 a14 a15.
Definition set_error (v : sfcb_error) (s : spi_flash_cb) :=
  let '(Build_spi_flash_cb a1 a2 a3 a4 a5 a6 a7 _ a9 a10 a11 a12 a13 a14 a15) := s in
  Build_spi_flash_cb a1 a2 a3 a4 a5 a6 a7 v a9 a10 a11 a12 a13 a14 a15.
Definition set_ptrCbs (v : list spi_flash_cb_elem) (s : spi_flash_cb) :=
  let '(Build_spi_flash_cb a1 a2 a3 a4 a5 a6 a7 a8 _ a10 a11 a12 a13 a14 a15) := s in
  Build_spi_flash_cb a1 a2 a3 a4 a5 a6 a7 a8 v a10 a11 a12 a13 a14 a15.
Definition set_uint8Spi (v : Buf.t) (s : spi_flash_cb) :=
  let '(Build_spi_flash_cb a1 a2 a3 a4 a5 a6 a7 a8 a9 _ a11 a12 a13 a14 a15) := s in
  Build_spi_flash_cb a1 a2 a3 a4 a5 a6 a7 a8 a9 v a11 a12 a13 a14 a15.
Definition set_uint8IterCb (v : Z) (s : spi_flash_cb) :=
  let '(Build_spi_flash_cb a1 a2 a3 a4 a5 a6 a7 a8 a9 a10 _ a12 a13 a14 a15) := s in
  Build_spi_flash_cb a1 a2 a3 a4 a5 a6 a7 a8 a9 a10 v a12 a13 a14 a15.
Definition set_uint16IterElem (v : Z) (s : spi_flash_cb) :=
  let '(Build_spi_flash_cb a1 a2 a3 a4 a5 a6 a7 a8 a9 a10 a11 _ a13 a14 a15) := s in
  Build_spi_flash_cb a1 a2 a3 a4 a5 a6 a7 a8 a9 a10 a11 v a13 a14 a15.
Definition set_uint32IterPage (v : Z) (s : spi_flash_cb) :=
  let '(Build_spi_flash_cb a1 a2 a3 a4 a5 a6 a7 a8 a9 a10 a11 a12 _ a14 a15) := s in
  Build_spi_flash_cb a1 a2 a3 a4 a5 a6 a7 a8 a9 a10 a11 a12 v a14 a15.
Definition set_ptrData (v : list Z) (s : spi_flash_cb) :=
  let '(Build_spi_flash_cb a1 a2 a3 a4 a5 a6 a7 a8 a9 a10 a11 a12 a13 _ a15) := s in
  Build_spi_flash_cb a1 a2 a3 a4 a5 a6 a7 a8 a9 a10 a11 a12 a13 v a15.
Definition set_uint16DataLen (v : Z) (s : spi_flash_cb) :=
  let '(Build_spi_flash_cb a1 a2 a3 a4 a5 a6 a7 a8 a9 a10 a11 a12 a13 a14 _) := s in
  Build_spi_flash_cb a1 a2 a3 a4 a5 a6 a7 a8 a9 a10 a11 a12 a13 a14 v.

(** [self->uint8Spi[i] = v] *)
Definition set_spi (i v : Z) (s : spi_flash_cb) : spi_flash_cb :=
  set_uint8Spi (Buf.poke i v s.(uint8Spi)) s.

(** *** The queue table *)

Definition elem_zero : spi_flash_cb_elem :=
  Build_spi_flash_cb_elem 0 0 0 0 0 0 0 0 0 0 0 0.

(** the descriptor [self->ptrCbs[i]] *)
Definition cb (s : spi_flash_cb) (i : Z) : spi_flash_cb_elem :=
  nth (Z.to_nat i) s.(ptrCbs) elem_zero.

Fixpoint list_upd {A : Type} (n : nat) (f : A -> A) (l : list A) : list A :=
  match l, n with
  | [], _ => []
  | x :: l', O => f x :: l'
  | x :: l', S n' => x :: list_upd n' f l'
  end.

(** an assignment to members of [ptrCbs[i]] *)
Definition upd_cb (i : Z) (f : spi_flash_cb_elem -> spi_flash_cb_elem)
    (s : spi_flash_cb) : spi_flash_cb :=
  set_ptrCbs (list_upd (Z.to_nat i) f s.(ptrCbs)) s.

(** ** The driver *)

Definition type_zero : spi_flash_cb_type :=
  Build_spi_flash_cb_type 0 0 0 0 0 0 0 0 0 0.

(** [spi_flash_cb_ceildivide], on [uint32_t] operands.  (A zero divisor
    is a division by zero in C; [Z.div] gives 0 there.) *)
Definition spi_flash_cb_ceildivide (dividend divisor : Z) : Z :=
  if negb (dividend =? 0)
  then wrap32 (1 + (wrap32 (dividend - 1)) / divisor)
  else wrap32 (dividend + divisor - 1) / divisor.

(** [spi_flash_cb_max]: the parameters are [uint16_t], the result is
    [uint32_t]. *)
Definition spi_flash_cb_max (val1 val2 : Z) : Z :=
  let val1 := wrap16 val1 in
  let val2 := wrap16 val2 in
  if val1 >? val2 then val1 else val2.

(** the loop of [sfcb_init] over the first [n] slots *)
Fixpoint init_list (n : nat) (l : list spi_flash_cb_elem) : list spi_flash_cb_elem :=
  match n, l with
  | S n', e :: l' => set_uint8Init 0 (set_uint8Used 0 e) :: init_list n' l'
  | _, _ => l
  end.

Section Driver.

(** The table of supported flash types and the size of [uint8Spi]. *)
Variable SPI_FLASH_CB_TYPES : list spi_flash_cb_type.
Variable SFCB_SPI_BUF : Z.

(** [SPI_FLASH_CB_TYPES[self->uint8FlashType]] *)
Definition flash (self : spi_flash_cb) : spi_flash_cb_type :=
  nth (Z.to_nat self.(uint8FlashType)) SPI_FLASH_CB_TYPES type_zero.

(** *** sfcb_init *)
Definition sfcb_init (self : spi_flash_cb) (flashType : Z)
    (cbMem : list spi_flash_cb_elem) (numCbs : Z) : Z * spi_flash_cb :=
  if flashType >? Z.of_nat (length SPI_FLASH_CB_TYPES) - 1 then (1, self)
  else
    let self := set_uint8FlashType flashType self in
    let self := set_uint8FlashPresent 0 self in
    let self := set_uint8NumCbs numCbs self in
    let self := set_uint16SpiLen 0 self in
    let self := set_uint8Busy 0 self in
    let self := set_cmd IDLE self in
    let self := set_uint8Stg SFCB_STG_00 self in
    let self := set_ptrCbs cbMem self in
    let self := set_ptrCbs (init_list (Z.to_nat numCbs) self.(ptrCbs)) self in
    (0, self).

(** *** sfcb_new_cb *)

(** [2*sizeof(uint32MagicNum) + sizeof(uint32IdNumMax)], both members
    being [uint32_t] *)
Definition uint8NumHeadBytes : Z := 2 * 4 + 4.

(** The search for a free slot: from slot [k] with [n] slots left,
    the slot the loop stops at and [uint32StartSector] there. *)
Fixpoint new_cb_scan (self : spi_flash_cb) (n : nat) (k start : Z) : Z * Z :=
  match n with
  | O => (k, start)
  | S n' =>
      if (cb self k).(uint8Used) =? 0 then (k, start)
      else new_cb_scan self n' (k + 1)
             (wrap32 ((cb self k).(uint32StopSector) + 1))
  end.

(** [uint16NumPagesPerElem] as [sfcb_new_cb] stores it *)
Definition new_cb_NumPagesPerElem (self : spi_flash_cb) (elemSizeByte : Z) : Z :=
  wrap16 (spi_flash_cb_ceildivide (wrap32 (elemSizeByte + uint8NumHeadBytes))
            (flash self).(uint32FlashTopoPageSizeByte)).

(** the local [uint32NumSectors] of [sfcb_new_cb]; the product of the two
    promoted [uint16_t] operands is taken modulo [2^32] (as an [int] it
    overflows in C above [2^31 - 1]) *)
Definition new_cb_NumSectors (self : spi_flash_cb) (numElems ppe : Z) : Z :=
  spi_flash_cb_max 2
    (spi_flash_cb_ceildivide (wrap32 (numElems * ppe))
       (flash self).(uint8FlashTopoPagesPerSector)).

(** The result is the return code, the handle and the value of [*cbID]
    after the call. *)
Definition sfcb_new_cb (self : spi_flash_cb)
    (magicNum elemSizeByte numElems cbID : Z) : Z * spi_flash_cb * Z :=
  let '(uint8FreeCbEntry, uint32StartSector') :=
    new_cb_scan self (Z.to_nat self.(uint8NumCbs)) 0 0 in
  if uint8FreeCbEntry =? self.(uint8NumCbs) then (1, self, cbID)
  else
    let k := uint8FreeCbEntry in
    let ppe := new_cb_NumPagesPerElem self elemSizeByte in
    let uint32NumSectors := new_cb_NumSectors self numElems ppe in
    let self := upd_cb k (set_uint8Used 1) self in
    let self := upd_cb k (set_uint32IdNumMax 0) self in
    let self := upd_cb k (set_uint32IdNumMin (wrap32 (-1))) self in
    let self := upd_cb k (set_uint32MagicNum magicNum) self in
    let self := upd_cb k (set_uint16NumPagesPerElem ppe) self in
    let self := upd_cb k (set_uint32StartSector uint32StartSector') self in
    let self := upd_cb k (fun e => set_uint32StopSector
                  (wrap32 (e.(uint32StartSector) + uint32NumSectors - 1)) e) self in
    let self := upd_cb k (set_uint16NumEntriesMax
                  (wrap16 (wrap32 (uint32NumSectors *
                     (flash self).(uint8FlashTopoPagesPerSector))))) self in
    let self := upd_cb k (set_uint16NumEntries 0) self in
    (0, self, k).

(** *** sfcb_busy, sfcb_spi_len *)
Definition sfcb_busy (self : spi_flash_cb) : Z :=
  if negb (self.(uint8Busy) =? 0) then -1 else 0.

Definition sfcb_spi_len (self : spi_flash_cb) : Z := self.(uint16SpiLen).

(** *** sfcb_mkcb *)

(** the loop that picks the queue the scan starts with *)
Fixpoint mkcb_first (self : spi_flash_cb) (n : nat) (i iterCb : Z) : Z :=
  match n with
  | O => iterCb
  | S n' =>
      if ((cb self i).(uint8Used) =? 0) || ((cb self i).(uint8Init) =? 0)
      then iterCb
      else mkcb_first self n' (i + 1) i
  end.

Definition sfcb_mkcb (self : spi_flash_cb) : Z * spi_flash_cb :=
  if negb (self.(uint8Busy) =? 0) then (1, self)
  else if (cb self 0).(uint8Used) =? 0 then (2, self)
  else
    let self := set_uint8IterCb 0 self in
    let self := set_uint8IterCb
                  (mkcb_first self (Z.to_nat self.(uint8NumCbs)) 0
                     self.(uint8IterCb)) self in
    let self := set_cmd MKCB self in
    let self := set_uint16IterElem 0 self in
    let self := set_uint8Stg SFCB_STG_00 self in
    let self := set_error NO self in
    let self := set_uint8Busy 1 self in
    (0, self).

(** *** sfcb_add *)
Definition sfcb_add (self : spi_flash_cb) (cbID : Z) (data : list Z) (len : Z)
    : Z * spi_flash_cb :=
  if negb (self.(uint8Busy) =? 0) then (1, self)
  else if ((cb self cbID).(uint8Used) =? 0) || ((cb self cbID).(uint8Init) =? 0)
  then (2, self)
  else if len >? wrap32 ((cb self cbID).(uint16NumPagesPerElem) *
                         (flash self).(uint32FlashTopoPageSizeByte))
  then (4, self)
  else
    let self := set_uint8IterCb cbID self in
    let self := upd_cb self.(uint8IterCb) (set_uint8Init 0) self in
    let self := set_uint32IterPage
                  (cb self self.(uint8IterCb)).(uint32StartPageWrite) self in
    let self := set_ptrData data self in
    let self := set_uint16DataLen len self in
    let self := set_uint16IterElem 0 self in
    let self := set_uint8Busy 1 self in
    let self := set_cmd ADD self in
    let self := set_uint8Stg SFCB_STG_00 self in
    let self := set_error NO self in
    (0, self).

(** *** sfcb_get *)
Definition sfcb_get (self : spi_flash_cb) (cbID : Z) (data : list Z)
    (len lenMax : Z) : Z * spi_flash_cb :=
  if negb (self.(uint8Busy) =? 0) then (1, self)
  else if ((cb self cbID).(uint8Used) =? 0) || ((cb self cbID).(uint8Init) =? 0)
  then (2, self)
  else (0, self).

(** *** sfcb_flash_read *)
Definition sfcb_flash_read (self : spi_flash_cb) (adr : Z) (data : list Z)
    (len : Z) : Z * spi_flash_cb :=
  if negb (self.(uint8Busy) =? 0) then (1, self)
  else
    let self := set_ptrData data self in
    let self := set_uint16DataLen len self in
    let self := set_uint32IterPage adr self in
    let self := set_uint8Busy 1 self in
    let self := set_cmd RAW self in
    let self := set_uint8Stg SFCB_STG_00 self in
    let self := set_error NO self in
    (0, self).

(** *** sfcb_worker *)

(** the end of a job *)
Definition go_idle (self : spi_flash_cb) : spi_flash_cb :=
  let self := set_uint16SpiLen 0 self in
  let self := set_cmd IDLE self in
  let self := set_uint8Stg SFCB_STG_00 self in
  set_uint8Busy 0 self.

(** the condition of the stage-0 poll: first request, or write in progress *)
Definition wip_pending (self : spi_flash_cb) : bool :=
  (self.(uint16SpiLen) =? 0) ||
  negb (Z.land (self.(uint8Spi) 1) (flash self).(uint8FlashMngWipMsk) =? 0).

(** the read-status packet *)
Definition req_status (self : spi_flash_cb) : spi_flash_cb :=
  let self := set_spi 0 (flash self).(uint8FlashIstRdStateReg) self in
  let self := set_spi 1 0 self in
  set_uint16SpiLen 2 self.

(** the three address bytes of a packet, high byte first *)
Definition put_addr (a : Z) (self : spi_flash_cb) : spi_flash_cb :=
  let self := set_spi 1 (Z.land (Z.shiftr a 16) 255) self in
  let self := set_spi 2 (Z.land (Z.shiftr a 8) 255) self in
  set_spi 3 (Z.land a 255) self.

(** the header the response carries behind the read instruction *)
Definition head_MagicNum (self : spi_flash_cb) : Z := Buf.get32 4 self.(uint8Spi).
Definition head_IdNum (self : spi_flash_cb) : Z := Buf.get32 8 self.(uint8Spi).

(** [uint8Good] after the loop over the header bytes *)
Definition head_unused (self : spi_flash_cb) : bool :=
  forallb (fun b => b =? 255) (Buf.slice 4 (Z.to_nat sizeof_head) self.(uint8Spi)).

(** MKCB, stage 1: the check of the last response *)
Definition mkcb_response (self : spi_flash_cb) : spi_flash_cb :=
  let q := self.(uint8IterCb) in
  if negb (self.(uint16SpiLen) =? 0) then
    if head_MagicNum self =? (cb self q).(uint32MagicNum) then
      let self := upd_cb q (fun e =>
                    set_uint16NumEntries (wrap16 (e.(uint16NumEntries) + 1)) e) self in
      let self :=
        if head_IdNum self >? (cb self q).(uint32IdNumMax)
        then upd_cb q (set_uint32IdNumMax (head_IdNum self)) self
        else self in
      if (cb self q).(uint32IdNumMin) >? head_IdNum self
      then
        let self := upd_cb q (set_uint32IdNumMin (head_IdNum self)) self in
        upd_cb q (set_uint32StartPageIdMin self.(uint32IterPage)) self
      else self
    else
      if (cb self q).(uint8Init) =? 0 then
        if head_unused self then
          let self := upd_cb q (set_uint32StartPageWrite self.(uint32IterPage)) self in
          upd_cb q (set_uint8Init 1) self
        else self
      else self
  else self.

Inductive lookahead : Type :=
| AllDone              (* an unused slot: every active queue is processed *)
| Rebuild (i : Z)      (* slot [i] is used and not initialised *)
| NoneFound.           (* the loop ran to [uint8NumCbs] *)

(** the look-ahead loop over the slots [i .. uint8NumCbs - 1] *)
Fixpoint mkcb_lookahead (self : spi_flash_cb) (n : nat) (i : Z) : lookahead :=
  match n with
  | O => NoneFound
  | S n' =>
      if (cb self i).(uint8Used) =? 0 then AllDone
      else if (cb self i).(uint8Init) =? 0 then Rebuild i
      else mkcb_lookahead self n' (i + 1)
  end.

(** MKCB, stage 1 *)
Definition mkcb_stg01 (self : spi_flash_cb) : spi_flash_cb :=
  let self := mkcb_response self in
  let q := self.(uint8IterCb) in
  let self := set_uint32IterPage
      (wrap32 ((cb self q).(uint32StartSector) *
                 (flash self).(uint32FlashTopoSectorSizeByte)
               + (cb self q).(uint16NumPagesPerElem) *
                 (flash self).(uint32FlashTopoPageSizeByte) *
                 self.(uint16IterElem))) self in
  let self := set_uint16SpiLen (4 + sizeof_head) self in
  let self := set_uint8Spi (Buf.memset 0 self.(uint16SpiLen) self.(uint8Spi)) self in
  let self := set_spi 0 (flash self).(uint8FlashIstRdData) self in
  let self := put_addr self.(uint32IterPage) self in
  if self.(uint16IterElem) <? (cb self q).(uint16NumEntriesMax) then
    set_uint16IterElem (wrap16 (self.(uint16IterElem) + 1)) self
  else if negb ((cb self q).(uint8Init) =? 0) then
    let self := set_uint16IterElem 0 self in
    let self := set_uint8IterCb (wrap8 (self.(uint8IterCb) + 1)) self in
    match mkcb_lookahead self
            (Z.to_nat (self.(uint8NumCbs) - self.(uint8IterCb)))
            self.(uint8IterCb) with
    | AllDone => go_idle self
    | Rebuild i => set_uint8IterCb i self
    | NoneFound =>
        if negb (self.(uint8IterCb) <? self.(uint8NumCbs)) then go_idle self
        else self
    end
  else
    let self := set_spi 0 (flash self).(uint8FlashIstWrEnable) self in
    let self := set_uint16SpiLen 1 self in
    set_uint8Stg SFCB_STG_02 self.

(** MKCB, stage 2: the sector erase *)
Definition mkcb_stg02 (self : spi_flash_cb) : spi_flash_cb :=
  let uint32Temp := (cb self self.(uint8IterCb)).(uint32IdNumMin) in
  let self := set_spi 0 (flash self).(uint8FlashIstEraseSector) self in
  let self := put_addr uint32Temp self in
  let self := set_uint16SpiLen 4 self in
  set_uint8Stg SFCB_STG_03 self.

(** MKCB, stage 3 *)
Definition mkcb_stg03 (self : spi_flash_cb) : spi_flash_cb :=
  let self := set_uint16IterElem 0 self in
  let self := req_status self in
  set_uint8Stg SFCB_STG_00 self.

(** ADD, stage 1 *)
Definition add_stg01 (self : spi_flash_cb) : spi_flash_cb :=
  if self.(uint16IterElem) <? self.(uint16DataLen) then
    let self := set_spi 0 (flash self).(uint8FlashIstWrEnable) self in
    let self := set_uint16SpiLen 1 self in
    set_uint8Stg SFCB_STG_02 self
  else go_idle self.

(** ADD, stage 2: one page program *)
Definition add_stg02 (self : spi_flash_cb) : spi_flash_cb :=
  let self := set_spi 0 (flash self).(uint8FlashIstWrPage) self in
  let self := put_addr self.(uint32IterPage) self in
  let self := set_uint16SpiLen 4 self in
  let uint16PagesBytesAvail := wrap16 (flash self).(uint32FlashTopoPageSizeByte) in
  (* on the first packet the header goes in front of the data *)
  let first := self.(uint16IterElem) =? 0 in
  let self :=
    if first then
      let head := Buf.bytes32 (cb self self.(uint8IterCb)).(uint32MagicNum) ++
                  Buf.bytes32 (wrap32 ((cb self self.(uint8IterCb)).(uint32IdNumMax) + 1)) in
      let self := set_uint8Spi
                    (Buf.memcpy self.(uint16SpiLen) head sizeof_head self.(uint8Spi)) self in
      set_uint16SpiLen (wrap16 (self.(uint16SpiLen) + sizeof_head)) self
    else self in
  let uint16PagesBytesAvail :=
    if first then wrap16 (uint16PagesBytesAvail - sizeof_head)
    else uint16PagesBytesAvail in
  let uint16CpyLen :=
    if self.(uint16DataLen) - self.(uint16IterElem) >? uint16PagesBytesAvail
    then uint16PagesBytesAvail
    else wrap16 (self.(uint16DataLen) - self.(uint16IterElem)) in
  let self := set_uint8Spi
                (Buf.memcpy self.(uint16SpiLen)
                   (skipn (Z.to_nat self.(uint16IterElem)) self.(ptrData))
                   uint16CpyLen self.(uint8Spi)) self in
  let self := set_uint16SpiLen (wrap16 (self.(uint16SpiLen) + uint16CpyLen)) self in
  let self := set_uint16IterElem (wrap16 (self.(uint16IterElem) + uint16CpyLen)) self in
  let self := set_uint32IterPage (wrap32 (self.(uint32IterPage) + 1)) self in
  set_uint8Stg SFCB_STG_00 self.

(** RAW, stage 1: the size check has no [return], the packet is
    assembled after it in either case.  When the check fails, the
    [memset] of [uint16DataLen + 4] bytes runs past the end of the array
    (and so does the transfer of [uint16SpiLen] bytes that the host
    performs next): the model shows the bytes written at the indices from
    [SFCB_SPI_BUF] on and nothing of what they overwrite in C.  What the
    worker call itself assigns is modelled in full; what holds after it
    of the other members and of the table is stated under [reads_fit]
    and [handle_fits] only. *)
Definition raw_stg01 (self : spi_flash_cb) : spi_flash_cb :=
  let self :=
    if SFCB_SPI_BUF <? self.(uint16DataLen) + 4 then
      let self := set_uint8Busy 0 self in
      let self := set_cmd IDLE self in
      let self := set_uint8Stg SFCB_STG_00 self in
      set_error SPI_BUF_SIZE self
    else self in
  let self := set_uint16SpiLen (wrap16 (self.(uint16DataLen) + 4)) self in
  let self := set_uint8Spi (Buf.memset 0 self.(uint16SpiLen) self.(uint8Spi)) self in
  let self := set_spi 0 (flash self).(uint8FlashIstRdData) self in
  let self := put_addr self.(uint32IterPage) self in
  set_uint8Stg SFCB_STG_02 self.

(** RAW, stage 2: the copy into the application buffer *)
Definition raw_stg02 (self : spi_flash_cb) : spi_flash_cb :=
  let self := set_ptrData
                (Buf.slice 4 (Z.to_nat self.(uint16DataLen)) self.(uint8Spi) ++
                 skipn (Z.to_nat self.(uint16DataLen)) self.(ptrData)) self in
  go_idle self.

(** One call of the worker.  A stage without a [case] in the [switch]
    of its command leaves the handle as it is, and so does [GET]. *)
Definition sfcb_worker (self : spi_flash_cb) : spi_flash_cb :=
  match self.(cmd) with
  | IDLE => self
  | MKCB =>
      match self.(uint8Stg) with
      | SFCB_STG_00 =>
          if wip_pending self then req_status self
          else
            let self := set_uint16SpiLen 0 self in
            let self := set_uint8Stg SFCB_STG_01 self in
            mkcb_stg01 self
      | SFCB_STG_01 => mkcb_stg01 self
      | SFCB_STG_02 => mkcb_stg02 self
      | SFCB_STG_03 => mkcb_stg03 self
      end
  | ADD =>
      match self.(uint8Stg) with
      | SFCB_STG_00 =>
          if wip_pending self then req_status self
          else
            let self := set_uint8Stg SFCB_STG_01 self in
            add_stg01 self
      | SFCB_STG_01 => add_stg01 self
      | SFCB_STG_02 => add_stg02 self
      | SFCB_STG_03 => self
      end
  | GET => self
  | RAW =>
      match self.(uint8Stg) with
      | SFCB_STG_00 =>
          if wip_pending self then req_status self
          else
            let self := set_uint16SpiLen 0 self in
            let self := set_uint8Stg SFCB_STG_01 self in
            raw_stg01 self
      | SFCB_STG_01 => raw_stg01 self
      | SFCB_STG_02 => raw_stg02 self
      | SFCB_STG_03 => self
      end
  end.

End Driver.

(** ** The job API as one entry point, and traces *)

Inductive api_call : Type :=
| Mkcb
| Add (cbID : Z) (data : list Z) (len : Z)
| Get (cbID : Z) (data : list Z) (len lenMax : Z)
| FlashRead (adr : Z) (data : list Z) (len : Z)
| NewCb (magicNum elemSizeByte numElems : Z).

(** What the application and the host do to the handle: call the worker,
    put the response of an SPI transfer into [uint8Spi], or call the API. *)
Inductive event : Type :=
| Worker
| Transfer (resp : Buf.t)
| Api (c : api_call).

Definition is_io (e : event) : bool :=
  match e with Worker | Transfer _ => true | Api _ => false end.

Section Traces.

Variable SPI_FLASH_CB_TYPES : list spi_flash_cb_type.
Variable SFCB_SPI_BUF : Z.

(** return code and handle after an API call *)
Definition call (self : spi_flash_cb) (c : api_call) : Z * spi_flash_cb :=
  match c with
  | Mkcb => sfcb_mkcb self
  | Add cbID data len => sfcb_add SPI_FLASH_CB_TYPES self cbID data len
  | Get cbID data len lenMax => sfcb_get self cbID data len lenMax
  | FlashRead adr data len => sfcb_flash_read self adr data len
  | NewCb magicNum elemSizeByte numElems =>
      fst (sfcb_new_cb SPI_FLASH_CB_TYPES self magicNum elemSizeByte numElems 0)
  end.

Definition exec (self : spi_flash_cb) (e : event) : spi_flash_cb :=
  match e with
  | Worker => sfcb_worker SPI_FLASH_CB_TYPES SFCB_SPI_BUF self
  | Transfer resp => set_uint8Spi resp self
  | Api c => snd (call self c)
  end.

Definition run (tr : list event) (self : spi_flash_cb) : spi_flash_cb :=
  fold_left exec tr self.

(** the event is the worker call that ends a mount job *)
Definition ends_mount (self : spi_flash_cb) (e : event) : bool :=
  match e, cmd self, cmd (exec self e) with
  | Worker, MKCB, IDLE => true
  | _, _, _ => false
  end.

(** no mount job runs to its end in the trace *)
Fixpoint no_mount_done (tr : list event) (self : spi_flash_cb) : bool :=
  match tr with
  | [] => true
  | e :: tr' => negb (ends_mount self e) && no_mount_done tr' (exec self e)
  end.

End Traces.

(** ** Runs inside the SPI buffer *)

(** The request fits the buffer: a raw read of [len] bytes needs
    [len + 4] bytes of [uint8Spi], the bound of the size check in stage 1
    of the raw read.  No other event hands a length to the buffer. *)
Definition read_fits (SFCB_SPI_BUF : Z) (e : event) : bool :=
  match e with
  | Api (FlashRead _ _ len) => len + 4 <=? SFCB_SPI_BUF
  | _ => true
  end.

(** No raw read of the trace exceeds the buffer. *)
Definition reads_fit (SFCB_SPI_BUF : Z) (tr : list event) : bool :=
  forallb (read_fits SFCB_SPI_BUF) tr.

(** The raw read in flight, if there is one, passes the size check. *)
Definition raw_fits (SFCB_SPI_BUF : Z) (self : spi_flash_cb) : bool :=
  match self.(cmd) with
  | RAW => self.(uint16DataLen) + 4 <=? SFCB_SPI_BUF
  | _ => true
  end.


(** ** A host with a flash, to run jobs on concrete inputs *)

Module Host.

(** the flash memory, byte address to byte *)
Definition mem : Type := Z -> Z.

Definition erased : mem := fun _ => 255.

Definition addr24 (p : Buf.t) : Z := 2 ^ 16 * p 1 + 2 ^ 8 * p 2 + p 3.

(** Modelled from the spec: the host and the flash device are not part
    of the driver; this is the transfer of sections 4.3 and 6.  One
    full-duplex transfer of [len] bytes: a status read returns a status
    byte with no bit set in the second slot; a data read returns the
    flash content from offset 4 on; a sector erase sets the sector of
    the address to [0xFF]; a page program clears the bits the packet's
    payload has cleared.  The response to a program, an erase or a write
    enable is left as the packet was. *)
Definition transfer (ft : spi_flash_cb_type) (fl : mem) (len : Z) (p : Buf.t)
    : mem * Buf.t :=
  if len =? 0 then (fl, p)
  else if p 0 =? ft.(uint8FlashIstRdStateReg) then (fl, Buf.poke 1 0 p)
  else if p 0 =? ft.(uint8FlashIstRdData) then
    (fl, fun j => if (4 <=? j) && (j <? len) then fl (addr24 p + (j - 4)) else p j)
  else if p 0 =? ft.(uint8FlashIstEraseSector) then
    (fun a => if a / ft.(uint32FlashTopoSectorSizeByte)
                 =? addr24 p / ft.(uint32FlashTopoSectorSizeByte)
              then 255 else fl a, p)
  else if p 0 =? ft.(uint8FlashIstWrPage) then
    (fun a => if (addr24 p <=? a) && (a <? addr24 p + (len - 4))
              then Z.land (fl a) (p (a - addr24 p + 4)) else fl a, p)
  else (fl, p).

Section Loop.

Variable SPI_FLASH_CB_TYPES : list spi_flash_cb_type.
Variable SFCB_SPI_BUF : Z.

(** one worker call, then the transfer of the packet it left *)
Definition step (st : mem * spi_flash_cb) : mem * spi_flash_cb :=
  let self := sfcb_worker SPI_FLASH_CB_TYPES SFCB_SPI_BUF (snd st) in
  let '(fl, resp) := transfer (flash SPI_FLASH_CB_TYPES self) (fst st)
                       self.(uint16SpiLen) self.(uint8Spi) in
  (fl, set_uint8Spi resp self).

Fixpoint steps (n : nat) (st : mem * spi_flash_cb) : mem * spi_flash_cb :=
  match n with
  | O => st
  | S n' => steps n' (step st)
  end.

(** the host loop: worker calls until the driver is idle, at most [n] *)
Fixpoint until_idle (n : nat) (st : mem * spi_flash_cb) : mem * spi_flash_cb :=
  match n with
  | O => st
  | S n' => if (snd st).(uint8Busy) =? 0 then st else until_idle n' (step st)
  end.

End Loop.

End Host.

(** ** Concrete data for the examples *)

(** A flash type with the geometry of the specification's scenarios:
    pages of 256 bytes, 16 pages per sector, sectors of 4096 bytes. *)
Definition flash_4k : spi_flash_cb_type := {|
  uint32FlashTopoTotalSizeByte := 2097152;
  uint32FlashTopoSectorSizeByte := 4096;
  uint32FlashTopoPageSizeByte := 256;
  uint8FlashTopoPagesPerSector := 16;
  uint8FlashIstRdData := 3;
  uint8FlashIstRdStateReg := 5;
  uint8FlashIstWrEnable := 6;
  uint8FlashIstEraseSector := 32;
  uint8FlashIstWrPage := 2;
  uint8FlashMngWipMsk := 1
|}.

Definition types_ex : list spi_flash_cb_type := [flash_4k].

Definition spi_buf_ex : Z := 266.

(** a handle and a queue table before [sfcb_init]: memory of any content *)
Definition mem_elem : spi_flash_cb_elem :=
  Build_spi_flash_cb_elem 170 170 170 170 170 170 170 170 170 170 170 170.

Definition handle_raw : spi_flash_cb := {|
  uint8FlashType := 170; uint8FlashPresent := 170; uint8NumCbs := 170;
  uint16SpiLen := 170; uint8Busy := 170; cmd := RAW; uint8Stg := SFCB_STG_03;
  error := SPI_BUF_SIZE; ptrCbs := []; uint8Spi := fun _ => 170;
  uint8IterCb := 170; uint16IterElem := 170; uint32IterPage := 170;
  ptrData := []; uint16DataLen := 170
|}.

(** [sfcb_init] with a table of [n] slots *)
Definition handle_init (n : nat) : spi_flash_cb :=
  snd (sfcb_init types_ex handle_raw 0 (repeat mem_elem n) (Z.of_nat n)).

(** one queue registered: magic [0xA], 100 bytes per element, 32 elements *)
Definition handle_q0 : spi_flash_cb :=
  snd (fst (sfcb_new_cb types_ex (handle_init 1) 10 100 32 0)).

(** the same in a table of two slots, the second one free *)
Definition handle_q0_of2 : spi_flash_cb :=
  snd (fst (sfcb_new_cb types_ex (handle_init 2) 10 100 32 0)).

(** [handle_q0] after a mount on an erased flash *)
Definition mounted_empty : Host.mem * spi_flash_cb :=
  Host.until_idle types_ex spi_buf_ex 100
    (Host.erased, snd (sfcb_mkcb handle_q0)).

(** an append of three bytes to queue 0, run until the driver is idle *)
Definition append_ex (st : Host.mem * spi_flash_cb) : Host.mem * spi_flash_cb :=
  Host.until_idle types_ex spi_buf_ex 100
    (fst st, snd (sfcb_add types_ex (snd st) 0 [17; 34; 51] 3)).

(** a mount, run until the driver is idle *)
Definition mount_ex (st : Host.mem * spi_flash_cb) : Host.mem * spi_flash_cb :=
  Host.until_idle types_ex spi_buf_ex 100 (fst st, snd (sfcb_mkcb (snd st))).

(** A full queue 0 that has wrapped: every page of its two sectors holds
    a record with magic [0xA]; pages 0..15 carry the ids 17..32 and pages
    16..31 the ids 1..16, so the oldest record is at byte address 4096. *)
Definition flash_wrapped : Host.mem :=
  fun a =>
    let page := a / 256 in
    let off := a mod 256 in
    let id := if page <? 16 then page + 17 else page - 15 in
    if (0 <=? a) && (a <? 8192) && (off <? 8)
    then nth (Z.to_nat off) (Buf.bytes32 10 ++ Buf.bytes32 id) 255
    else 255.

(** a raw read of 263 bytes, three more than [uint8Spi] has room for
    behind the instruction: the job after the status poll *)
Definition raw_job_ex : Host.mem * spi_flash_cb :=
  Host.steps types_ex spi_buf_ex 1
    (Host.erased, snd (sfcb_flash_read (handle_init 1) 0 (repeat 0 263%nat) 263)).

(** the mount of [handle_q0] on [flash_wrapped], after the scan of all
    32 pages and the write enable *)
Definition mount_full_ex : Host.mem * spi_flash_cb :=
  Host.steps types_ex spi_buf_ex 34 (flash_wrapped, snd (sfcb_mkcb handle_q0)).

(** a mount in flight, with a free slot in the table *)
Definition busy_ex : spi_flash_cb := snd (sfcb_mkcb handle_q0_of2).

(** a queue with the magic number [0xA5A5A5A5], 100 bytes per element,
    32 elements, mounted on an erased flash *)
Definition magic_a5 : Z := 2779096485.

Definition mounted_a5 : Host.mem * spi_flash_cb :=
  Host.until_idle types_ex spi_buf_ex 100
    (Host.erased,
     snd (sfcb_mkcb (snd (fst (sfcb_new_cb types_ex (handle_init 1) magic_a5 100 32 0))))).

(** an append of [n] zero bytes to it, run until the driver is idle *)
Definition append_a5 (n : nat) : Host.mem * spi_flash_cb :=
  Host.until_idle types_ex spi_buf_ex 100
    (fst mounted_a5,
     snd (sfcb_add types_ex (snd mounted_a5) 0 (repeat 0 n) (Z.of_nat n))).

(** the response of a host whose flash is idle and reads as zero *)
Definition resp_zero : Buf.t := fun _ => 0.

(** worker calls and transfers that drive an append of one page *)
Definition io_ex : list event :=
  [Worker; Transfer resp_zero; Worker; Transfer resp_zero;
   Worker; Transfer resp_zero; Worker].


(** ** Registration: the layout of the table *)

(** The ceiling of [x / d], as the specification states it. *)
Definition ceil_div (x d : Z) : Z := (x + d - 1) / d.

Fixpoint all_unused (self : spi_flash_cb) (n : nat) (i : Z) : bool :=
  match n with
  | O => true
  | S n' => ((cb self i).(uint8Used) =? 0) && all_unused self n' (i + 1)
  end.

(** The slots [i .. i + n - 1]: the used ones come first, the first of
    them starts at sector [start], each starts behind the one before it
    and owns between 2 and 65535 sectors. *)
Fixpoint layout_from (self : spi_flash_cb) (n : nat) (i start : Z) : bool :=
  match n with
  | O => true
  | S n' =>
      if (cb self i).(uint8Used) =? 0 then all_unused self n' (i + 1)
      else ((cb self i).(uint32StartSector) =? start)
           && (start + 1 <=? (cb self i).(uint32StopSector))
           && ((cb self i).(uint32StopSector) <=? start + 65534)
           && layout_from self n' (i + 1) ((cb self i).(uint32StopSector) + 1)
  end.

(** The layout [sfcb_init] and [sfcb_new_cb] build: a table of at most
    255 slots, all inside the caller's memory, laid out from sector 0. *)
Definition layout_ok (self : spi_flash_cb) : bool :=
  (0 <=? self.(uint8NumCbs)) && (self.(uint8NumCbs) <? 2 ^ 8)
  && (self.(uint8NumCbs) <=? Z.of_nat (length self.(ptrCbs)))
  && layout_from self (Z.to_nat self.(uint8NumCbs)) 0 0.

(** ** Invariants of a job *)

(** The handle keeps the table [t], and its command is [c] or [IDLE]. *)
Definition keeps (c : sfcb_cmd) (t : list spi_flash_cb_elem) (s : spi_flash_cb) : Prop :=
  ptrCbs s = t /\ (cmd s = c \/ cmd s = IDLE).

(** The queue [cbID] is dirty: its initialised flag is clear and no MKCB
    job is in flight that could set it. *)
Definition dirty (cbID : Z) (self : spi_flash_cb) : Prop :=
  cmd self <> MKCB /\ uint8Init (cb self cbID) = 0.

(** A mount job in flight with [uint8Busy = b], or ended. *)
Definition mount_runs (b : Z) (s : spi_flash_cb) : Prop :=
  (cmd s = MKCB /\ uint8Busy s = b) \/ cmd s = IDLE.

(** The queue [cbID] cannot take a request: it is dirty, or a mount job
    is in flight and the driver busy with it. *)
Definition pending (cbID : Z) (self : spi_flash_cb) : Prop :=
  dirty cbID self \/ (cmd self = MKCB /\ uint8Busy self <> 0).

(** What the layout of the table is made of. *)
Definition geometry (s : spi_flash_cb) : Z * list (Z * Z * Z) :=
  (uint8NumCbs s,
   map (fun e => (uint8Used e, uint32StartSector e, uint32StopSector e)) (ptrCbs s)).

Definition same_geometry (g : Z * list (Z * Z * Z)) (s : spi_flash_cb) : Prop :=
  geometry s = g.

(** ** Further functions and invariants *)

(** *** sfcb_flash_size *)
Definition sfcb_flash_size (SPI_FLASH_CB_TYPES : list spi_flash_cb_type)
    (self : spi_flash_cb) : Z :=
  (flash SPI_FLASH_CB_TYPES self).(uint32FlashTopoTotalSizeByte).

(** What a registration fixes for a queue. *)
Definition registration (e : spi_flash_cb_elem) : Z * Z * Z * Z * Z * Z :=
  (uint8Used e, uint32MagicNum e, uint16NumPagesPerElem e,
   uint32StartSector e, uint32StopSector e, uint16NumEntriesMax e).

(** [raw_fits] as an invariant of a run. *)
Definition raw_ok (SFCB_SPI_BUF : Z) (s : spi_flash_cb) : Prop :=
  raw_fits SFCB_SPI_BUF s = true.

(** The command and the busy flag after a worker call: as before, or
    the job has ended. *)
Definition job_step (c : sfcb_cmd) (b : Z) (s : spi_flash_cb) : Prop :=
  (cmd s = c /\ uint8Busy s = b) \/ (cmd s = IDLE /\ uint8Busy s = 0).

(** The busy flag tells whether a job is in flight. *)
Definition job_consistent (s : spi_flash_cb) : Prop :=
  (uint8Busy s = 0 /\ cmd s = IDLE) \/
  (uint8Busy s = 1 /\ (cmd s = MKCB \/ cmd s = ADD \/ cmd s = RAW)).

(** How a worker call may change a descriptor: the registration data
    stay, [uint32IdNumMax] does not decrease, [uint32IdNumMin] does not
    increase, and an initialised queue stays initialised with its
    [uint32StartPageWrite]. *)
Definition scan_order (e0 e : spi_flash_cb_elem) : Prop :=
  registration e = registration e0 /\
  uint32IdNumMax e0 <= uint32IdNumMax e /\
  uint32IdNumMin e <= uint32IdNumMin e0 /\
  (uint8Init e0 <> 0 ->
   uint8Init e <> 0 /\ uint32StartPageWrite e = uint32StartPageWrite e0).

Definition scan_ordered (s0 s : spi_flash_cb) : Prop :=
  length (ptrCbs s) = length (ptrCbs s0) /\
  forall j, scan_order (cb s0 j) (cb s j).

(** The loop of the application: a worker call, then the SPI transfer
    that puts the response [r] into the buffer, once for every response
    of the list. *)
Definition rounds (rs : list Buf.t) : list event :=
  flat_map (fun r => [Worker; Transfer r]) rs.

(** The status byte of the response shows no write in progress. *)
Definition ready (fl : spi_flash_cb_type) (r : Buf.t) : Prop :=
  Z.land (r 1) (uint8FlashMngWipMsk fl) = 0.

(** An append between two page programs: stage 0, a packet sent. *)
Definition add_waits (ft dl : Z) (cbs : list spi_flash_cb_elem)
    (s : spi_flash_cb) : Prop :=
  cmd s = ADD /\ uint8Stg s = SFCB_STG_00 /\ uint8Busy s = 1 /\ error s = NO /\
  uint16SpiLen s <> 0 /\ uint8FlashType s = ft /\ uint16DataLen s = dl /\
  ptrCbs s = cbs /\ 0 <= uint16IterElem s <= dl.

(** An append that has ended. *)
Definition add_done (dl : Z) (cbs : list spi_flash_cb_elem)
    (s : spi_flash_cb) : Prop :=
  cmd s = IDLE /\ uint8Busy s = 0 /\ error s = NO /\ uint16SpiLen s = 0 /\
  uint16IterElem s = dl /\ ptrCbs s = cbs.

(** The eight header bytes of a response read as erased flash. *)
Definition erased_head (r : Buf.t) : Prop :=
  forall i, 4 <= i < 12 -> r i = 255.

(** The address of the first read of the scan of slot 0, and the table
    once that page has been found erased. *)
Definition fresh_adr (SPI_FLASH_CB_TYPES : list spi_flash_cb_type) (ft : Z)
    (t0 : list spi_flash_cb_elem) : Z :=
  let e := nth 0 t0 elem_zero in
  let fl := nth (Z.to_nat ft) SPI_FLASH_CB_TYPES type_zero in
  wrap32 (uint32StartSector e * uint32FlashTopoSectorSizeByte fl
          + uint16NumPagesPerElem e * uint32FlashTopoPageSizeByte fl * 0).

Definition fresh_table (SPI_FLASH_CB_TYPES : list spi_flash_cb_type) (ft : Z)
    (t0 : list spi_flash_cb_elem) : list spi_flash_cb_elem :=
  list_upd 0 (set_uint8Init 1)
    (list_upd 0 (set_uint32StartPageWrite (fresh_adr SPI_FLASH_CB_TYPES ft t0)) t0).

(** The scan of the queue in slot 0 between two reads, the response of
    the last read in the buffer: the table is the one with the queue
    initialised, or it is still [t0] and the last read went to the first
    page. *)
Definition mount_scans (SPI_FLASH_CB_TYPES : list spi_flash_cb_type)
    (ft nc : Z) (t0 : list spi_flash_cb_elem) (s : spi_flash_cb) : Prop :=
  cmd s = MKCB /\ uint8Stg s = SFCB_STG_01 /\ uint8Busy s = 1 /\ error s = NO /\
  uint16SpiLen s = 12 /\ uint8IterCb s = 0 /\ uint8FlashType s = ft /\
  uint8NumCbs s = nc /\
  1 <= uint16IterElem s <= uint16NumEntriesMax (nth 0 t0 elem_zero) /\
  erased_head (uint8Spi s) /\
  (ptrCbs s = fresh_table SPI_FLASH_CB_TYPES ft t0 \/
   (ptrCbs s = t0 /\ uint32IterPage s = fresh_adr SPI_FLASH_CB_TYPES ft t0)).

(** A mount that has ended with the table [t1]. *)
Definition mount_done (t1 : list spi_flash_cb_elem) (s : spi_flash_cb) : Prop :=
  cmd s = IDLE /\ uint8Busy s = 0 /\ error s = NO /\ uint16SpiLen s = 0 /\
  ptrCbs s = t1.

(** The configuration [sfcb_init] sets up. *)
Definition configured (ft nc : Z) (s : spi_flash_cb) : Prop :=
  uint8FlashType s = ft /\ uint8NumCbs s = nc.

(** *** Concrete data for the further properties *)

(** the response of a flash that reads as erased *)
Definition resp_erased : Buf.t := fun _ => 255.

(** a response whose bytes are their own offsets *)
Definition resp_index : Buf.t := fun i => i.

(** an append of three bytes to the mounted queue 0, accepted *)
Definition add_ex : spi_flash_cb :=
  snd (sfcb_add types_ex (snd mounted_empty) 0 [17; 34; 51] 3).

(** the same job after the status poll and the write enable, the page
    program next *)
Definition add_page_ex : spi_flash_cb :=
  run types_ex spi_buf_ex
    [Worker; Transfer resp_zero; Worker; Transfer resp_zero] add_ex.

(** the same job after the page program, the last worker call next *)
Definition add_last_ex : spi_flash_cb :=
  run types_ex spi_buf_ex [Worker; Transfer resp_zero] add_page_ex.

(** the mount of [handle_q0] on [flash_wrapped] after the status poll and
    the first read *)
Definition scan_ex : spi_flash_cb :=
  snd (Host.steps types_ex spi_buf_ex 2 (flash_wrapped, snd (sfcb_mkcb handle_q0))).

(** the mount of [handle_q0_of2] on an erased flash, after the scan of
    the 32 pages of queue 0 *)
Definition scan_end_ex : spi_flash_cb :=
  run types_ex spi_buf_ex (rounds (resp_zero :: repeat resp_erased 32))
    (snd (sfcb_mkcb handle_q0_of2)).

(** * Properties *)

(** ** The queue table under assignments *)

Lemma nth_list_upd {A : Type} (f : A -> A) (d : A) (l : list A) (i j : nat) :
  nth j (list_upd i f l) d =
  if (Nat.eqb i j && Nat.ltb j (length l))%bool then f (nth j l d) else nth j l d.
Proof.
  revert i j. induction l as [|x l IH]; intros i j.
  - rewrite Bool.andb_comm. destruct j, i; reflexivity.
  - destruct i, j; simpl; try reflexivity.
    rewrite IH. reflexivity.
Qed.

Lemma length_list_upd {A : Type} (f : A -> A) (l : list A) (i : nat) :
  length (list_upd i f l) = length l.
Proof.
  revert i. induction l as [|x l IH]; intros [|i]; simpl; auto.
Qed.

Lemma ptrCbs_upd_cb i f s :
  ptrCbs (upd_cb i f s) = list_upd (Z.to_nat i) f (ptrCbs s).
Proof. destruct s; reflexivity. Qed.

(** A member that the assignment [f] does not write reads the same in
    every slot afterwards. *)
Lemma cb_upd_cb_keep {B : Type} (P : spi_flash_cb_elem -> B) i f s j :
  (forall e, P (f e) = P e) -> P (cb (upd_cb i f s) j) = P (cb s j).
Proof.
  intros Hf. unfold cb. rewrite ptrCbs_upd_cb, nth_list_upd.
  destruct (_ && _)%bool; auto.
Qed.

Lemma cb_upd_cb_same i f s :
  (Z.to_nat i < length (ptrCbs s))%nat -> cb (upd_cb i f s) i = f (cb s i).
Proof.
  intros Hi. unfold cb. rewrite ptrCbs_upd_cb, nth_list_upd.
  rewrite Nat.eqb_refl. apply Nat.ltb_lt in Hi. rewrite Hi. reflexivity.
Qed.

Lemma cb_upd_cb_other i f s j :
  Z.to_nat i <> Z.to_nat j -> cb (upd_cb i f s) j = cb s j.
Proof.
  intros Hij. unfold cb. rewrite ptrCbs_upd_cb, nth_list_upd.
  apply Nat.eqb_neq in Hij. rewrite Hij. reflexivity.
Qed.

(** a slot that reads as used lies inside the table *)
Lemma cb_used_in_table s i :
  uint8Used (cb s i) <> 0 -> (Z.to_nat i < length (ptrCbs s))%nat.
Proof.
  intros H. destruct (Nat.lt_ge_cases (Z.to_nat i) (length (ptrCbs s))) as [|Hge]; auto.
  unfold cb in H. rewrite nth_overflow in H by exact Hge. now elim H.
Qed.

(** ** The search for a free slot *)

Lemma new_cb_scan_range s n k start :
  k <= fst (new_cb_scan s n k start) <= k + Z.of_nat n.
Proof.
  revert k start. induction n as [|n IH]; intros k start.
  - simpl. lia.
  - cbn [new_cb_scan]. destruct (_ =? 0).
    + simpl. lia.
    + specialize (IH (k + 1) (wrap32 (uint32StopSector (cb s k) + 1))). lia.
Qed.

(** the slot the loop stops at is free, unless the loop ran to the end *)
Lemma new_cb_scan_free s n k start :
  fst (new_cb_scan s n k start) <> k + Z.of_nat n ->
  uint8Used (cb s (fst (new_cb_scan s n k start))) = 0.
Proof.
  revert k start. induction n as [|n IH]; intros k start.
  - simpl. lia.
  - cbn [new_cb_scan]. destruct (_ =? 0) eqn:E.
    + intros _. simpl. now apply Z.eqb_eq.
    + intros H. apply IH. lia.
Qed.

(** every slot before the one the loop stops at is used *)
Lemma new_cb_scan_used s n k start i :
  k <= i < fst (new_cb_scan s n k start) -> uint8Used (cb s i) <> 0.
Proof.
  revert k start. induction n as [|n IH]; intros k start.
  - simpl. lia.
  - cbn [new_cb_scan]. destruct (_ =? 0) eqn:E.
    + simpl. lia.
    + intros H. destruct (Z.eq_dec i k) as [->|].
      * now apply Z.eqb_neq.
      * apply (IH (k + 1) (wrap32 (uint32StopSector (cb s k) + 1))). lia.
Qed.

(** the loop runs to the end exactly when no slot is free *)
Lemma new_cb_scan_full s :
  0 <= uint8NumCbs s ->
  (fst (new_cb_scan s (Z.to_nat (uint8NumCbs s)) 0 0) = uint8NumCbs s <->
   forall i, 0 <= i < uint8NumCbs s -> uint8Used (cb s i) <> 0).
Proof.
  intros Hn. split.
  - intros H i Hi. apply (new_cb_scan_used s (Z.to_nat (uint8NumCbs s)) 0 0). lia.
  - intros H.
    pose proof (new_cb_scan_range s (Z.to_nat (uint8NumCbs s)) 0 0) as R.
    destruct (Z.eq_dec (fst (new_cb_scan s (Z.to_nat (uint8NumCbs s)) 0 0))
                (uint8NumCbs s)) as [|Hne]; auto.
    exfalso. apply (H (fst (new_cb_scan s (Z.to_nat (uint8NumCbs s)) 0 0))).
    + lia.
    + apply new_cb_scan_free. lia.
Qed.

(** ** Rejected requests *)

Section Rejects.

Variable SPI_FLASH_CB_TYPES : list spi_flash_cb_type.

(** C10: a job API call ([sfcb_mkcb], [sfcb_add], [sfcb_get],
    [sfcb_flash_read], [sfcb_new_cb]) that returns a nonzero code
    leaves the handle and the queue table as they were. *)
Theorem api_reject_unchanged (self : spi_flash_cb) (c : api_call) :
  fst (call SPI_FLASH_CB_TYPES self c) <> 0 -> snd (call SPI_FLASH_CB_TYPES self c) = self.
Proof.
  destruct c; simpl.
  - unfold sfcb_mkcb.
    destruct (negb _); [reflexivity|].
    destruct (_ =? 0); [reflexivity|]. simpl. congruence.
  - unfold sfcb_add.
    destruct (negb _); [reflexivity|].
    destruct (_ || _)%bool; [reflexivity|].
    destruct (_ >? _); [reflexivity|]. simpl. congruence.
  - unfold sfcb_get.
    destruct (negb _); [reflexivity|].
    destruct (_ || _)%bool; [reflexivity|]. simpl. congruence.
  - unfold sfcb_flash_read.
    destruct (negb _); [reflexivity|]. simpl. congruence.
  - unfold sfcb_new_cb.
    destruct (new_cb_scan _ _ _ _) as [k start].
    destruct (k =? _); [reflexivity|]. simpl. congruence.
Qed.

(** A rejected [sfcb_new_cb] does not write [*cbID] either. *)
Lemma new_cb_reject_keeps_cbID self magicNum elemSizeByte numElems cbID :
  fst (fst (sfcb_new_cb SPI_FLASH_CB_TYPES self magicNum elemSizeByte numElems cbID)) <> 0 ->
  snd (sfcb_new_cb SPI_FLASH_CB_TYPES self magicNum elemSizeByte numElems cbID) = cbID.
Proof.
  unfold sfcb_new_cb.
  destruct (new_cb_scan _ _ _ _) as [k start].
  destruct (k =? _); [reflexivity|]. simpl. congruence.
Qed.

(** [sfcb_new_cb] stages no job and returns 0 or 1. *)
Lemma new_cb_job self magicNum elemSizeByte numElems cbID :
  let r := sfcb_new_cb SPI_FLASH_CB_TYPES self magicNum elemSizeByte numElems cbID in
  (fst (fst r) = 0 \/ fst (fst r) = 1) /\
  cmd (snd (fst r)) = cmd self /\
  uint8Stg (snd (fst r)) = uint8Stg self /\
  uint8Busy (snd (fst r)) = uint8Busy self /\
  uint8NumCbs (snd (fst r)) = uint8NumCbs self /\
  uint8FlashType (snd (fst r)) = uint8FlashType self.
Proof.
  unfold sfcb_new_cb.
  destruct (new_cb_scan _ _ _ _) as [k start].
  destruct (k =? _); simpl; [tauto|].
  destruct self; simpl. tauto.
Qed.

Lemma new_cb_code self magicNum elemSizeByte numElems cbID :
  fst (fst (sfcb_new_cb SPI_FLASH_CB_TYPES self magicNum elemSizeByte numElems cbID)) = 1 <->
  fst (new_cb_scan self (Z.to_nat (uint8NumCbs self)) 0 0) = uint8NumCbs self.
Proof.
  unfold sfcb_new_cb.
  destruct (new_cb_scan _ _ _ _) as [k start]. simpl.
  destruct (k =? _) eqn:E; simpl.
  - apply Z.eqb_eq in E. tauto.
  - apply Z.eqb_neq in E. split; [discriminate | tauto].
Qed.

(** C5, amended: while the driver is busy, [sfcb_mkcb], [sfcb_add],
    [sfcb_get] and [sfcb_flash_read] return 1 and leave the handle as
    it is.  [sfcb_new_cb] does not look at [uint8Busy]: it returns 1
    exactly when no slot of the table is free and 0 otherwise, and it
    never stages a job. *)
Theorem busy_rejects_jobs (self : spi_flash_cb) :
  uint8Busy self <> 0 ->
  0 <= uint8NumCbs self ->
  sfcb_mkcb self = (1, self) /\
  (forall cbID data len, sfcb_add SPI_FLASH_CB_TYPES self cbID data len = (1, self)) /\
  (forall cbID data len lenMax, sfcb_get self cbID data len lenMax = (1, self)) /\
  (forall adr data len, sfcb_flash_read self adr data len = (1, self)) /\
  (forall magicNum elemSizeByte numElems cbID,
     let r := sfcb_new_cb SPI_FLASH_CB_TYPES self magicNum elemSizeByte numElems cbID in
     (fst (fst r) = 1 <->
      forall i, 0 <= i < uint8NumCbs self -> uint8Used (cb self i) <> 0) /\
     (fst (fst r) = 0 \/ fst (fst r) = 1) /\
     cmd (snd (fst r)) = cmd self /\
     uint8Stg (snd (fst r)) = uint8Stg self /\
     uint8Busy (snd (fst r)) = uint8Busy self).
Proof.
  intros Hb Hn.
  assert (E : negb (uint8Busy self =? 0) = true).
  { apply Bool.negb_true_iff, Z.eqb_neq, Hb. }
  unfold sfcb_mkcb, sfcb_add, sfcb_get, sfcb_flash_read.
  rewrite E. repeat split; auto;
    try (apply new_cb_job).
  - intros H. apply new_cb_code in H. now apply new_cb_scan_full.
  - intros H. apply new_cb_code. now apply new_cb_scan_full.
Qed.

(** The size check of [sfcb_add] as the code has it: on a queue that is
    used and initialised, with the driver not busy, the call returns 4
    exactly when [len] exceeds [uint16NumPagesPerElem * page size] (a
    32-bit product).  The eight bytes of the header that stage 2 puts in
    front of the data are not counted. *)
Lemma add_size_check (self : spi_flash_cb) (cbID : Z) (data : list Z) (len : Z) :
  uint8Busy self = 0 ->
  uint8Used (cb self cbID) <> 0 ->
  uint8Init (cb self cbID) <> 0 ->
  let bound := wrap32 (uint16NumPagesPerElem (cb self cbID) *
                       uint32FlashTopoPageSizeByte (flash SPI_FLASH_CB_TYPES self)) in
  let r := sfcb_add SPI_FLASH_CB_TYPES self cbID data len in
  (fst r = 4 <-> len > bound) /\
  (len > bound -> snd r = self) /\
  (len <= bound ->
     fst r = 0 /\
     cmd (snd r) = ADD /\ uint8Stg (snd r) = SFCB_STG_00 /\
     uint8Busy (snd r) = 1 /\ error (snd r) = NO /\
     uint8IterCb (snd r) = cbID /\ uint16IterElem (snd r) = 0 /\
     uint32IterPage (snd r) = uint32StartPageWrite (cb self cbID) /\
     ptrData (snd r) = data /\ uint16DataLen (snd r) = len /\
     uint8Init (cb (snd r) cbID) = 0).
Proof.
  intros Hb Hu Hi bound r. subst r. unfold sfcb_add.
  rewrite Hb. simpl negb. cbv iota.
  apply Z.eqb_neq in Hu, Hi. rewrite Hu, Hi. simpl orb. cbv iota.
  fold bound.
  destruct (len >? bound) eqn:E.
  - apply Z.gtb_lt in E. simpl. repeat split; auto; lia.
  - assert (len <= bound) by (rewrite Z.gtb_ltb in E; apply Z.ltb_ge in E; lia).
    split; [simpl; split; [discriminate | lia]|].
    split; [lia|]. intros _.
    assert (Hin : (Z.to_nat cbID < length (ptrCbs self))%nat).
    { apply cb_used_in_table. now apply Z.eqb_neq. }
    apply Nat.ltb_lt in Hin.
    destruct self; simpl in *.
    repeat split;
      unfold cb, upd_cb; simpl; rewrite nth_list_upd, Nat.eqb_refl, Hin; simpl;
      destruct (nth _ _ _); reflexivity.
Qed.

End Rejects.

(** ** What a job does to the queue table *)

Lemma let_frame {X : Type} (K : spi_flash_cb -> Prop) (A : X) (P : X -> Prop)
    (B : X -> spi_flash_cb) :
  P A -> (forall x, P x -> K (B x)) -> K (let x := A in B x).
Proof. intros HA HB. exact (HB A HA). Qed.

Create HintDb frame.

Lemma keeps_uint8FlashPresent c t v s : keeps c t s -> keeps c t (set_uint8FlashPresent v s).
Proof. destruct s; exact (fun H => H). Qed.
Lemma keeps_uint16SpiLen c t v s : keeps c t s -> keeps c t (set_uint16SpiLen v s).
Proof. destruct s; exact (fun H => H). Qed.
Lemma keeps_uint8Busy c t v s : keeps c t s -> keeps c t (set_uint8Busy v s).
Proof. destruct s; exact (fun H => H). Qed.
Lemma keeps_uint8Stg c t v s : keeps c t s -> keeps c t (set_uint8Stg v s).
Proof. destruct s; exact (fun H => H). Qed.
Lemma keeps_error c t v s : keeps c t s -> keeps c t (set_error v s).
Proof. destruct s; exact (fun H => H). Qed.
Lemma keeps_uint8Spi c t v s : keeps c t s -> keeps c t (set_uint8Spi v s).
Proof. destruct s; exact (fun H => H). Qed.
Lemma keeps_uint8IterCb c t v s : keeps c t s -> keeps c t (set_uint8IterCb v s).
Proof. destruct s; exact (fun H => H). Qed.
Lemma keeps_uint16IterElem c t v s : keeps c t s -> keeps c t (set_uint16IterElem v s).
Proof. destruct s; exact (fun H => H). Qed.
Lemma keeps_uint32IterPage c t v s : keeps c t s -> keeps c t (set_uint32IterPage v s).
Proof. destruct s; exact (fun H => H). Qed.
Lemma keeps_ptrData c t v s : keeps c t s -> keeps c t (set_ptrData v s).
Proof. destruct s; exact (fun H => H). Qed.
Lemma keeps_uint16DataLen c t v s : keeps c t s -> keeps c t (set_uint16DataLen v s).
Proof. destruct s; exact (fun H => H). Qed.
Lemma keeps_cmd_IDLE c t s : keeps c t s -> keeps c t (set_cmd IDLE s).
Proof. destruct s; intros [H _]; split; [exact H | right; reflexivity]. Qed.
Lemma keeps_spi c t i v s : keeps c t s -> keeps c t (set_spi i v s).
Proof. apply keeps_uint8Spi. Qed.

#[local] Hint Resolve keeps_uint8FlashPresent keeps_uint16SpiLen keeps_uint8Busy
  keeps_uint8Stg keeps_error keeps_uint8Spi keeps_uint8IterCb keeps_uint16IterElem
  keeps_uint32IterPage keeps_ptrData keeps_uint16DataLen keeps_cmd_IDLE keeps_spi
  : frame.

(** One step through a chain of assignments: the value of a [let] is
    replaced by a variable that satisfies the same invariant. *)
Ltac frame_step :=
  lazymatch goal with
  | |- ?K (let x := ?A in @?B x) =>
      lazymatch type of A with
      | spi_flash_cb => apply (let_frame K A K B); [ | intros ? ? ]
      | _ => apply (let_frame K A (fun _ => True) B); [ exact I | intros ? _ ]
      end
  | |- ?K (if ?c then _ else _) => destruct c
  end.

Ltac split_ifs :=
  repeat match goal with
         | |- context [if ?c then _ else _] => destruct c; simpl
         end.

Ltac frame := repeat (cbv beta; first [ frame_step | solve [auto with frame] ]).

Section Jobs.

Variable SPI_FLASH_CB_TYPES : list spi_flash_cb_type.
Variable SFCB_SPI_BUF : Z.

Lemma keeps_go_idle c t s : keeps c t s -> keeps c t (go_idle s).
Proof. intros H. cbv delta [go_idle]. frame. Qed.

Lemma keeps_req_status c t s :
  keeps c t s -> keeps c t (req_status SPI_FLASH_CB_TYPES s).
Proof. intros H. cbv delta [req_status]. frame. Qed.

Lemma keeps_put_addr c t a s : keeps c t s -> keeps c t (put_addr a s).
Proof. intros H. cbv delta [put_addr]. frame. Qed.

#[local] Hint Resolve keeps_go_idle keeps_req_status keeps_put_addr : frame.

Lemma keeps_add_stg01 c t s :
  keeps c t s -> keeps c t (add_stg01 SPI_FLASH_CB_TYPES s).
Proof. intros H. cbv delta [add_stg01]. frame. Qed.

Lemma keeps_add_stg02 c t s :
  keeps c t s -> keeps c t (add_stg02 SPI_FLASH_CB_TYPES s).
Proof. intros H. cbv delta [add_stg02]. frame. Qed.

Lemma keeps_raw_stg01 c t s :
  keeps c t s -> keeps c t (raw_stg01 SPI_FLASH_CB_TYPES SFCB_SPI_BUF s).
Proof. intros H. cbv delta [raw_stg01]. frame. Qed.

Lemma keeps_raw_stg02 c t s : keeps c t s -> keeps c t (raw_stg02 s).
Proof. intros H. cbv delta [raw_stg02]. frame. Qed.

#[local] Hint Resolve keeps_add_stg01 keeps_add_stg02 keeps_raw_stg01 keeps_raw_stg02 : frame.

(** Only the MKCB job writes the queue table, and the worker leaves
    the command as it is or ends the job. *)
Lemma worker_keeps self :
  cmd self <> MKCB ->
  keeps (cmd self) (ptrCbs self) (sfcb_worker SPI_FLASH_CB_TYPES SFCB_SPI_BUF self).
Proof.
  intros Hc.
  assert (H : keeps (cmd self) (ptrCbs self) self) by (split; auto).
  unfold sfcb_worker.
  destruct (cmd self); try congruence; try exact H;
    destruct (uint8Stg self); try exact H; frame.
Qed.

Lemma add_keeps_members (P : spi_flash_cb_elem -> Z) self cbID data len j :
  (forall v e, P (set_uint8Init v e) = P e) ->
  P (cb (snd (sfcb_add SPI_FLASH_CB_TYPES self cbID data len)) j) = P (cb self j).
Proof.
  intros HP. unfold sfcb_add. split_ifs; try reflexivity.
  destruct self; simpl. unfold cb, upd_cb. simpl.
  rewrite nth_list_upd. destruct (_ && _)%bool; auto.
Qed.

Lemma add_Init_zero self cbID data len j :
  uint8Init (cb self j) = 0 ->
  uint8Init (cb (snd (sfcb_add SPI_FLASH_CB_TYPES self cbID data len)) j) = 0.
Proof.
  intros H0. unfold sfcb_add. split_ifs; try assumption.
  destruct self; simpl in *. unfold cb, upd_cb in *. simpl in *.
  rewrite nth_list_upd. destruct (_ && _)%bool; auto.
  destruct (nth _ _ _); reflexivity.
Qed.

Lemma add_cmd self cbID data len :
  cmd (snd (sfcb_add SPI_FLASH_CB_TYPES self cbID data len)) = cmd self \/
  cmd (snd (sfcb_add SPI_FLASH_CB_TYPES self cbID data len)) = ADD.
Proof.
  unfold sfcb_add. split_ifs; auto. destruct self; simpl. auto.
Qed.

Lemma new_cb_keeps_Init self magicNum elemSizeByte numElems cbID j :
  uint8Init (cb (snd (fst (sfcb_new_cb SPI_FLASH_CB_TYPES self
                             magicNum elemSizeByte numElems cbID))) j)
  = uint8Init (cb self j).
Proof.
  unfold sfcb_new_cb.
  destruct (new_cb_scan _ _ _ _) as [k start].
  destruct (k =? _); [reflexivity|]. cbv zeta. cbn [fst snd].
  repeat (rewrite (cb_upd_cb_keep uint8Init);
          [| intros e; destruct e; reflexivity]).
  reflexivity.
Qed.

(** a successful [sfcb_add] leaves the queue dirty *)
Lemma add_ok_dirty self cbID data len self1 :
  sfcb_add SPI_FLASH_CB_TYPES self cbID data len = (0, self1) ->
  dirty cbID self1 /\ cmd self1 = ADD /\ uint8Busy self1 = 1.
Proof.
  unfold sfcb_add.
  destruct (negb _); [discriminate|].
  destruct (_ || _)%bool eqn:E; [discriminate|].
  destruct (_ >? _); [discriminate|].
  intros H. injection H as <-.
  apply Bool.orb_false_iff in E. destruct E as [Eu _].
  assert (Hin : (Z.to_nat cbID < length (ptrCbs self))%nat).
  { apply cb_used_in_table. now apply Z.eqb_neq. }
  apply Nat.ltb_lt in Hin.
  destruct self; simpl in *. unfold dirty, cb, upd_cb. simpl.
  rewrite nth_list_upd, Nat.eqb_refl, Hin. simpl.
  repeat split; try discriminate. destruct (nth _ _ _); reflexivity.
Qed.

(** the job I/O alone (worker calls and transfers) keeps the table of
    a job other than MKCB *)
Lemma run_io_table tr self :
  forallb is_io tr = true -> cmd self <> MKCB ->
  ptrCbs (run SPI_FLASH_CB_TYPES SFCB_SPI_BUF tr self) = ptrCbs self.
Proof.
  revert self. induction tr as [|e tr IH]; intros self Htr Hc.
  - reflexivity.
  - simpl in Htr. apply Bool.andb_true_iff in Htr. destruct Htr as [He Htr].
    simpl. destruct e as [|resp|c]; try discriminate; simpl.
    + destruct (worker_keeps self Hc) as [Ht Hk].
      rewrite IH; [exact Ht | exact Htr |].
      destruct Hk as [E|E]; rewrite E; congruence.
    + rewrite IH; [destruct self; reflexivity | exact Htr |].
      destruct self; exact Hc.
Qed.

(** C4, amended: a successful append job leaves [uint32IdNumMax] of the
    queue descriptor as it was before [sfcb_add], at every point of the
    job and after it (the worker writes [uint32IdNumMax + 1] into the
    record's header only; the descriptor is dirty until the next
    mount). *)
Theorem append_keeps_id_num_max (self self1 : spi_flash_cb) (cbID : Z)
    (data : list Z) (len : Z) (tr : list event) :
  sfcb_add SPI_FLASH_CB_TYPES self cbID data len = (0, self1) ->
  forallb is_io tr = true ->
  uint32IdNumMax (cb (run SPI_FLASH_CB_TYPES SFCB_SPI_BUF tr self1) cbID)
  = uint32IdNumMax (cb self cbID).
Proof.
  intros Hadd Htr.
  destruct (add_ok_dirty _ _ _ _ _ Hadd) as [[Hc _] _].
  unfold cb at 1. rewrite run_io_table by assumption.
  replace self1 with (snd (sfcb_add SPI_FLASH_CB_TYPES self cbID data len))
    by (rewrite Hadd; reflexivity).
  apply (add_keeps_members uint32IdNumMax).
  intros v e; destruct e; reflexivity.
Qed.

End Jobs.

(** ** The mount job *)

Ltac frame_leaf :=
  first [ assumption
        | solve [auto with frame]
        | match goal with
          | H : ?K ?s |- ?K (?f ?s) => destruct s; exact H
          end ].

Ltac frame_match :=
  lazymatch goal with
  | |- ?K (match ?l with AllDone => _ | Rebuild _ => _ | NoneFound => _ end) =>
      destruct l
  end.

Ltac frame' :=
  repeat (cbv beta; first [ frame_step | frame_match | frame_leaf ]).

Lemma mount_runs_go_idle b s : mount_runs b (go_idle s).
Proof. right. destruct s; reflexivity. Qed.

Lemma geometry_upd_cb g i f s :
  (forall e, (uint8Used (f e), uint32StartSector (f e), uint32StopSector (f e))
             = (uint8Used e, uint32StartSector e, uint32StopSector e)) ->
  same_geometry g s -> same_geometry g (upd_cb i f s).
Proof.
  intros Hf <-. destruct s as [ft fp nc sl bz c st er cbs spi ic ie ip pd dl].
  unfold same_geometry, geometry, upd_cb. cbn. f_equal.
  generalize (Z.to_nat i). clear - Hf.
  induction cbs as [|e cbs IH]; intros [|n]; cbn; auto.
  - now rewrite Hf.
  - now rewrite IH.
Qed.

Ltac geometry_leaf :=
  first [ frame_leaf
        | apply geometry_upd_cb; [ intros e; destruct e; reflexivity | assumption ] ].

Ltac geometry_frame :=
  repeat (cbv beta; first [ frame_step | frame_match | geometry_leaf ]).

Section MountJob.

Variable SPI_FLASH_CB_TYPES : list spi_flash_cb_type.
Variable SFCB_SPI_BUF : Z.

#[local] Hint Resolve mount_runs_go_idle : frame.

Lemma mount_runs_response b s :
  mount_runs b s -> mount_runs b (mkcb_response s).
Proof. intros H. cbv delta [mkcb_response]. frame'. Qed.

#[local] Hint Resolve mount_runs_response : frame.

Lemma mount_runs_stg01 b s :
  mount_runs b s -> mount_runs b (mkcb_stg01 SPI_FLASH_CB_TYPES s).
Proof. intros H. cbv delta [mkcb_stg01]. frame'. Qed.

Lemma mount_runs_stg02 b s :
  mount_runs b s -> mount_runs b (mkcb_stg02 SPI_FLASH_CB_TYPES s).
Proof. intros H. cbv delta [mkcb_stg02]. frame'. Qed.

Lemma mount_runs_stg03 b s :
  mount_runs b s -> mount_runs b (mkcb_stg03 SPI_FLASH_CB_TYPES s).
Proof. intros H. cbv delta [mkcb_stg03]. frame'. Qed.

#[local] Hint Resolve mount_runs_stg01 mount_runs_stg02 mount_runs_stg03 : frame.

(** A worker call of a mount job leaves [uint8Busy] as it is, unless it
    ends the job. *)
Lemma worker_mount_runs self :
  cmd self = MKCB ->
  mount_runs (uint8Busy self) (sfcb_worker SPI_FLASH_CB_TYPES SFCB_SPI_BUF self).
Proof.
  intros Hc.
  assert (H : mount_runs (uint8Busy self) self) by (left; auto).
  cbv delta [sfcb_worker]. cbv beta. rewrite Hc.
  destruct (uint8Stg self); frame'.
Qed.

(** No job writes the members the layout is made of. *)
Lemma geometry_response g s :
  same_geometry g s -> same_geometry g (mkcb_response s).
Proof. intros H. cbv delta [mkcb_response]. geometry_frame. Qed.

#[local] Hint Resolve geometry_response : frame.

Lemma geometry_stg01 g s :
  same_geometry g s -> same_geometry g (mkcb_stg01 SPI_FLASH_CB_TYPES s).
Proof. intros H. cbv delta [mkcb_stg01]. geometry_frame. Qed.

#[local] Hint Resolve geometry_stg01 : frame.

Lemma worker_geometry self :
  geometry (sfcb_worker SPI_FLASH_CB_TYPES SFCB_SPI_BUF self) = geometry self.
Proof.
  assert (H : same_geometry (geometry self) self) by reflexivity.
  change (same_geometry (geometry self)
            (sfcb_worker SPI_FLASH_CB_TYPES SFCB_SPI_BUF self)).
  cbv delta [sfcb_worker add_stg01 add_stg02 raw_stg01 raw_stg02
             mkcb_stg02 mkcb_stg03].
  cbv beta.
  destruct (cmd self); try exact H; destruct (uint8Stg self); try exact H;
    geometry_frame.
Qed.

End MountJob.

(** ** Requests between an append and the end of the next mount *)

Section Pending.

Variable SPI_FLASH_CB_TYPES : list spi_flash_cb_type.
Variable SFCB_SPI_BUF : Z.

Lemma exec_pending cbID self e :
  ends_mount SPI_FLASH_CB_TYPES SFCB_SPI_BUF self e = false ->
  pending cbID self ->
  pending cbID (exec SPI_FLASH_CB_TYPES SFCB_SPI_BUF self e).
Proof.
  intros He [[Hc Hi]|[Hc Hb]].
  - (* the queue is dirty and no mount job runs *)
    destruct e as [|resp|c]; simpl.
    + left. destruct (worker_keeps SPI_FLASH_CB_TYPES SFCB_SPI_BUF self Hc)
        as [Ht Hk]. split.
      * destruct Hk as [E|E]; rewrite E; congruence.
      * unfold cb. rewrite Ht. exact Hi.
    + left. destruct self; simpl in *. split; assumption.
    + destruct c; simpl.
      * unfold sfcb_mkcb.
        destruct (negb _); [left; split; assumption|].
        destruct (_ =? 0); [left; split; assumption|].
        right. destruct self; cbn. split; [reflexivity | discriminate].
      * left. split.
        -- destruct (add_cmd SPI_FLASH_CB_TYPES self cbID0 data len) as [E|E];
             rewrite E; congruence.
        -- now apply add_Init_zero.
      * left. unfold sfcb_get. split_ifs; split; assumption.
      * left. unfold sfcb_flash_read. split_ifs; try (split; assumption).
        destruct self; simpl in *. split; [discriminate | assumption].
      * left. split.
        -- pose proof (new_cb_job SPI_FLASH_CB_TYPES self magicNum elemSizeByte
                         numElems 0) as J.
           simpl in J. destruct J as (_ & J & _). rewrite J. exact Hc.
        -- rewrite new_cb_keeps_Init. exact Hi.
  - (* a mount job is in flight *)
    assert (Eb : negb (uint8Busy self =? 0) = true).
    { apply Bool.negb_true_iff, Z.eqb_neq, Hb. }
    destruct e as [|resp|c]; simpl.
    + destruct (worker_mount_runs SPI_FLASH_CB_TYPES SFCB_SPI_BUF self Hc)
        as [[Hc' Hb']|Hc'].
      * right. rewrite Hb'. auto.
      * unfold ends_mount in He. simpl in He. rewrite Hc, Hc' in He. discriminate.
    + right. destruct self; simpl in *. auto.
    + destruct c; simpl.
      * unfold sfcb_mkcb. rewrite Eb. right. auto.
      * unfold sfcb_add. rewrite Eb. right. auto.
      * unfold sfcb_get. rewrite Eb. right. auto.
      * unfold sfcb_flash_read. rewrite Eb. right. auto.
      * pose proof (new_cb_job SPI_FLASH_CB_TYPES self magicNum elemSizeByte
                      numElems 0) as J.
        simpl in J. destruct J as (_ & J1 & _ & J2 & _).
        right. rewrite J1, J2. auto.
Qed.

Lemma run_pending cbID tr self :
  no_mount_done SPI_FLASH_CB_TYPES SFCB_SPI_BUF tr self = true ->
  pending cbID self ->
  pending cbID (run SPI_FLASH_CB_TYPES SFCB_SPI_BUF tr self).
Proof.
  revert self. induction tr as [|e tr IH]; intros self Htr Hp.
  - exact Hp.
  - cbn [no_mount_done] in Htr.
    apply Bool.andb_true_iff in Htr. destruct Htr as [He Htr].
    apply Bool.negb_true_iff in He.
    simpl. apply IH; [exact Htr|]. now apply exec_pending.
Qed.

(** C9, amended: a successful [sfcb_add] clears [uint8Init] of the
    target queue at once, and until a mount job has run to its end,
    whatever else the application and the host do, a later [sfcb_add]
    or [sfcb_get] on that queue is rejected: with code 1 while the driver
    is busy, with code 2 when it is idle.  So two appends to one queue
    never both succeed without a completed mount between them.  The run
    in between stays inside the SPI buffer: no raw read of it asks for
    more than [SFCB_SPI_BUF - 4] bytes. *)
Theorem append_needs_mount (self self1 : spi_flash_cb) (cbID : Z)
    (data : list Z) (len : Z) (tr : list event) :
  sfcb_add SPI_FLASH_CB_TYPES self cbID data len = (0, self1) ->
  reads_fit SFCB_SPI_BUF tr = true ->
  no_mount_done SPI_FLASH_CB_TYPES SFCB_SPI_BUF tr self1 = true ->
  let self2 := run SPI_FLASH_CB_TYPES SFCB_SPI_BUF tr self1 in
  uint8Init (cb self1 cbID) = 0 /\
  (forall data' len',
     sfcb_add SPI_FLASH_CB_TYPES self2 cbID data' len'
     = (if uint8Busy self2 =? 0 then 2 else 1, self2)) /\
  (forall data' len' lenMax',
     sfcb_get self2 cbID data' len' lenMax'
     = (if uint8Busy self2 =? 0 then 2 else 1, self2)).
Proof.
  intros Hadd _ Htr self2.
  destruct (add_ok_dirty _ _ _ _ _ _ Hadd) as [Hd _].
  assert (Hp : pending cbID self2) by (apply run_pending; [exact Htr | now left]).
  split; [apply Hd|].
  unfold sfcb_add, sfcb_get.
  destruct Hp as [[_ Hi]|[_ Hb]].
  - rewrite Hi. simpl (0 =? 0). rewrite Bool.orb_true_r.
    split; intros; destruct (uint8Busy self2 =? 0); reflexivity.
  - apply Z.eqb_neq in Hb. rewrite Hb. split; reflexivity.
Qed.

End Pending.

(** ** Registration *)

Ltac pow2 :=
  change (2 ^ 32) with 4294967296 in *;
  change (2 ^ 16) with 65536 in *;
  change (2 ^ 8) with 256 in *.

Lemma ceil_div_spec x d :
  0 < d -> x <= ceil_div x d * d /\ (ceil_div x d - 1) * d < x.
Proof.
  intros Hd. unfold ceil_div.
  pose proof (Z.div_mod (x + d - 1) d ltac:(lia)) as E.
  pose proof (Z.mod_pos_bound (x + d - 1) d Hd) as B.
  nia.
Qed.

Lemma ceildivide_ceil x d :
  0 <= x < 2 ^ 32 -> 0 < d < 2 ^ 32 ->
  spi_flash_cb_ceildivide x d = ceil_div x d.
Proof.
  intros Hx Hd. unfold spi_flash_cb_ceildivide, ceil_div, wrap32. pow2.
  destruct (x =? 0) eqn:E; cbn [negb].
  - apply Z.eqb_eq in E. subst x.
    rewrite Z.mod_small by lia. reflexivity.
  - apply Z.eqb_neq in E.
    rewrite (Z.mod_small (x - 1)) by lia.
    assert (Hq : 0 <= (x - 1) / d <= x - 1).
    { split; [apply Z.div_pos; lia|]. apply Z.div_le_upper_bound; nia. }
    rewrite Z.mod_small by lia.
    replace (x + d - 1) with ((x - 1) + 1 * d) by ring.
    rewrite Z.div_add by lia. ring.
Qed.

Lemma wrap16_range x : 0 <= wrap16 x < 2 ^ 16.
Proof. unfold wrap16. pow2. apply Z.mod_pos_bound. lia. Qed.

Lemma wrap16_wrap32 x : wrap16 (wrap32 x) = wrap16 x.
Proof.
  unfold wrap16, wrap32. pow2.
  rewrite (Z.mod_eq x 4294967296) by lia.
  replace (x - 4294967296 * (x / 4294967296))
    with (x + (- (65536 * (x / 4294967296))) * 65536) by ring.
  apply Z.mod_add. lia.
Qed.

Lemma max_range b : 2 <= spi_flash_cb_max 2 b <= 65535.
Proof.
  unfold spi_flash_cb_max. pose proof (wrap16_range b) as B.
  change (wrap16 2) with 2. pow2.
  destruct (2 >? wrap16 b) eqn:E; [lia|].
  rewrite Z.gtb_ltb in E. apply Z.ltb_ge in E. lia.
Qed.

Lemma max_small b :
  0 <= b < 2 ^ 16 -> spi_flash_cb_max 2 b = Z.max 2 b.
Proof.
  intros Hb. unfold spi_flash_cb_max, wrap16.
  rewrite (Z.mod_small b) by lia. change (2 mod 2 ^ 16) with 2. pow2.
  destruct (2 >? b) eqn:E.
  - apply Z.gtb_lt in E. lia.
  - rewrite Z.gtb_ltb in E. apply Z.ltb_ge in E. lia.
Qed.

(** where the search starts the new queue *)
Lemma new_cb_scan_start s n k start :
  snd (new_cb_scan s n k start) =
  if fst (new_cb_scan s n k start) =? k then start
  else wrap32 (uint32StopSector (cb s (fst (new_cb_scan s n k start) - 1)) + 1).
Proof.
  revert k start. induction n as [|n IH]; intros k start.
  - simpl. now rewrite Z.eqb_refl.
  - cbn [new_cb_scan]. destruct (_ =? 0).
    + simpl. now rewrite Z.eqb_refl.
    + pose proof (new_cb_scan_range s n (k + 1)
                    (wrap32 (uint32StopSector (cb s k) + 1))) as R.
      rewrite IH.
      destruct (_ =? k + 1) eqn:E1.
      * apply Z.eqb_eq in E1. rewrite E1.
        replace (k + 1 =? k) with false by (symmetry; apply Z.eqb_neq; lia).
        now replace (k + 1 - 1) with k by ring.
      * replace (_ =? k) with false by (symmetry; apply Z.eqb_neq; lia).
        reflexivity.
Qed.

Section Registration.

Variable SPI_FLASH_CB_TYPES : list spi_flash_cb_type.

(** What a successful [sfcb_new_cb] leaves in the slot it fills, and that
    it leaves the other slots alone. *)
Lemma new_cb_ok self magicNum elemSizeByte numElems cbID self' k :
  0 <= uint8NumCbs self <= Z.of_nat (length (ptrCbs self)) ->
  sfcb_new_cb SPI_FLASH_CB_TYPES self magicNum elemSizeByte numElems cbID
  = (0, self', k) ->
  let ppe := new_cb_NumPagesPerElem SPI_FLASH_CB_TYPES self elemSizeByte in
  let ns := new_cb_NumSectors SPI_FLASH_CB_TYPES self numElems ppe in
  let start := snd (new_cb_scan self (Z.to_nat (uint8NumCbs self)) 0 0) in
  k = fst (new_cb_scan self (Z.to_nat (uint8NumCbs self)) 0 0) /\
  0 <= k < uint8NumCbs self /\
  cb self' k =
    {| uint8Used := 1;
       uint8Init := uint8Init (cb self k);
       uint32MagicNum := magicNum;
       uint16NumPagesPerElem := ppe;
       uint32StartSector := start;
       uint32StopSector := wrap32 (start + ns - 1);
       uint16NumEntriesMax :=
         wrap16 (wrap32 (ns * uint8FlashTopoPagesPerSector
                                (flash SPI_FLASH_CB_TYPES self)));
       uint16NumEntries := 0;
       uint32IdNumMin := wrap32 (-1);
       uint32IdNumMax := 0;
       uint32StartPageIdMin := uint32StartPageIdMin (cb self k);
       uint32StartPageWrite := uint32StartPageWrite (cb self k) |} /\
  (forall j, Z.to_nat j <> Z.to_nat k -> cb self' j = cb self j) /\
  uint8NumCbs self' = uint8NumCbs self /\
  length (ptrCbs self') = length (ptrCbs self).
Proof.
  intros Hn. unfold sfcb_new_cb.
  pose proof (new_cb_scan_range self (Z.to_nat (uint8NumCbs self)) 0 0) as R.
  destruct (new_cb_scan _ _ _ _) as [k0 start0] eqn:Es. simpl in R.
  destruct (k0 =? _) eqn:E; [discriminate|]. apply Z.eqb_neq in E.
  intros H. injection H as <- <-. cbv zeta. cbn [fst snd].
  assert (Hin : (Z.to_nat k0 <? length (ptrCbs self))%nat = true).
  { apply Nat.ltb_lt. lia. }
  split; [reflexivity|]. split; [lia|].
  destruct self as [ft fp nc sl bz c st er cbs spi ic ie ip pd dl].
  unfold cb, upd_cb, flash, new_cb_NumSectors, new_cb_NumPagesPerElem, flash in *.
  cbn [ptrCbs set_ptrCbs uint8NumCbs uint8FlashType] in *.
  repeat split.
  - repeat (rewrite nth_list_upd, Nat.eqb_refl, ?length_list_upd, Hin;
            cbn [andb]).
    destruct (nth (Z.to_nat k0) cbs elem_zero). reflexivity.
  - intros j Hj. apply Nat.eqb_neq in Hj. rewrite Nat.eqb_sym in Hj.
    repeat (rewrite nth_list_upd, Hj; cbn [andb]). reflexivity.
  - now rewrite !length_list_upd.
Qed.

(** C7, amended: a successful [sfcb_new_cb] stores
    [uint16NumPagesPerElem = ceil((elemSizeByte + 12) / page size)], the
    12 being [2*sizeof(uint32MagicNum) + sizeof(uint32IdNumMax)]; the
    ceiling is exact, and for a page of one byte it is stored modulo
    [2^16]. *)
Theorem new_cb_pages_per_element (self self' : spi_flash_cb)
    (magicNum elemSizeByte numElems cbID k : Z) :
  0 <= uint8NumCbs self <= Z.of_nat (length (ptrCbs self)) ->
  0 <= elemSizeByte < 2 ^ 16 ->
  0 < uint32FlashTopoPageSizeByte (flash SPI_FLASH_CB_TYPES self) < 2 ^ 32 ->
  sfcb_new_cb SPI_FLASH_CB_TYPES self magicNum elemSizeByte numElems cbID
  = (0, self', k) ->
  let ps := uint32FlashTopoPageSizeByte (flash SPI_FLASH_CB_TYPES self) in
  uint16NumPagesPerElem (cb self' k) = wrap16 (ceil_div (elemSizeByte + 12) ps) /\
  (2 <= ps ->
   uint16NumPagesPerElem (cb self' k) = ceil_div (elemSizeByte + 12) ps) /\
  elemSizeByte + 12 <= ceil_div (elemSizeByte + 12) ps * ps /\
  (ceil_div (elemSizeByte + 12) ps - 1) * ps < elemSizeByte + 12.
Proof.
  intros Hn He Hp Hnew ps.
  destruct (new_cb_ok _ _ _ _ _ _ _ Hn Hnew) as (_ & _ & Hk & _).
  rewrite Hk. cbn [uint16NumPagesPerElem].
  unfold new_cb_NumPagesPerElem, uint8NumHeadBytes. fold ps.
  change (2 * 4 + 4) with 12.
  assert (Hw : wrap32 (elemSizeByte + 12) = elemSizeByte + 12).
  { unfold wrap32. apply Z.mod_small. pow2. lia. }
  rewrite Hw, ceildivide_ceil by (pow2; lia).
  pose proof (ceil_div_spec (elemSizeByte + 12) ps ltac:(lia)) as [S1 S2].
  repeat split; auto.
  intros H2. unfold wrap16. apply Z.mod_small. pow2.
  assert (0 < ceil_div (elemSizeByte + 12) ps) by nia.
  nia.
Qed.

(** *** The layout invariant *)

Lemma all_unused_spec self n i j :
  all_unused self n i = true -> i <= j < i + Z.of_nat n ->
  uint8Used (cb self j) = 0.
Proof.
  revert i. induction n as [|n IH]; intros i H Hj.
  - lia.
  - cbn [all_unused] in H. apply Bool.andb_true_iff in H. destruct H as [H0 H].
    destruct (Z.eq_dec j i) as [->|].
    + now apply Z.eqb_eq.
    + apply (IH (i + 1)); [exact H | lia].
Qed.

Lemma all_unused_ext self self' n i :
  (forall j, i <= j < i + Z.of_nat n -> cb self' j = cb self j) ->
  all_unused self' n i = all_unused self n i.
Proof.
  revert i. induction n as [|n IH]; intros i H.
  - reflexivity.
  - cbn [all_unused]. rewrite (H i) by lia. f_equal.
    apply IH. intros j Hj. apply H. lia.
Qed.

Lemma all_unused_layout self n i start :
  all_unused self n i = true -> layout_from self n i start = true.
Proof.
  destruct n as [|n]; [reflexivity|].
  cbn [all_unused layout_from]. intros H.
  apply Bool.andb_true_iff in H. destruct H as [H0 H]. now rewrite H0.
Qed.

Lemma layout_from_used self n i start :
  layout_from self (S n) i start = true ->
  (uint8Used (cb self i) =? 0) = false ->
  uint32StartSector (cb self i) = start /\
  start + 1 <= uint32StopSector (cb self i) <= start + 65534 /\
  layout_from self n (i + 1) (uint32StopSector (cb self i) + 1) = true.
Proof.
  cbn [layout_from]. intros H E. rewrite E in H.
  apply Bool.andb_true_iff in H. destruct H as [H H4].
  apply Bool.andb_true_iff in H. destruct H as [H H3].
  apply Bool.andb_true_iff in H. destruct H as [H1 H2].
  apply Z.eqb_eq in H1. apply Z.leb_le in H2, H3. auto.
Qed.

Lemma layout_from_unused self n i start :
  layout_from self (S n) i start = true ->
  (uint8Used (cb self i) =? 0) = true ->
  all_unused self n (i + 1) = true.
Proof. cbn [layout_from]. intros H E. now rewrite E in H. Qed.

(** a used slot of the layout starts at or behind [start] *)
Lemma layout_lower self n i start b :
  layout_from self n i start = true -> i <= b < i + Z.of_nat n ->
  uint8Used (cb self b) <> 0 -> start <= uint32StartSector (cb self b).
Proof.
  revert i start. induction n as [|n IH]; intros i start H Hb Hu.
  - lia.
  - destruct (uint8Used (cb self i) =? 0) eqn:E.
    + apply layout_from_unused in H; [|exact E].
      destruct (Z.eq_dec b i) as [->|].
      * apply Z.eqb_eq in E. contradiction.
      * elim Hu. apply (all_unused_spec self n (i + 1)); [exact H | lia].
    + apply layout_from_used in H; [|exact E]. destruct H as (H1 & H2 & H3).
      destruct (Z.eq_dec b i) as [->|].
      * lia.
      * specialize (IH (i + 1) _ H3 ltac:(lia) Hu). lia.
Qed.

(** and ends below [start + 65535 * (number of slots up to it)] *)
Lemma layout_upper self n i start b :
  layout_from self n i start = true -> i <= b < i + Z.of_nat n ->
  uint8Used (cb self b) <> 0 ->
  uint32StopSector (cb self b) <= start + 65535 * (b - i + 1) - 1.
Proof.
  revert i start. induction n as [|n IH]; intros i start H Hb Hu.
  - lia.
  - destruct (uint8Used (cb self i) =? 0) eqn:E.
    + apply layout_from_unused in H; [|exact E].
      destruct (Z.eq_dec b i) as [->|].
      * apply Z.eqb_eq in E. contradiction.
      * elim Hu. apply (all_unused_spec self n (i + 1)); [exact H | lia].
    + apply layout_from_used in H; [|exact E]. destruct H as (H1 & H2 & H3).
      destruct (Z.eq_dec b i) as [->|].
      * lia.
      * specialize (IH (i + 1) _ H3 ltac:(lia) Hu). lia.
Qed.

(** and owns at least two sectors *)
Lemma layout_width self n i start b :
  layout_from self n i start = true -> i <= b < i + Z.of_nat n ->
  uint8Used (cb self b) <> 0 ->
  uint32StartSector (cb self b) + 1 <= uint32StopSector (cb self b).
Proof.
  revert i start. induction n as [|n IH]; intros i start H Hb Hu.
  - lia.
  - destruct (uint8Used (cb self i) =? 0) eqn:E.
    + apply layout_from_unused in H; [|exact E].
      destruct (Z.eq_dec b i) as [->|].
      * apply Z.eqb_eq in E. contradiction.
      * elim Hu. apply (all_unused_spec self n (i + 1)); [exact H | lia].
    + apply layout_from_used in H; [|exact E]. destruct H as (H1 & H2 & H3).
      destruct (Z.eq_dec b i) as [->|].
      * lia.
      * apply (IH (i + 1) _ H3); [lia | exact Hu].
Qed.

(** the sector ranges of the used slots do not overlap *)
Lemma layout_nonoverlap self n i start a b :
  layout_from self n i start = true -> i <= a < b -> b < i + Z.of_nat n ->
  uint8Used (cb self b) <> 0 ->
  uint32StopSector (cb self a) < uint32StartSector (cb self b).
Proof.
  revert i start. induction n as [|n IH]; intros i start H Hab Hb Hu.
  - lia.
  - destruct (uint8Used (cb self i) =? 0) eqn:E.
    + apply layout_from_unused in H; [|exact E].
      elim Hu. apply (all_unused_spec self n (i + 1)); [exact H | lia].
    + apply layout_from_used in H; [|exact E]. destruct H as (H1 & H2 & H3).
      destruct (Z.eq_dec a i) as [->|].
      * pose proof (layout_lower self n (i + 1) _ b H3 ltac:(lia) Hu). lia.
      * apply (IH (i + 1) _ H3); [lia | lia | exact Hu].
Qed.

(** filling the slot the search stops at keeps the layout *)
Lemma layout_fill self self' n i start :
  0 <= i ->
  layout_from self n i start = true ->
  0 <= start -> start + 65535 * Z.of_nat n < 2 ^ 32 ->
  let k := fst (new_cb_scan self n i start) in
  let st := snd (new_cb_scan self n i start) in
  k < i + Z.of_nat n ->
  (forall j, 0 <= j -> j <> k -> cb self' j = cb self j) ->
  uint8Used (cb self' k) <> 0 ->
  uint32StartSector (cb self' k) = st ->
  st + 1 <= uint32StopSector (cb self' k) <= st + 65534 ->
  layout_from self' n i start = true.
Proof.
  revert i start. induction n as [|n IH]; intros i start Hi H Hs Hb; pow2.
  - reflexivity.
  - destruct (uint8Used (cb self i) =? 0) eqn:E.
    + apply layout_from_unused in H; [|exact E].
      cbn [new_cb_scan]. rewrite E. cbn [fst snd].
      intros _ Hext Hu Hst Hrange.
      cbn [layout_from].
      apply Z.eqb_neq in Hu. rewrite Hu.
      rewrite Hst, Z.eqb_refl.
      replace (start + 1 <=? _) with true by (symmetry; apply Z.leb_le; lia).
      replace (_ <=? start + 65534) with true by (symmetry; apply Z.leb_le; lia).
      cbn [andb]. apply all_unused_layout.
      rewrite (all_unused_ext self self'); [exact H|].
      intros j Hj. apply Hext; lia.
    + apply layout_from_used in H; [|exact E]. destruct H as (H1 & H2 & H3).
      cbn [new_cb_scan]. rewrite E.
      assert (Hw : wrap32 (uint32StopSector (cb self i) + 1)
                   = uint32StopSector (cb self i) + 1).
      { unfold wrap32. apply Z.mod_small. pow2. lia. }
      rewrite Hw.
      pose proof (new_cb_scan_range self n (i + 1)
                    (uint32StopSector (cb self i) + 1)) as R.
      intros Hk Hext Hu Hst Hrange.
      cbn [layout_from].
      rewrite (Hext i) by lia. rewrite E.
      replace (_ =? start) with true by (symmetry; apply Z.eqb_eq; lia).
      replace (start + 1 <=? _) with true by (symmetry; apply Z.leb_le; lia).
      replace (_ <=? start + 65534) with true by (symmetry; apply Z.leb_le; lia).
      cbn [andb].
      apply IH; auto; try lia.
Qed.

Lemma init_list_used n l j :
  (j < n)%nat -> (j < length l)%nat ->
  uint8Used (nth j (init_list n l) elem_zero) = 0.
Proof.
  revert l j. induction n as [|n IH]; intros l j Hn Hl; [lia|].
  destruct l as [|e l]; [simpl in Hl; lia|].
  destruct j as [|j]; cbn [init_list nth].
  - destruct e; reflexivity.
  - apply IH; simpl in Hl; lia.
Qed.

Lemma all_unused_intro self n i :
  (forall j, i <= j < i + Z.of_nat n -> uint8Used (cb self j) = 0) ->
  all_unused self n i = true.
Proof.
  revert i. induction n as [|n IH]; intros i H; [reflexivity|].
  cbn [all_unused]. rewrite (H i) by lia. cbn.
  apply IH. intros j Hj. apply H. lia.
Qed.

(** [sfcb_init] establishes the layout *)
Lemma init_layout_ok self0 flashType cbMem numCbs self :
  0 <= numCbs < 2 ^ 8 -> numCbs <= Z.of_nat (length cbMem) ->
  sfcb_init SPI_FLASH_CB_TYPES self0 flashType cbMem numCbs = (0, self) ->
  layout_ok self = true.
Proof.
  intros Hn Hl. unfold sfcb_init.
  destruct (_ >? _); [discriminate|]. intros H. injection H as <-.
  destruct self0; unfold layout_ok; cbn.
  assert (Hlen : forall n l, length (init_list n l) = length l).
  { induction n as [|n IH]; intros [|e l]; simpl; auto. }
  rewrite Hlen.
  replace (0 <=? numCbs) with true by (symmetry; apply Z.leb_le; lia).
  replace (numCbs <? 256) with true by (symmetry; apply Z.ltb_lt; pow2; lia).
  replace (numCbs <=? _) with true by (symmetry; apply Z.leb_le; lia).
  cbn [andb]. apply all_unused_layout, all_unused_intro.
  intros j Hj. unfold cb. cbn [ptrCbs].
  apply init_list_used; lia.
Qed.

(** What a successful [sfcb_new_cb] puts into slot [k] of a laid out
    table; the table stays laid out. *)
Lemma new_cb_slot (self self' : spi_flash_cb)
    (magicNum elemSizeByte numElems cbID k : Z) :
  layout_ok self = true ->
  sfcb_new_cb SPI_FLASH_CB_TYPES self magicNum elemSizeByte numElems cbID
  = (0, self', k) ->
  let e := cb self' k in
  let pps := uint8FlashTopoPagesPerSector (flash SPI_FLASH_CB_TYPES self) in
  let ns := new_cb_NumSectors SPI_FLASH_CB_TYPES self numElems
              (uint16NumPagesPerElem e) in
  uint16NumPagesPerElem e
  = new_cb_NumPagesPerElem SPI_FLASH_CB_TYPES self elemSizeByte /\
  uint32StartSector e
  = (if k =? 0 then 0 else uint32StopSector (cb self (k - 1)) + 1) /\
  2 <= ns <= 65535 /\
  uint32StopSector e = uint32StartSector e + ns - 1 /\
  uint16NumEntriesMax e = wrap16 (ns * pps) /\
  layout_ok self' = true.
Proof.
  intros Hok Hnew e pps ns.
  unfold layout_ok in Hok.
  apply Bool.andb_true_iff in Hok. destruct Hok as [Hok Hlay].
  apply Bool.andb_true_iff in Hok. destruct Hok as [Hok H0].
  apply Bool.andb_true_iff in Hok. destruct Hok as [Hok H].
  apply Z.leb_le in Hok. apply Z.ltb_lt in H. apply Z.leb_le in H0.
  destruct (new_cb_ok _ _ _ _ _ _ _ (conj Hok H0) Hnew)
    as (Hk & Hkr & He & Hothers & Hnc & Hlen).
  set (n := Z.to_nat (uint8NumCbs self)) in *.
  (* the start sector *)
  assert (Hprev : k <> 0 ->
            0 <= uint32StopSector (cb self (k - 1)) + 1 <= 65535 * k).
  { intros Hk0.
    assert (Hu : uint8Used (cb self (k - 1)) <> 0).
    { apply (new_cb_scan_used self n 0 0). rewrite <- Hk. lia. }
    pose proof (layout_lower self n 0 0 (k - 1) Hlay ltac:(lia) Hu).
    pose proof (layout_upper self n 0 0 (k - 1) Hlay ltac:(lia) Hu).
    pose proof (layout_width self n 0 0 (k - 1) Hlay ltac:(lia) Hu).
    lia. }
  assert (Hstart : snd (new_cb_scan self n 0 0)
                   = if k =? 0 then 0 else uint32StopSector (cb self (k - 1)) + 1).
  { rewrite new_cb_scan_start, <- Hk.
    destruct (k =? 0) eqn:E0; [reflexivity|]. apply Z.eqb_neq in E0.
    specialize (Hprev E0).
    unfold wrap32. apply Z.mod_small. pow2. lia. }
  assert (Hns : 2 <= ns <= 65535) by apply max_range.
  assert (Hst_range : 0 <= snd (new_cb_scan self n 0 0) <= 65535 * k).
  { rewrite Hstart. destruct (k =? 0) eqn:E0; [lia|]. apply Z.eqb_neq in E0.
    apply Hprev, E0. }
  assert (Hppe : uint16NumPagesPerElem e
                 = new_cb_NumPagesPerElem SPI_FLASH_CB_TYPES self elemSizeByte).
  { unfold e. rewrite He. reflexivity. }
  assert (Hns' : ns = new_cb_NumSectors SPI_FLASH_CB_TYPES self numElems
                       (new_cb_NumPagesPerElem SPI_FLASH_CB_TYPES self elemSizeByte)).
  { unfold ns. rewrite Hppe. reflexivity. }
  assert (Hstop : uint32StopSector e = uint32StartSector e + ns - 1).
  { rewrite Hns'. unfold e. rewrite He.
    cbn [uint32StopSector uint32StartSector].
    unfold wrap32. apply Z.mod_small. rewrite <- Hns'. pow2. lia. }
  assert (Hse : uint32StartSector e = snd (new_cb_scan self n 0 0)).
  { unfold e. rewrite He. reflexivity. }
  assert (Hlay' : layout_from self' n 0 0 = true).
  { assert (Hn255 : 0 + 65535 * Z.of_nat n < 2 ^ 32) by (subst n; pow2; lia).
    assert (Hkn : fst (new_cb_scan self n 0 0) < 0 + Z.of_nat n)
      by (rewrite <- Hk; subst n; lia).
    apply (layout_fill self self' n 0 0 (Z.le_refl 0) Hlay (Z.le_refl 0) Hn255 Hkn);
      rewrite <- Hk; fold e.
    - intros j Hj Hjk. apply Hothers. lia.
    - unfold e. rewrite He. discriminate.
    - exact Hse.
    - rewrite Hstop, Hse. lia. }
  split; [exact Hppe|].
  split; [rewrite Hse; exact Hstart|].
  split; [exact Hns|].
  split; [exact Hstop|].
  split.
  - rewrite Hns'. unfold e. rewrite He. cbn [uint16NumEntriesMax].
    apply wrap16_wrap32.
  - unfold layout_ok. rewrite Hnc, Hlen.
    replace (0 <=? uint8NumCbs self) with true by (symmetry; apply Z.leb_le; lia).
    replace (uint8NumCbs self <? 2 ^ 8) with true by (symmetry; now apply Z.ltb_lt).
    replace (uint8NumCbs self <=? _) with true by (symmetry; apply Z.leb_le; lia).
    exact Hlay'.
Qed.

(** in a laid out table the sector ranges of the registered queues do
    not overlap *)
Lemma layout_ok_nonoverlap self i j :
  layout_ok self = true ->
  0 <= i < j -> j < uint8NumCbs self -> uint8Used (cb self j) <> 0 ->
  uint32StopSector (cb self i) < uint32StartSector (cb self j).
Proof.
  intros Hok Hij Hj Hu. unfold layout_ok in Hok.
  apply Bool.andb_true_iff in Hok. destruct Hok as [_ Hlay].
  apply (layout_nonoverlap self _ 0 0 i j Hlay); auto; lia.
Qed.

(** *** The layout is an invariant of the driver *)

Lemma all_unused_members self self' n i :
  (forall j, uint8Used (cb self' j) = uint8Used (cb self j)) ->
  all_unused self' n i = all_unused self n i.
Proof.
  intros H. revert i. induction n as [|n IH]; intros i; [reflexivity|].
  cbn [all_unused]. now rewrite H, IH.
Qed.

Lemma layout_from_members self self' n i start :
  (forall j, uint8Used (cb self' j) = uint8Used (cb self j)) ->
  (forall j, uint32StartSector (cb self' j) = uint32StartSector (cb self j)) ->
  (forall j, uint32StopSector (cb self' j) = uint32StopSector (cb self j)) ->
  layout_from self' n i start = layout_from self n i start.
Proof.
  intros Hu Hs He. revert i start. induction n as [|n IH]; intros i start;
    [reflexivity|].
  cbn [layout_from].
  now rewrite Hu, Hs, He, IH, (all_unused_members self self').
Qed.

Lemma layout_ok_members self self' :
  uint8NumCbs self' = uint8NumCbs self ->
  length (ptrCbs self') = length (ptrCbs self) ->
  (forall j, uint8Used (cb self' j) = uint8Used (cb self j)) ->
  (forall j, uint32StartSector (cb self' j) = uint32StartSector (cb self j)) ->
  (forall j, uint32StopSector (cb self' j) = uint32StopSector (cb self j)) ->
  layout_ok self' = layout_ok self.
Proof.
  intros Hn Hl Hu Hs He. unfold layout_ok.
  now rewrite Hn, Hl, (layout_from_members self self').
Qed.

Lemma layout_ok_geometry self self' :
  geometry self' = geometry self -> layout_ok self' = layout_ok self.
Proof.
  unfold geometry. intros H. injection H as Hn Hm.
  set (f := fun e => (uint8Used e, uint32StartSector e, uint32StopSector e)) in *.
  assert (Hg : forall l j,
             f (nth j l elem_zero) = nth j (map f l) (f elem_zero))
    by (intros; symmetry; apply map_nth).
  assert (Hj : forall j, f (cb self' j) = f (cb self j)).
  { intros j. unfold cb. now rewrite !Hg, Hm. }
  apply layout_ok_members; auto.
  - rewrite <- (length_map f), Hm. apply length_map.
  - intros j. specialize (Hj j). unfold f in Hj. congruence.
  - intros j. specialize (Hj j). unfold f in Hj. congruence.
  - intros j. specialize (Hj j). unfold f in Hj. congruence.
Qed.

(** a registration that fails returns the handle it was given *)
Lemma new_cb_reject_self self magicNum elemSizeByte numElems cbID code self' k :
  sfcb_new_cb SPI_FLASH_CB_TYPES self magicNum elemSizeByte numElems cbID
  = (code, self', k) ->
  code <> 0 -> self' = self.
Proof.
  unfold sfcb_new_cb.
  destruct (new_cb_scan self (Z.to_nat (uint8NumCbs self)) 0 0) as [k0 st].
  destruct (k0 =? uint8NumCbs self); intros E Hc; inversion E; subst.
  - reflexivity.
  - contradiction.
Qed.

Section Invariant.

Variable SFCB_SPI_BUF : Z.

Lemma exec_layout_ok self e :
  layout_ok self = true ->
  layout_ok (exec SPI_FLASH_CB_TYPES SFCB_SPI_BUF self e) = true.
Proof.
  intros Hok. destruct e as [|resp|c]; simpl.
  - rewrite (layout_ok_geometry self); [exact Hok|]. apply worker_geometry.
  - rewrite (layout_ok_geometry self); [exact Hok|]. destruct self; reflexivity.
  - destruct c; simpl.
    + rewrite (layout_ok_geometry self); [exact Hok|].
      unfold sfcb_mkcb. split_ifs; try reflexivity. destruct self; reflexivity.
    + rewrite (layout_ok_members self); [exact Hok | | | | |].
      * unfold sfcb_add. split_ifs; try reflexivity. destruct self; reflexivity.
      * unfold sfcb_add. split_ifs; try reflexivity. destruct self; cbn.
        apply length_list_upd.
      * intros j. apply (add_keeps_members SPI_FLASH_CB_TYPES uint8Used).
        intros v e; destruct e; reflexivity.
      * intros j. apply (add_keeps_members SPI_FLASH_CB_TYPES uint32StartSector).
        intros v e; destruct e; reflexivity.
      * intros j. apply (add_keeps_members SPI_FLASH_CB_TYPES uint32StopSector).
        intros v e; destruct e; reflexivity.
    + unfold sfcb_get. split_ifs; exact Hok.
    + rewrite (layout_ok_geometry self); [exact Hok|].
      unfold sfcb_flash_read. split_ifs; try reflexivity. destruct self; reflexivity.
    + destruct (sfcb_new_cb SPI_FLASH_CB_TYPES self magicNum elemSizeByte numElems 0)
        as [[code self'] k] eqn:E.
      cbn [fst snd].
      pose proof (new_cb_job SPI_FLASH_CB_TYPES self magicNum elemSizeByte
                    numElems 0) as J.
      rewrite E in J. cbn [fst snd] in J. destruct J as ([J|J] & _).
      * subst code.
        now destruct (new_cb_slot _ _ _ _ _ _ _ Hok E) as (_ & _ & _ & _ & _ & H).
      * rewrite (new_cb_reject_self _ _ _ _ _ _ _ _ E); [exact Hok | lia].
Qed.

Lemma run_layout_ok tr self :
  layout_ok self = true ->
  layout_ok (run SPI_FLASH_CB_TYPES SFCB_SPI_BUF tr self) = true.
Proof.
  revert self. induction tr as [|e tr IH]; intros self Hok; [exact Hok|].
  simpl. apply IH. now apply exec_layout_ok.
Qed.

(** Whatever is done with a handle after [sfcb_init], the sector ranges
    of its registered queues do not overlap. *)
Lemma registered_queues_disjoint self0 flashType cbMem numCbs self tr i j :
  0 <= numCbs < 2 ^ 8 -> numCbs <= Z.of_nat (length cbMem) ->
  sfcb_init SPI_FLASH_CB_TYPES self0 flashType cbMem numCbs = (0, self) ->
  let self' := run SPI_FLASH_CB_TYPES SFCB_SPI_BUF tr self in
  0 <= i < j -> j < uint8NumCbs self' -> uint8Used (cb self' j) <> 0 ->
  uint32StopSector (cb self' i) < uint32StartSector (cb self' j).
Proof.
  intros Hn Hl Hinit self'. apply layout_ok_nonoverlap.
  apply run_layout_ok. exact (init_layout_ok _ _ _ _ _ Hn Hl Hinit).
Qed.

End Invariant.

(** The layout of a registration as the code computes it: a successful
    [sfcb_new_cb] that fills slot [k] of a table laid out by [sfcb_init]
    and earlier registrations sets [uint32StartSector] to 0 for [k = 0]
    and to [queue[k-1].uint32StopSector + 1] otherwise; its number of
    sectors [ns] is [max(2, ceil(numElems * uint16NumPagesPerElem / pages
    per sector))] whenever that ceiling fits the 16 bits of the arguments
    of [spi_flash_cb_max]; [uint32StopSector = uint32StartSector + ns - 1];
    and what [uint16NumEntriesMax] holds is [ns * pages per sector] after
    the cast to [uint16_t].  The table stays laid out. *)
Lemma new_cb_layout (self self' : spi_flash_cb)
    (magicNum elemSizeByte numElems cbID k : Z) :
  layout_ok self = true ->
  0 <= numElems < 2 ^ 16 ->
  0 < uint8FlashTopoPagesPerSector (flash SPI_FLASH_CB_TYPES self) < 2 ^ 8 ->
  sfcb_new_cb SPI_FLASH_CB_TYPES self magicNum elemSizeByte numElems cbID
  = (0, self', k) ->
  let e := cb self' k in
  let pps := uint8FlashTopoPagesPerSector (flash SPI_FLASH_CB_TYPES self) in
  let ns := new_cb_NumSectors SPI_FLASH_CB_TYPES self numElems
              (uint16NumPagesPerElem e) in
  uint32StartSector e
  = (if k =? 0 then 0 else uint32StopSector (cb self (k - 1)) + 1) /\
  (ceil_div (numElems * uint16NumPagesPerElem e) pps < 2 ^ 16 ->
   ns = Z.max 2 (ceil_div (numElems * uint16NumPagesPerElem e) pps)) /\
  2 <= ns <= 65535 /\
  uint32StopSector e = uint32StartSector e + ns - 1 /\
  uint16NumEntriesMax e = wrap16 (ns * pps) /\
  layout_ok self' = true /\
  (forall i j, 0 <= i < j -> j < uint8NumCbs self' ->
     uint8Used (cb self' i) <> 0 -> uint8Used (cb self' j) <> 0 ->
     uint32StopSector (cb self' i) < uint32StartSector (cb self' j)).
Proof.
  intros Hok Hne Hpps Hnew e pps ns.
  destruct (new_cb_slot _ _ _ _ _ _ _ Hok Hnew)
    as (Hppe & Hstart & Hns & Hstop & Hmax & Hok').
  fold e in Hppe, Hstart, Hstop, Hmax. fold ns in Hns, Hstop, Hmax.
  split; [exact Hstart|].
  split.
  { intros Hfit. unfold ns, new_cb_NumSectors. fold pps.
    assert (Hp : 0 <= uint16NumPagesPerElem e < 2 ^ 16).
    { rewrite Hppe. apply wrap16_range. }
    assert (Hw : wrap32 (numElems * uint16NumPagesPerElem e)
                 = numElems * uint16NumPagesPerElem e).
    { unfold wrap32. apply Z.mod_small. pow2. nia. }
    rewrite Hw, ceildivide_ceil by (unfold pps; pow2; nia).
    apply max_small. split; [|exact Hfit].
    pose proof (ceil_div_spec (numElems * uint16NumPagesPerElem e) pps
                  ltac:(unfold pps; lia)) as [S1 S2].
    unfold pps in *. nia. }
  split; [exact Hns|].
  split; [exact Hstop|].
  split; [exact Hmax|].
  split; [exact Hok'|].
  intros i j Hij Hj _ Huj. now apply layout_ok_nonoverlap.
Qed.

End Registration.

(** ** The raw read *)

Section RawRead.

Variable SPI_FLASH_CB_TYPES : list spi_flash_cb_type.
Variable SFCB_SPI_BUF : Z.

(** Stage 1 of a raw read that does not fit the buffer: the error is
    recorded and the job marked idle, and then the packet is assembled
    all the same. *)
Lemma raw_stg01_oversize self :
  SFCB_SPI_BUF < uint16DataLen self + 4 ->
  let self' := raw_stg01 SPI_FLASH_CB_TYPES SFCB_SPI_BUF self in
  error self' = SPI_BUF_SIZE /\ cmd self' = IDLE /\ uint8Busy self' = 0 /\
  uint8Stg self' = SFCB_STG_02 /\
  uint16SpiLen self' = wrap16 (uint16DataLen self + 4).
Proof.
  intros H. apply Z.ltb_lt in H.
  destruct self as [ft fp nc sl bz c st er cbs spi ic ie ip pd dl].
  cbn [uint16DataLen] in H.
  unfold raw_stg01, put_addr, set_spi. cbn. rewrite H. cbn. auto.
Qed.

End RawRead.

(** C1: the worker call that takes an oversized raw read (263 bytes for
    a buffer of 266) into stage 1 records [SPI_BUF_SIZE], sets the
    command to [IDLE] and clears [uint8Busy], but it does not return
    there: it leaves [uint8Stg] at stage 2 and [uint16SpiLen] at 267, and
    the [memset] of the packet has written the byte at index
    [SFCB_SPI_BUF]. *)
Theorem raw_oversize_packet_built :
  let s := snd raw_job_ex in
  let s' := sfcb_worker types_ex spi_buf_ex s in
  (cmd s = RAW /\ uint8Stg s = SFCB_STG_00 /\ uint8Busy s = 1 /\
   spi_buf_ex < 4 + uint16DataLen s) /\
  (error s' = SPI_BUF_SIZE /\ cmd s' = IDLE /\ uint8Busy s' = 0) /\
  uint8Stg s' = SFCB_STG_02 /\
  uint16SpiLen s' = 267 /\
  uint8Spi s spi_buf_ex = 170 /\ uint8Spi s' spi_buf_ex = 0.
Proof. vm_compute. repeat split; reflexivity. Qed.

(** ** The mount *)

Section Mount.

Variable SPI_FLASH_CB_TYPES : list spi_flash_cb_type.

(** The erase packet of stage 2 carries [uint32IdNumMin]. *)
Lemma mkcb_stg02_address self :
  let self' := mkcb_stg02 SPI_FLASH_CB_TYPES self in
  let id := uint32IdNumMin (cb self (uint8IterCb self)) in
  Buf.slice 0 4 (uint8Spi self') =
    [uint8FlashIstEraseSector (flash SPI_FLASH_CB_TYPES self);
     Z.land (Z.shiftr id 16) 255; Z.land (Z.shiftr id 8) 255; Z.land id 255] /\
  uint16SpiLen self' = 4 /\ uint8Stg self' = SFCB_STG_03.
Proof.
  destruct self as [ft fp nc sl bz c st er cbs spi ic ie ip pd dl].
  unfold mkcb_stg02, put_addr, set_spi. cbn. auto.
Qed.

End Mount.

(** C2: on a full queue whose oldest record (id 1) lies at byte address
    4096, stage 2 of the mount emits an erase-sector packet with the
    address bytes [0, 0, 1]: the value of [uint32IdNumMin], not the
    recorded [uint32StartPageIdMin = 4096]. *)
Theorem mkcb_erase_address_is_id :
  let s := snd mount_full_ex in
  let s' := sfcb_worker types_ex spi_buf_ex s in
  (cmd s = MKCB /\ uint8Stg s = SFCB_STG_02 /\ uint8IterCb s = 0) /\
  (uint16NumEntries (cb s 0) = 32 /\ uint8Init (cb s 0) = 0) /\
  uint32StartPageIdMin (cb s 0) = 4096 /\
  uint32IdNumMin (cb s 0) = 1 /\
  uint16SpiLen s' = 4 /\
  Buf.slice 0 4 (uint8Spi s') = [32; 0; 0; 1] /\
  Host.addr24 (uint8Spi s') = 1 /\
  Host.addr24 (uint8Spi s') <> uint32StartPageIdMin (cb s' 0).
Proof. vm_compute. repeat split; try reflexivity. discriminate. Qed.

(** C3: a mount has run to completion, a second mount is started and
    run to completion with nothing written in between (the flash is the
    same); the second mount has counted the record of queue 0 again, and
    the table differs from the one after the first mount. *)
Theorem second_mount_counts_again :
  let st1 := mount_ex (append_ex mounted_empty) in
  let st2 := mount_ex st1 in
  (uint8Busy (snd st1) = 0 /\ cmd (snd st1) = IDLE) /\
  fst (sfcb_mkcb (snd st1)) = 0 /\
  (uint8Busy (snd st2) = 0 /\ cmd (snd st2) = IDLE) /\
  Buf.slice 0 (Z.to_nat 8192) (fst st2) = Buf.slice 0 (Z.to_nat 8192) (fst st1) /\
  uint16NumEntries (cb (snd st1) 0) = 1 /\
  uint16NumEntries (cb (snd st2) 0) = 2 /\
  ptrCbs (snd st2) <> ptrCbs (snd st1).
Proof. vm_compute. repeat split; try reflexivity. discriminate. Qed.

(** ** The claims of the specification on concrete inputs *)

(** C4, as stated, fails: an append to the mounted, empty queue 0 is
    accepted and runs until the driver is idle, and [uint32IdNumMax] is
    0 before and after it. *)
Lemma append_id_num_max_not_increased :
  let s0 := snd mounted_empty in
  let s1 := snd (append_ex mounted_empty) in
  fst (sfcb_add types_ex s0 0 [17; 34; 51] 3) = 0 /\
  uint8Busy s1 = 0 /\ cmd s1 = IDLE /\
  ~ uint32IdNumMax (cb s0 0) < uint32IdNumMax (cb s1 0).
Proof. vm_compute. repeat split; try reflexivity. discriminate. Qed.

Lemma append_keeps_id_num_max_witness :
  sfcb_add types_ex (snd mounted_empty) 0 [17; 34; 51] 3
  = (0, snd (sfcb_add types_ex (snd mounted_empty) 0 [17; 34; 51] 3)) /\
  uint8Busy (run types_ex spi_buf_ex io_ex
               (snd (sfcb_add types_ex (snd mounted_empty) 0 [17; 34; 51] 3))) = 0 /\
  uint32IdNumMax
    (cb (run types_ex spi_buf_ex io_ex
           (snd (sfcb_add types_ex (snd mounted_empty) 0 [17; 34; 51] 3))) 0)
  = uint32IdNumMax (cb (snd mounted_empty) 0).
Proof.
  assert (E : sfcb_add types_ex (snd mounted_empty) 0 [17; 34; 51] 3
              = (0, snd (sfcb_add types_ex (snd mounted_empty) 0 [17; 34; 51] 3)))
    by (vm_compute; reflexivity).
  split; [exact E|]. split; [vm_compute; reflexivity|].
  apply (append_keeps_id_num_max types_ex spi_buf_ex (snd mounted_empty) _ 0
           [17; 34; 51] 3 io_ex E).
  reflexivity.
Defined.

(** C5, as stated, fails for [sfcb_new_cb]: while a mount is in flight
    it registers a queue in the free slot and returns 0. *)
Lemma busy_register_accepted :
  uint8Busy busy_ex = 1 /\
  fst (call types_ex busy_ex (NewCb 11 250 8)) = 0 /\
  uint8Used (cb busy_ex 1) = 0 /\
  uint8Used (cb (snd (call types_ex busy_ex (NewCb 11 250 8))) 1) = 1.
Proof. vm_compute. repeat split; reflexivity. Qed.

Lemma busy_rejects_jobs_witness :
  uint8Busy busy_ex <> 0 /\ 0 <= uint8NumCbs busy_ex /\
  sfcb_mkcb busy_ex = (1, busy_ex) /\
  sfcb_add types_ex busy_ex 0 [1] 1 = (1, busy_ex).
Proof.
  assert (Hb : uint8Busy busy_ex <> 0) by (vm_compute; discriminate).
  assert (Hn : 0 <= uint8NumCbs busy_ex) by (vm_compute; discriminate).
  destruct (busy_rejects_jobs types_ex busy_ex Hb Hn) as (H1 & H2 & _).
  split; [exact Hb|]. split; [exact Hn|]. split; [exact H1 | apply H2].
Defined.

(** C6: the size check of [sfcb_add] leaves out the header.  Queue 0
    has one page of 256 bytes per element, so a record holds
    [256 - sizeof(header) = 248] bytes.  An append of 250 bytes is
    accepted with code 0.  Its first page program fills the page with the
    header and 248 bytes; the second one carries the last two bytes to
    the byte address [uint32StartPageWrite + 1], into the header of the
    record itself.  On the flash the magic number [0xA5A5A5A5] of the
    record is destroyed, and the next mount finds no record; the same
    append with 248 bytes is found. *)
Theorem add_guard_omits_header :
  let s := snd mounted_a5 in
  let job := snd (sfcb_add types_ex s 0 (repeat 0 250%nat) 250) in
  let p1 := snd (Host.steps types_ex spi_buf_ex 3 (fst mounted_a5, job)) in
  let p2 := snd (Host.steps types_ex spi_buf_ex 5 (fst mounted_a5, job)) in
  (uint8Busy s = 0 /\ uint8Used (cb s 0) = 1 /\ uint8Init (cb s 0) = 1 /\
   uint32StartPageWrite (cb s 0) = 0) /\
  250 > uint16NumPagesPerElem (cb s 0)
        * uint32FlashTopoPageSizeByte (flash types_ex s) - sizeof_head /\
  fst (sfcb_add types_ex s 0 (repeat 0 250%nat) 250) = 0 /\
  (uint8Spi p1 0 = 2 /\ Host.addr24 (uint8Spi p1) = 0 /\ uint16SpiLen p1 = 260) /\
  (uint8Spi p2 0 = 2 /\ Host.addr24 (uint8Spi p2) = 1 /\ uint16SpiLen p2 = 6) /\
  (uint8Busy (snd (append_a5 250)) = 0 /\ cmd (snd (append_a5 250)) = IDLE) /\
  Buf.get32 0 (fst (append_a5 248)) = magic_a5 /\
  Buf.get32 0 (fst (append_a5 250)) = 2768240805 /\
  uint16NumEntries (cb (snd (mount_ex (append_a5 248))) 0) = 1 /\
  uint16NumEntries (cb (snd (mount_ex (append_a5 250))) 0) = 0.
Proof. vm_compute. repeat split; reflexivity. Qed.

(** C7, as stated, fails: for an element of 245 bytes and pages of 256
    bytes [ceil((245 + 8) / 256)] is 1, and [sfcb_new_cb] stores 2. *)
Lemma new_cb_pages_not_8_byte_header :
  let r := sfcb_new_cb types_ex (handle_init 1) 10 245 32 0 in
  fst (fst r) = 0 /\
  ceil_div (245 + 2 * 4) 256 = 1 /\
  uint16NumPagesPerElem (cb (snd (fst r)) (snd r)) = 2.
Proof. vm_compute. repeat split; reflexivity. Qed.

Lemma new_cb_pages_per_element_witness :
  uint16NumPagesPerElem
    (cb (snd (fst (sfcb_new_cb types_ex (handle_init 1) 10 245 32 0))) 0)
  = ceil_div (245 + 12) 256.
Proof.
  assert (Hn : 0 <= uint8NumCbs (handle_init 1)
               <= Z.of_nat (length (ptrCbs (handle_init 1))))
    by (vm_compute; split; discriminate).
  assert (He : 0 <= 245 < 2 ^ 16) by lia.
  assert (Hp : 0 < uint32FlashTopoPageSizeByte (flash types_ex (handle_init 1))
               < 2 ^ 32) by (vm_compute; split; reflexivity).
  assert (E : sfcb_new_cb types_ex (handle_init 1) 10 245 32 0
              = (0, snd (fst (sfcb_new_cb types_ex (handle_init 1) 10 245 32 0)), 0))
    by (vm_compute; reflexivity).
  apply (new_cb_pages_per_element types_ex _ _ 10 245 32 0 0 Hn He Hp E).
  vm_compute. discriminate.
Defined.

(** C8: [uint16NumEntriesMax] overflows.  65535 elements of one page
    need 4096 sectors of 16 pages; the start sector, the number of
    sectors and the stop sector are the ones of the layout, and the
    product [4096 * 16 = 65536] is stored in 16 bits as 0.  A mount of
    this queue never reads a page: with no element to scan and the queue
    not initialised, every round of the job is a status poll, a write
    enable and a sector erase. *)
Theorem new_cb_entries_max_overflows :
  let r := sfcb_new_cb types_ex (handle_init 1) 10 100 65535 0 in
  let e := cb (snd (fst r)) (snd r) in
  let packet n :=
    let s := snd (Host.steps types_ex spi_buf_ex n
                    (Host.erased, snd (sfcb_mkcb (snd (fst r))))) in
    (uint8Spi s 0, uint16SpiLen s) in
  fst (fst r) = 0 /\
  uint32StartSector e = 0 /\
  Z.max 2 (ceil_div (65535 * uint16NumPagesPerElem e) 16) = 4096 /\
  uint32StopSector e = uint32StartSector e + 4096 - 1 /\
  4096 * uint8FlashTopoPagesPerSector flash_4k = 65536 /\
  uint16NumEntriesMax e = 0 /\
  fst (sfcb_mkcb (snd (fst r))) = 0 /\
  map packet [1; 2; 3; 4; 5; 6; 7; 8; 9]%nat
  = [(5, 2); (6, 1); (32, 4); (5, 2); (6, 1); (32, 4); (5, 2); (6, 1); (32, 4)].
Proof. vm_compute. repeat split; reflexivity. Qed.

(** C9, as stated, fails: right after a successful append the driver is
    busy, and the next [sfcb_add] on the queue returns 1, not 2. *)
Lemma add_after_add_returns_busy :
  let s1 := snd (sfcb_add types_ex (snd mounted_empty) 0 [17; 34; 51] 3) in
  fst (sfcb_add types_ex (snd mounted_empty) 0 [17; 34; 51] 3) = 0 /\
  uint8Init (cb s1 0) = 0 /\
  fst (sfcb_add types_ex s1 0 [1] 1) = 1 /\
  fst (sfcb_get s1 0 [0] 1 1) = 1.
Proof. vm_compute. repeat split; reflexivity. Qed.

Lemma append_needs_mount_witness :
  let s1 := snd (sfcb_add types_ex (snd mounted_empty) 0 [17; 34; 51] 3) in
  let tr := io_ex ++ [Api (FlashRead 4096 [0; 0; 0; 0] 4); Worker;
                      Transfer resp_zero; Worker; Transfer resp_zero; Worker;
                      Api Mkcb; Worker; Transfer resp_zero; Worker] in
  let s2 := run types_ex spi_buf_ex tr s1 in
  reads_fit spi_buf_ex tr = true /\
  uint8Init (cb s1 0) = 0 /\
  sfcb_add types_ex s2 0 [1] 1 = (if uint8Busy s2 =? 0 then 2 else 1, s2).
Proof.
  intros s1 tr s2.
  assert (E : sfcb_add types_ex (snd mounted_empty) 0 [17; 34; 51] 3 = (0, s1))
    by (vm_compute; reflexivity).
  assert (F : reads_fit spi_buf_ex tr = true) by (vm_compute; reflexivity).
  assert (T : no_mount_done types_ex spi_buf_ex tr s1 = true)
    by (vm_compute; reflexivity).
  destruct (append_needs_mount types_ex spi_buf_ex _ _ 0 [17; 34; 51] 3 tr E F T)
    as (H1 & H2 & _).
  split; [exact F|]. split; [exact H1 | apply H2].
Defined.

Lemma api_reject_unchanged_witness :
  fst (call types_ex busy_ex (Add 0 [1] 1)) <> 0 /\
  snd (call types_ex busy_ex (Add 0 [1] 1)) = busy_ex.
Proof.
  assert (H : fst (call types_ex busy_ex (Add 0 [1] 1)) <> 0)
    by (vm_compute; discriminate).
  split; [exact H | exact (api_reject_unchanged types_ex busy_ex _ H)].
Defined.
(** * Further properties of the driver *)

(** ** Bytes and words *)

Lemma land_255 x : Z.land x 255 = x mod 256.
Proof. change 255 with (Z.ones 8). rewrite Z.land_ones by lia. reflexivity. Qed.

Lemma shiftr_div x n : 0 <= n -> Z.shiftr x n = x / 2 ^ n.
Proof. intros. apply Z.shiftr_div_pow2. assumption. Qed.

Lemma bytes24 a :
  65536 * ((a / 65536) mod 256) + 256 * ((a / 256) mod 256) + a mod 256
  = a mod 16777216.
Proof.
  pose proof (Z.div_mod a 256 ltac:(lia)) as E0.
  pose proof (Z.mod_pos_bound a 256 ltac:(lia)) as B0.
  pose proof (Z.div_mod (a / 256) 256 ltac:(lia)) as E1.
  pose proof (Z.mod_pos_bound (a / 256) 256 ltac:(lia)) as B1.
  pose proof (Z.div_mod (a / 256 / 256) 256 ltac:(lia)) as E2.
  pose proof (Z.mod_pos_bound (a / 256 / 256) 256 ltac:(lia)) as B2.
  replace (a / 65536) with (a / 256 / 256)
    by (rewrite Z.div_div by lia; reflexivity).
  apply Z.mod_unique with (q := a / 256 / 256 / 256); lia.
Qed.

Lemma bytes32_get32 v :
  0 <= v < 2 ^ 32 ->
  v mod 256 + 2 ^ 8 * ((v / 2 ^ 8) mod 256) + 2 ^ 16 * ((v / 2 ^ 16) mod 256)
  + 2 ^ 24 * ((v / 2 ^ 24) mod 256) = v.
Proof.
  intros Hv. pow2. change (2 ^ 24) with 16777216.
  pose proof (Z.div_mod v 256 ltac:(lia)) as E0.
  pose proof (Z.mod_pos_bound v 256 ltac:(lia)) as B0.
  pose proof (Z.div_mod (v / 256) 256 ltac:(lia)) as E1.
  pose proof (Z.mod_pos_bound (v / 256) 256 ltac:(lia)) as B1.
  pose proof (Z.div_mod (v / 256 / 256) 256 ltac:(lia)) as E2.
  pose proof (Z.mod_pos_bound (v / 256 / 256) 256 ltac:(lia)) as B2.
  replace (v / 65536) with (v / 256 / 256)
    by (rewrite Z.div_div by lia; reflexivity).
  replace (v / 16777216) with (v / 256 / 256 / 256)
    by (rewrite !Z.div_div by lia; reflexivity).
  assert (0 <= v / 256 / 256 / 256 < 256).
  { split; [repeat apply Z.div_pos; lia|].
    repeat (apply Z.div_lt_upper_bound; [lia|]). lia. }
  rewrite (Z.mod_small (v / 256 / 256 / 256)) by lia. lia.
Qed.

(** X1: [spi_flash_cb_ceildivide] is the ceiling of the quotient: on
    32-bit operands with a divisor other than zero the result [q] is the
    least number with [dividend <= q * divisor]; it is 0 for a dividend
    of 0 and does not wrap. *)
Theorem ceildivide_is_ceiling (dividend divisor : Z) :
  0 <= dividend < 2 ^ 32 -> 0 < divisor < 2 ^ 32 ->
  let q := spi_flash_cb_ceildivide dividend divisor in
  dividend <= q * divisor /\ (q - 1) * divisor < dividend /\
  0 <= q <= dividend /\ (dividend = 0 -> q = 0).
Proof.
  intros Hx Hd q. unfold q. rewrite ceildivide_ceil by assumption.
  pose proof (ceil_div_spec dividend divisor ltac:(lia)) as [S1 S2].
  repeat split; try assumption; nia.
Qed.

Lemma ceildivide_is_ceiling_witness :
  257 <= spi_flash_cb_ceildivide 257 256 * 256 /\
  (spi_flash_cb_ceildivide 257 256 - 1) * 256 < 257.
Proof.
  assert (Hx : 0 <= 257 < 2 ^ 32) by (pow2; lia).
  assert (Hd : 0 < 256 < 2 ^ 32) by (pow2; lia).
  destruct (ceildivide_is_ceiling 257 256 Hx Hd) as (H1 & H2 & _).
  split; [exact H1 | exact H2].
Defined.

(** ** Packets *)

(** X2: the three address bytes of a packet hold the address modulo
    [2^24], high byte first; [put_addr] writes the bytes 1 to 3 of
    [uint8Spi] and nothing else.  An address at or above [2^24] is
    truncated. *)
Theorem put_addr_roundtrip (a : Z) (self : spi_flash_cb) :
  let self' := put_addr a self in
  Host.addr24 (uint8Spi self') = a mod 2 ^ 24 /\
  (forall k, 1 <= k <= 3 -> 0 <= uint8Spi self' k <= 255) /\
  (forall i, i < 1 \/ 3 < i -> uint8Spi self' i = uint8Spi self i) /\
  set_uint8Spi (uint8Spi self) self' = self.
Proof.
  destruct self as [ft fp nc sl bz c st er cbs spi ic ie ip pd dl].
  unfold put_addr, set_spi, Host.addr24, Buf.poke.
  cbn [uint8Spi set_uint8Spi].
  rewrite !land_255, !shiftr_div by lia.
  change (2 ^ 16) with 65536. change (2 ^ 8) with 256.
  change (2 ^ 24) with 16777216.
  repeat split.
  - cbn. apply bytes24.
  - assert (k = 1 \/ k = 2 \/ k = 3) as [ -> | [ -> | -> ] ] by lia; cbn;
      apply Z.mod_pos_bound; lia.
  - assert (k = 1 \/ k = 2 \/ k = 3) as [ -> | [ -> | -> ] ] by lia; cbn;
      match goal with |- ?x mod 256 <= 255 =>
        pose proof (Z.mod_pos_bound x 256 ltac:(lia)); lia end.
  - intros i Hi.
    replace (i =? 3) with false by (symmetry; apply Z.eqb_neq; lia).
    replace (i =? 2) with false by (symmetry; apply Z.eqb_neq; lia).
    replace (i =? 1) with false by (symmetry; apply Z.eqb_neq; lia).
    reflexivity.
Qed.

(** ** Runs inside the SPI buffer *)

Lemma raw_ok_cmd_IDLE B v s : raw_ok B (set_cmd IDLE (set_uint8Busy v s)).
Proof. destruct s; reflexivity. Qed.

Lemma raw_ok_go_idle B s : raw_ok B (go_idle s).
Proof. destruct s; reflexivity. Qed.

Section InBuffer.

Variable SPI_FLASH_CB_TYPES : list spi_flash_cb_type.
Variable SFCB_SPI_BUF : Z.

#[local] Hint Resolve raw_ok_go_idle : frame.

Lemma raw_ok_response s :
  raw_ok SFCB_SPI_BUF s -> raw_ok SFCB_SPI_BUF (mkcb_response s).
Proof. intros H. cbv delta [mkcb_response]. frame'. Qed.

#[local] Hint Resolve raw_ok_response : frame.

Lemma raw_ok_stg01 s :
  raw_ok SFCB_SPI_BUF s -> raw_ok SFCB_SPI_BUF (mkcb_stg01 SPI_FLASH_CB_TYPES s).
Proof. intros H. cbv delta [mkcb_stg01]. frame'. Qed.

Lemma raw_ok_raw_stg01 s :
  raw_ok SFCB_SPI_BUF s ->
  raw_ok SFCB_SPI_BUF (raw_stg01 SPI_FLASH_CB_TYPES SFCB_SPI_BUF s).
Proof.
  intros H. cbv delta [raw_stg01]. cbv beta.
  lazymatch goal with
  | |- ?K (let x := ?A in @?B x) =>
      apply (let_frame K A K B); [ | intros ? ? ]
  end.
  - destruct (_ <? _); [|exact H]. destruct s; reflexivity.
  - frame'.
Qed.

#[local] Hint Resolve raw_ok_stg01 raw_ok_raw_stg01 : frame.

Lemma raw_ok_worker s :
  raw_ok SFCB_SPI_BUF s ->
  raw_ok SFCB_SPI_BUF (sfcb_worker SPI_FLASH_CB_TYPES SFCB_SPI_BUF s).
Proof.
  intros H.
  cbv delta [sfcb_worker add_stg01 add_stg02 raw_stg02 mkcb_stg02 mkcb_stg03].
  cbv beta.
  destruct (cmd s); try exact H; destruct (uint8Stg s); try exact H; frame'.
Qed.

Lemma raw_ok_exec s e :
  read_fits SFCB_SPI_BUF e = true -> raw_ok SFCB_SPI_BUF s ->
  raw_ok SFCB_SPI_BUF (exec SPI_FLASH_CB_TYPES SFCB_SPI_BUF s e).
Proof.
  intros He H. destruct e as [|resp|c]; cbn [exec].
  - now apply raw_ok_worker.
  - destruct s; exact H.
  - destruct c; cbn [call].
    + unfold sfcb_mkcb. split_ifs; try exact H. destruct s; reflexivity.
    + unfold sfcb_add. split_ifs; try exact H. destruct s; reflexivity.
    + unfold sfcb_get. split_ifs; exact H.
    + unfold sfcb_flash_read. split_ifs; try exact H.
      destruct s. exact He.
    + unfold sfcb_new_cb.
      destruct (new_cb_scan _ _ _ _) as [k st].
      destruct (k =? _); cbn [fst snd]; [exact H|].
      destruct s; exact H.
Qed.

(** A run whose raw reads fit the buffer never has a raw read in flight
    that fails the size check of stage 1: the branch of the worker that
    writes past the end of [uint8Spi] is not taken. *)
Lemma raw_ok_run tr s :
  reads_fit SFCB_SPI_BUF tr = true -> raw_ok SFCB_SPI_BUF s ->
  raw_ok SFCB_SPI_BUF (run SPI_FLASH_CB_TYPES SFCB_SPI_BUF tr s).
Proof.
  revert s. induction tr as [|e tr IH]; intros s Htr H; [exact H|].
  cbn [reads_fit forallb] in Htr. apply Bool.andb_true_iff in Htr.
  destruct Htr as [He Htr].
  cbn [run fold_left]. apply IH; [exact Htr|]. now apply raw_ok_exec.
Qed.

Lemma raw_ok_size_check s :
  raw_ok SFCB_SPI_BUF s -> cmd s = RAW ->
  (SFCB_SPI_BUF <? uint16DataLen s + 4) = false.
Proof.
  unfold raw_ok, raw_fits. intros H Hc. rewrite Hc in H.
  apply Z.leb_le in H. apply Z.ltb_ge. exact H.
Qed.

End InBuffer.

(** ** The busy flag *)

Lemma job_step_go_idle c b s : job_step c b (go_idle s).
Proof. right. destruct s; split; reflexivity. Qed.

Section BusyFlag.

Variable SPI_FLASH_CB_TYPES : list spi_flash_cb_type.
Variable SFCB_SPI_BUF : Z.

#[local] Hint Resolve job_step_go_idle : frame.

Lemma job_step_response c b s :
  job_step c b s -> job_step c b (mkcb_response s).
Proof. intros H. cbv delta [mkcb_response]. frame'. Qed.

#[local] Hint Resolve job_step_response : frame.

Lemma job_step_mkcb_stg01 c b s :
  job_step c b s -> job_step c b (mkcb_stg01 SPI_FLASH_CB_TYPES s).
Proof. intros H. cbv delta [mkcb_stg01]. frame'. Qed.

Lemma job_step_raw_stg01 c b s :
  job_step c b s -> job_step c b (raw_stg01 SPI_FLASH_CB_TYPES SFCB_SPI_BUF s).
Proof.
  destruct s as [ft fp nc sl bz c0 st er cbs spi ic ie ip pd dl].
  unfold job_step, raw_stg01, put_addr, set_spi.
  cbn [cmd uint8Busy uint16DataLen set_uint8Busy set_cmd set_uint8Stg set_error
       set_uint16SpiLen set_uint8Spi uint8Spi uint16SpiLen uint32IterPage].
  destruct (SFCB_SPI_BUF <? dl + 4); cbn [cmd uint8Busy]; auto.
Qed.

#[local] Hint Resolve job_step_mkcb_stg01 job_step_raw_stg01 : frame.

Lemma worker_job_step (self : spi_flash_cb) :
  job_step (cmd self) (uint8Busy self)
    (sfcb_worker SPI_FLASH_CB_TYPES SFCB_SPI_BUF self).
Proof.
  assert (H : job_step (cmd self) (uint8Busy self) self) by (left; auto).
  cbv delta [sfcb_worker add_stg01 add_stg02 raw_stg02 mkcb_stg02 mkcb_stg03].
  cbv beta.
  destruct (cmd self); try exact H; destruct (uint8Stg self); try exact H; frame'.
Qed.

(** X3: a worker call leaves the command and the busy flag as they
    are, or it ends the job: then the command is [IDLE] and [uint8Busy]
    is 0.  The worker never starts a job and never sets the busy flag. *)
Theorem worker_ends_job_idle (self : spi_flash_cb) :
  let self' := sfcb_worker SPI_FLASH_CB_TYPES SFCB_SPI_BUF self in
  (cmd self' = cmd self /\ uint8Busy self' = uint8Busy self) \/
  (cmd self' = IDLE /\ uint8Busy self' = 0).
Proof. exact (worker_job_step self). Qed.

End BusyFlag.

(** ** Initialisation *)

Lemma init_list_nth n l j :
  nth j (init_list n l) elem_zero =
  if (j <? n)%nat && (j <? length l)%nat
  then set_uint8Init 0 (set_uint8Used 0 (nth j l elem_zero))
  else nth j l elem_zero.
Proof.
  revert l j. induction n as [|n IH]; intros l j.
  - reflexivity.
  - destruct l as [|e l].
    + cbn [init_list length].
      replace (j <? 0)%nat with false by (symmetry; apply Nat.ltb_ge; lia).
      now rewrite Bool.andb_false_r.
    + destruct j as [|j]; cbn [init_list nth length]; [reflexivity|].
      rewrite IH. reflexivity.
Qed.

Lemma init_list_length n l : length (init_list n l) = length l.
Proof.
  revert l. induction n as [|n IH]; intros [|e l]; cbn [init_list length]; auto.
Qed.

Section Init.

Variable SPI_FLASH_CB_TYPES : list spi_flash_cb_type.
Variable SFCB_SPI_BUF : Z.

(** X4: [sfcb_init] rejects a flash type outside [SPI_FLASH_CB_TYPES]
    with code 1 and leaves the handle alone.  Otherwise it returns 0 and
    the handle is idle (no job, not busy, stage 0, no packet), the first
    [numCbs] slots of the table are unused and not initialised, the
    memory behind them is untouched, and [error] is not reset.  On such
    a handle the worker does nothing, [sfcb_flash_size] is the size of
    the selected type, a mount is refused with code 2 (no queue) and an
    append or a get on any slot with code 2. *)
Theorem init_resets_handle (self0 : spi_flash_cb) (flashType : Z)
    (cbMem : list spi_flash_cb_elem) (numCbs : Z) :
  0 <= numCbs <= Z.of_nat (length cbMem) ->
  let r := sfcb_init SPI_FLASH_CB_TYPES self0 flashType cbMem numCbs in
  let self := snd r in
  (Z.of_nat (length SPI_FLASH_CB_TYPES) <= flashType -> r = (1, self0)) /\
  (flashType < Z.of_nat (length SPI_FLASH_CB_TYPES) ->
   fst r = 0 /\
   (uint8FlashType self = flashType /\ uint8NumCbs self = numCbs /\
    uint8Busy self = 0 /\ cmd self = IDLE /\ uint8Stg self = SFCB_STG_00 /\
    uint16SpiLen self = 0 /\ error self = error self0) /\
   length (ptrCbs self) = length cbMem /\
   (forall i, 0 <= i < numCbs ->
      uint8Used (cb self i) = 0 /\ uint8Init (cb self i) = 0) /\
   (forall i, numCbs <= i -> cb self i = nth (Z.to_nat i) cbMem elem_zero) /\
   sfcb_worker SPI_FLASH_CB_TYPES SFCB_SPI_BUF self = self /\
   sfcb_busy self = 0 /\
   sfcb_flash_size SPI_FLASH_CB_TYPES self
   = uint32FlashTopoTotalSizeByte
       (nth (Z.to_nat flashType) SPI_FLASH_CB_TYPES type_zero) /\
   (0 < numCbs -> sfcb_mkcb self = (2, self)) /\
   (forall cbID data len, 0 <= cbID < numCbs ->
      sfcb_add SPI_FLASH_CB_TYPES self cbID data len = (2, self)) /\
   (forall cbID data len lenMax, 0 <= cbID < numCbs ->
      sfcb_get self cbID data len lenMax = (2, self))).
Proof.
  intros Hn r self. subst self r. unfold sfcb_init.
  split.
  - intros Hf. replace (flashType >? _) with true; [reflexivity|].
    symmetry. apply Z.gtb_lt. lia.
  - intros Hf. replace (flashType >? _) with false
      by (symmetry; rewrite Z.gtb_ltb; apply Z.ltb_ge; lia).
    destruct self0 as [ft fp nc sl bz c st er cbs spi ic ie ip pd dl].
    cbn [fst snd set_uint8FlashType set_uint8FlashPresent set_uint8NumCbs
         set_uint16SpiLen set_uint8Busy set_cmd set_uint8Stg set_ptrCbs ptrCbs].
    assert (Hslot : forall i, 0 <= i < numCbs ->
              uint8Used (nth (Z.to_nat i) (init_list (Z.to_nat numCbs) cbMem)
                           elem_zero) = 0 /\
              uint8Init (nth (Z.to_nat i) (init_list (Z.to_nat numCbs) cbMem)
                           elem_zero) = 0).
    { intros i Hi. rewrite init_list_nth.
      replace (Z.to_nat i <? Z.to_nat numCbs)%nat with true
        by (symmetry; apply Nat.ltb_lt; lia).
      replace (Z.to_nat i <? length cbMem)%nat with true
        by (symmetry; apply Nat.ltb_lt; lia).
      cbn [andb]. destruct (nth (Z.to_nat i) cbMem elem_zero). split; reflexivity. }
    split; [reflexivity|].
    split; [cbn; repeat split; reflexivity|].
    split; [cbn; apply init_list_length|].
    split; [exact Hslot|].
    split.
    { intros i Hi. unfold cb. cbn [ptrCbs]. rewrite init_list_nth.
      replace (Z.to_nat i <? Z.to_nat numCbs)%nat with false
        by (symmetry; apply Nat.ltb_ge; lia).
      reflexivity. }
    split; [reflexivity|].
    split; [reflexivity|].
    split; [reflexivity|].
    split.
    { intros Hpos. unfold sfcb_mkcb, cb. cbn [uint8Busy ptrCbs].
      destruct (Hslot 0 ltac:(lia)) as [Hu _]. rewrite Hu. reflexivity. }
    split.
    { intros cbID data len Hc. unfold sfcb_add, cb. cbn [uint8Busy ptrCbs].
      destruct (Hslot cbID Hc) as [Hu _]. rewrite Hu. reflexivity. }
    { intros cbID data len lenMax Hc. unfold sfcb_get, cb. cbn [uint8Busy ptrCbs].
      destruct (Hslot cbID Hc) as [Hu _]. rewrite Hu. reflexivity. }
Qed.

(** *** The busy flag and the job *)

Lemma exec_job_consistent self e :
  job_consistent self ->
  job_consistent (exec SPI_FLASH_CB_TYPES SFCB_SPI_BUF self e).
Proof.
  intros H. destruct e as [|resp|c]; simpl.
  - pose proof (worker_job_step SPI_FLASH_CB_TYPES SFCB_SPI_BUF self) as W.
    unfold job_step, job_consistent in *.
    destruct W as [[Wc Wb]|[Wc Wb]]; rewrite Wc, Wb; auto.
  - destruct self; exact H.
  - destruct c; simpl.
    + unfold sfcb_mkcb. destruct (negb _); [exact H|].
      destruct (_ =? 0); [exact H|].
      right. destruct self; cbn. auto.
    + unfold sfcb_add. destruct (negb _); [exact H|].
      destruct (_ || _)%bool; [exact H|].
      destruct (_ >? _); [exact H|].
      right. destruct self; cbn. auto.
    + unfold sfcb_get. split_ifs; exact H.
    + unfold sfcb_flash_read. destruct (negb _); [exact H|].
      right. destruct self; cbn. auto.
    + pose proof (new_cb_job SPI_FLASH_CB_TYPES self magicNum elemSizeByte
                    numElems 0) as J.
      cbv zeta in J. destruct J as (_ & J1 & _ & J2 & _).
      unfold job_consistent. rewrite J1, J2. exact H.
Qed.

(** X5: on every handle reached from a successful [sfcb_init] by API
    calls, worker calls and transfers, none of the raw reads asking for
    more than [SFCB_SPI_BUF - 4] bytes, [sfcb_busy] returns 0 exactly
    when no job is in flight ([cmd = IDLE]) and -1 exactly when a mount,
    an append or a raw read is; the command is never [GET], and a raw
    read in flight passes the size check. *)
Theorem busy_tells_job (self0 self : spi_flash_cb) (flashType : Z)
    (cbMem : list spi_flash_cb_elem) (numCbs : Z) (tr : list event) :
  sfcb_init SPI_FLASH_CB_TYPES self0 flashType cbMem numCbs = (0, self) ->
  reads_fit SFCB_SPI_BUF tr = true ->
  let s := run SPI_FLASH_CB_TYPES SFCB_SPI_BUF tr self in
  (sfcb_busy s = 0 <-> cmd s = IDLE) /\
  (sfcb_busy s = -1 <-> cmd s = MKCB \/ cmd s = ADD \/ cmd s = RAW) /\
  cmd s <> GET /\
  raw_fits SFCB_SPI_BUF s = true.
Proof.
  intros Hinit Hfit s.
  assert (Hraw : raw_fits SFCB_SPI_BUF s = true).
  { apply raw_ok_run; [exact Hfit|].
    revert Hinit. unfold sfcb_init. destruct (_ >? _); [discriminate|].
    intros E. injection E as <-. destruct self0; reflexivity. }
  enough (G : (sfcb_busy s = 0 <-> cmd s = IDLE) /\
              (sfcb_busy s = -1 <-> cmd s = MKCB \/ cmd s = ADD \/ cmd s = RAW) /\
              cmd s <> GET)
    by (destruct G as (G1 & G2 & G3); auto).
  clear Hraw Hfit.
  assert (H0 : job_consistent self).
  { revert Hinit. unfold sfcb_init. destruct (_ >? _); [discriminate|].
    intros E. injection E as <-. left. destruct self0; cbn. auto. }
  assert (H : job_consistent s).
  { subst s. clear Hinit. revert self H0.
    induction tr as [|e tr IH]; intros self H0; [exact H0|].
    simpl. apply IH. now apply exec_job_consistent. }
  unfold sfcb_busy.
  destruct H as [[Hb Hc]|[Hb Hc]]; rewrite Hb; cbn.
  - rewrite Hc. repeat split; auto; try discriminate.
    intros [E|[E|E]]; discriminate.
  - repeat split; auto; try discriminate.
    + intros E. destruct Hc as [Hc|[Hc|Hc]]; congruence.
    + destruct Hc as [Hc|[Hc|Hc]]; congruence.
Qed.

End Init.

(** ** The status poll *)

Section Poll.

Variable SPI_FLASH_CB_TYPES : list spi_flash_cb_type.
Variable SFCB_SPI_BUF : Z.

(** X6: in stage 0 of a mount, an append or a raw read, as long as no
    packet was sent yet ([uint16SpiLen = 0]) or the status byte of the
    last response has a bit of the WIP mask set, a worker call only
    writes the two-byte read-status packet: the rest of the buffer and
    every other member of the handle (command, stage, busy flag,
    iterators, queue table, application buffer) stay as they are. *)
Theorem wip_poll (self : spi_flash_cb) :
  cmd self = MKCB \/ cmd self = ADD \/ cmd self = RAW ->
  uint8Stg self = SFCB_STG_00 ->
  uint16SpiLen self = 0 \/
  Z.land (uint8Spi self 1) (uint8FlashMngWipMsk (flash SPI_FLASH_CB_TYPES self)) <> 0 ->
  let self' := sfcb_worker SPI_FLASH_CB_TYPES SFCB_SPI_BUF self in
  uint16SpiLen self' = 2 /\
  uint8Spi self' 0 = uint8FlashIstRdStateReg (flash SPI_FLASH_CB_TYPES self) /\
  uint8Spi self' 1 = 0 /\
  (forall i, i <> 0 -> i <> 1 -> uint8Spi self' i = uint8Spi self i) /\
  set_uint16SpiLen (uint16SpiLen self) (set_uint8Spi (uint8Spi self) self') = self.
Proof.
  intros Hc Hs Hw.
  assert (Hp : wip_pending SPI_FLASH_CB_TYPES self = true).
  { unfold wip_pending. destruct Hw as [Hw|Hw].
    - rewrite Hw. reflexivity.
    - apply Z.eqb_neq in Hw. rewrite Hw. apply Bool.orb_true_r. }
  assert (E : sfcb_worker SPI_FLASH_CB_TYPES SFCB_SPI_BUF self
              = req_status SPI_FLASH_CB_TYPES self).
  { unfold sfcb_worker. destruct Hc as [Hc|[Hc|Hc]]; rewrite Hc, Hs, Hp; reflexivity. }
  cbv zeta. rewrite E. clear.
  destruct self as [ft fp nc sl bz c st er cbs spi ic ie ip pd dl].
  unfold req_status, set_spi, flash, Buf.poke. cbn.
  repeat split.
  intros i H0 H1. apply Z.eqb_neq in H0, H1. now rewrite H0, H1.
Qed.

End Poll.

(** ** What the worker does to the descriptors *)

Lemma scan_order_refl e : scan_order e e.
Proof. unfold scan_order. repeat split; auto; lia. Qed.

Lemma scan_ordered_refl s : scan_ordered s s.
Proof. split; [reflexivity | intros j; apply scan_order_refl]. Qed.

(** an assignment to slot [q] that respects the order at that slot *)
Lemma scan_ordered_upd s0 q f s :
  (forall e0, scan_order e0 (cb s q) -> scan_order e0 (f (cb s q))) ->
  scan_ordered s0 s -> scan_ordered s0 (upd_cb q f s).
Proof.
  intros Hf [Hl H]. split.
  - rewrite ptrCbs_upd_cb, length_list_upd. exact Hl.
  - intros j. unfold cb at 2. rewrite ptrCbs_upd_cb, nth_list_upd.
    destruct (Nat.eqb_spec (Z.to_nat q) (Z.to_nat j)) as [E|E]; cbn [andb].
    + destruct (_ <? _)%nat; [|apply H].
      specialize (H j). unfold cb in *. rewrite <- E in *.
      apply Hf. exact H.
    + apply H.
Qed.

Ltac frame_step_eq :=
  lazymatch goal with
  | |- ?K (let x := ?A in @?B x) =>
      lazymatch type of A with
      | spi_flash_cb => apply (let_frame K A K B); [ | intros ? ? ]
      | _ => apply (let_frame K A (fun _ => True) B); [ exact I | intros ? _ ]
      end
  | |- ?K (if ?c then _ else _) => destruct c eqn:?
  end.

(** the side condition of [scan_ordered_upd], from the tests the code
    has made on the slot *)
Ltac scan_side :=
  let e0 := fresh "e0" in
  let HR := fresh "HR" in
  intros e0 HR; revert HR; unfold scan_order, registration;
  repeat match goal with
         | H : (_ >? _) = true |- _ => apply Z.gtb_lt in H
         | H : (_ =? _) = true |- _ => apply Z.eqb_eq in H
         end;
  match goal with
  | |- context [cb ?s ?q] => destruct (cb s q)
  end;
  cbn in *; intros (R & M1 & M2 & I1);
  repeat split; try assumption; try lia;
  try (intros I0; destruct (I1 I0); assumption);
  try (intros I0; exfalso; destruct (I1 I0); congruence).

Ltac scan_leaf :=
  first [ frame_leaf
        | apply scan_ordered_upd; [ scan_side | assumption ] ].

Ltac scan_frame :=
  repeat (cbv beta; first [ frame_step_eq | frame_match | scan_leaf ]).

Section Scan.

Variable SPI_FLASH_CB_TYPES : list spi_flash_cb_type.
Variable SFCB_SPI_BUF : Z.

Lemma scan_ordered_response s0 s :
  scan_ordered s0 s -> scan_ordered s0 (mkcb_response s).
Proof. intros H. cbv delta [mkcb_response]. scan_frame. Qed.

#[local] Hint Resolve scan_ordered_response : frame.




End Scan.

(** ** One step of the scan *)

Ltac scan_cbn :=
  cbn [andb ptrCbs set_ptrCbs uint8Spi uint32IterPage
       uint32MagicNum uint32IdNumMax uint32IdNumMin uint8Init
       uint16NumEntries uint32StartPageIdMin uint32StartPageWrite
       set_uint16NumEntries set_uint32IdNumMax set_uint32IdNumMin
       set_uint32StartPageIdMin set_uint32StartPageWrite set_uint8Init].

Section ScanStep.

Variable SPI_FLASH_CB_TYPES : list spi_flash_cb_type.
Variable SFCB_SPI_BUF : Z.

#[local] Hint Resolve keeps_go_idle : frame.

(** behind the check of the response, stage 1 does not write the table *)
Lemma mkcb_stg01_table s :
  ptrCbs (mkcb_stg01 SPI_FLASH_CB_TYPES s) = ptrCbs (mkcb_response s).
Proof.
  enough (H : keeps (cmd (mkcb_response s)) (ptrCbs (mkcb_response s))
                (mkcb_stg01 SPI_FLASH_CB_TYPES s)) by apply H.
  cbv delta [mkcb_stg01]. cbv beta.
  lazymatch goal with
  | |- ?K (let x := ?A in @?B x) =>
      apply (let_frame K A K B); [ split; auto | intros ? ? ]
  end.
  frame'.
Qed.

Lemma mkcb_response_slot s :
  uint16SpiLen s <> 0 ->
  (Z.to_nat (uint8IterCb s) < length (ptrCbs s))%nat ->
  let q := uint8IterCb s in
  let e := cb s q in
  let id := head_IdNum s in
  let e' := cb (mkcb_response s) q in
  (forall j, Z.to_nat j <> Z.to_nat q -> cb (mkcb_response s) j = cb s j) /\
  (head_MagicNum s = uint32MagicNum e ->
   e' = set_uint32StartPageIdMin
          (if id <? uint32IdNumMin e then uint32IterPage s
           else uint32StartPageIdMin e)
          (set_uint32IdNumMin (Z.min (uint32IdNumMin e) id)
             (set_uint32IdNumMax (Z.max (uint32IdNumMax e) id)
                (set_uint16NumEntries (wrap16 (uint16NumEntries e + 1)) e)))) /\
  (head_MagicNum s <> uint32MagicNum e -> uint8Init e = 0 ->
   head_unused s = true ->
   e' = set_uint8Init 1 (set_uint32StartPageWrite (uint32IterPage s) e)) /\
  (head_MagicNum s <> uint32MagicNum e ->
   uint8Init e <> 0 \/ head_unused s = false -> e' = e).
Proof.
  intros Hl Hin q e id e'. subst q e id e'.
  apply Z.eqb_neq in Hl. apply Nat.ltb_lt in Hin.
  destruct s as [ft fp nc sl bz c st er cbs spi ic ie ip pd dl].
  unfold mkcb_response, head_MagicNum, head_IdNum, head_unused, upd_cb, cb.
  cbn [uint16SpiLen uint8IterCb ptrCbs uint8Spi uint32IterPage set_ptrCbs] in *.
  rewrite Hl. cbn [negb].
  assert (Hj : forall j, Z.to_nat j <> Z.to_nat ic ->
            (Z.to_nat ic =? Z.to_nat j)%nat = false).
  { intros j Hj. apply Nat.eqb_neq. congruence. }
  destruct (nth (Z.to_nat ic) cbs elem_zero) as [u i0 m p s1 s2 nm ne mn mx pm pw]
    eqn:Ee.
  repeat (rewrite ?nth_list_upd, ?length_list_upd, ?Nat.eqb_refl, ?Hin, ?Ee;
          scan_cbn).
  repeat match goal with
         | |- context [if ?c then _ else _] =>
             lazymatch c with
             | context [if _ then _ else _] => fail
             | _ => destruct c eqn:?
             end;
             repeat (rewrite ?nth_list_upd, ?length_list_upd, ?Nat.eqb_refl,
                       ?Hin, ?Ee; scan_cbn)
         end.
  all: repeat match goal with
         | H : (_ =? _) = true |- _ => apply Z.eqb_eq in H
         | H : (_ =? _) = false |- _ => apply Z.eqb_neq in H
         | H : (_ >? _) = true |- _ => apply Z.gtb_lt in H
         | H : (_ >? _) = false |- _ =>
             rewrite Z.gtb_ltb in H; apply Z.ltb_ge in H
         | H : (_ <? _) = true |- _ => apply Z.ltb_lt in H
         | H : (_ <? _) = false |- _ => apply Z.ltb_ge in H
         end.
  all: (split; [intros j Hjq; rewrite ?nth_list_upd, ?(Hj j Hjq); reflexivity|]).
  all: (split; [intros Hm; first [congruence | reflexivity | f_equal; lia] |]).
  all: (split; [intros Hm Hi0 Hu;
                first [congruence | lia | reflexivity | f_equal; lia] |]).
  all: (intros Hm [Hi0|Hu]; first [congruence | lia | reflexivity]).
Qed.

(** X8: one step of the scan.  In stage 1 of a mount, with a response
    in the buffer, the worker changes the descriptor of the queue under
    scan and no other.  A header whose magic number matches counts as a
    record: [uint16NumEntries] goes up by one (modulo [2^16]),
    [uint32IdNumMax] becomes the larger and [uint32IdNumMin] the smaller
    of the old value and the id, and the page address of the read is
    recorded in [uint32StartPageIdMin] when the id is the new minimum.
    Otherwise, if the queue is not initialised and the eight header
    bytes are all [0xFF], the page becomes [uint32StartPageWrite] and
    the queue is initialised.  Any other page (a foreign or corrupt
    header, or a free page of a queue that has one already) leaves the
    descriptor as it is. *)
Theorem mount_scan_step (self : spi_flash_cb) :
  cmd self = MKCB -> uint8Stg self = SFCB_STG_01 ->
  uint16SpiLen self <> 0 ->
  (Z.to_nat (uint8IterCb self) < length (ptrCbs self))%nat ->
  let q := uint8IterCb self in
  let e := cb self q in
  let id := head_IdNum self in
  let self' := sfcb_worker SPI_FLASH_CB_TYPES SFCB_SPI_BUF self in
  let e' := cb self' q in
  (forall j, Z.to_nat j <> Z.to_nat q -> cb self' j = cb self j) /\
  (head_MagicNum self = uint32MagicNum e ->
   e' = set_uint32StartPageIdMin
          (if id <? uint32IdNumMin e then uint32IterPage self
           else uint32StartPageIdMin e)
          (set_uint32IdNumMin (Z.min (uint32IdNumMin e) id)
             (set_uint32IdNumMax (Z.max (uint32IdNumMax e) id)
                (set_uint16NumEntries (wrap16 (uint16NumEntries e + 1)) e)))) /\
  (head_MagicNum self <> uint32MagicNum e -> uint8Init e = 0 ->
   head_unused self = true ->
   e' = set_uint8Init 1 (set_uint32StartPageWrite (uint32IterPage self) e)) /\
  (head_MagicNum self <> uint32MagicNum e ->
   uint8Init e <> 0 \/ head_unused self = false -> e' = e).
Proof.
  intros Hc Hs Hl Hin q e id self' e'.
  assert (Ht : ptrCbs self' = ptrCbs (mkcb_response self)).
  { unfold self', sfcb_worker. rewrite Hc, Hs. apply mkcb_stg01_table. }
  assert (Hcb : forall j, cb self' j = cb (mkcb_response self) j).
  { intros j. unfold cb. now rewrite Ht. }
  unfold e'. rewrite Hcb.
  destruct (mkcb_response_slot self Hl Hin) as (H1 & H2 & H3 & H4).
  split; [intros j Hj; rewrite Hcb; now apply H1|].
  split; [exact H2|]. split; [exact H3 | exact H4].
Qed.

End ScanStep.

Lemma mount_scan_step_witness :
  let s := snd (Host.steps types_ex spi_buf_ex 2
                  (flash_wrapped, snd (sfcb_mkcb handle_q0))) in
  let s' := sfcb_worker types_ex spi_buf_ex s in
  head_MagicNum s = 10 /\ head_IdNum s = 17 /\
  uint16NumEntries (cb s' 0) = 1 /\ uint32IdNumMax (cb s' 0) = 17 /\
  uint32IdNumMin (cb s' 0) = 17 /\ uint32StartPageIdMin (cb s' 0) = 0.
Proof.
  set (s := snd (Host.steps types_ex spi_buf_ex 2
                   (flash_wrapped, snd (sfcb_mkcb handle_q0)))).
  assert (Hc : cmd s = MKCB) by (vm_compute; reflexivity).
  assert (Hs : uint8Stg s = SFCB_STG_01) by (vm_compute; reflexivity).
  assert (Hl : uint16SpiLen s <> 0) by (vm_compute; discriminate).
  assert (Hin : (Z.to_nat (uint8IterCb s) < length (ptrCbs s))%nat)
    by (vm_compute; lia).
  assert (Hm : head_MagicNum s = uint32MagicNum (cb s (uint8IterCb s)))
    by (vm_compute; reflexivity).
  destruct (mount_scan_step types_ex spi_buf_ex s Hc Hs Hl Hin) as (_ & H2 & _).
  specialize (H2 Hm). cbv zeta.
  change (cb (sfcb_worker types_ex spi_buf_ex s) 0)
    with (cb (sfcb_worker types_ex spi_buf_ex s) (uint8IterCb s)).
  rewrite H2. vm_compute. repeat split; reflexivity.
Defined.

(** ** Staging a mount *)

Lemma mkcb_first_spec self n i it :
  let r := mkcb_first self n i it in
  r = it \/
  (i <= r < i + Z.of_nat n /\
   forall k, i <= k <= r ->
     uint8Used (cb self k) <> 0 /\ uint8Init (cb self k) <> 0).
Proof.
  revert i it. induction n as [|n IH]; intros i it; cbn [mkcb_first].
  - left. reflexivity.
  - destruct (_ || _)%bool eqn:E; [left; reflexivity|].
    apply Bool.orb_false_iff in E. destruct E as [Eu Ei].
    apply Z.eqb_neq in Eu, Ei.
    right. destruct (IH (i + 1) i) as [H|[Hr Hk]].
    + cbv zeta in H. rewrite H. split; [lia|].
      intros k Hk. assert (k = i) as -> by lia. auto.
    + cbv zeta in Hr, Hk. split; [lia|].
      intros k Hki. destruct (Z.eq_dec k i) as [->|]; [auto|].
      apply Hk. lia.
Qed.

Lemma mkcb_first_exact self n i it :
  let r := mkcb_first self n i it in
  (r = it /\
   (n = 0%nat \/ uint8Used (cb self i) = 0 \/ uint8Init (cb self i) = 0)) \/
  (i <= r < i + Z.of_nat n /\
   (forall k, i <= k <= r ->
      uint8Used (cb self k) <> 0 /\ uint8Init (cb self k) <> 0) /\
   (r + 1 = i + Z.of_nat n \/
    uint8Used (cb self (r + 1)) = 0 \/ uint8Init (cb self (r + 1)) = 0)).
Proof.
  revert i it. induction n as [|n IH]; intros i it; cbn [mkcb_first].
  - left. auto.
  - destruct (_ || _)%bool eqn:E.
    + left. split; [reflexivity|]. right.
      apply Bool.orb_true_iff in E. destruct E as [E|E]; apply Z.eqb_eq in E; auto.
    + apply Bool.orb_false_iff in E. destruct E as [Eu Ei].
      apply Z.eqb_neq in Eu, Ei.
      right. destruct (IH (i + 1) i) as [[H Hs]|(Hr & Hk & He)]; cbv zeta in *.
      * rewrite H. split; [lia|]. split.
        -- intros k Hk. assert (k = i) as -> by lia. auto.
        -- destruct Hs as [->|Hs]; [left; lia | right; exact Hs].
      * split; [lia|]. split.
        -- intros k Hki. destruct (Z.eq_dec k i) as [->|]; [auto|].
           apply Hk. lia.
        -- destruct He as [He|He]; [left; lia | right; exact He].
Qed.

(** X9: [sfcb_mkcb] returns 0 exactly when the driver is not busy and
    slot 0 is used, and 2 exactly when it is not busy and slot 0 is not
    used.  An accepted mount leaves the table, the buffer and
    [uint16SpiLen] as they are (a packet length left over from the job
    before is not cleared), stages the job in stage 0 with the element
    counter at 0 and the error reset, and points [uint8IterCb] at a used
    slot inside the table.  Which one is fixed: slot 0 when the table has
    no slot or queue 0 is not initialised; otherwise the last slot of the
    leading run of used and initialised queues, that is the slot [i] with
    every slot up to [i] used and initialised and slot [i + 1] behind the
    table, unused or not initialised. *)
Theorem mkcb_stages_mount (self : spi_flash_cb) :
  let r := sfcb_mkcb self in
  let self' := snd r in
  (fst r = 0 <-> uint8Busy self = 0 /\ uint8Used (cb self 0) <> 0) /\
  (fst r = 2 <-> uint8Busy self = 0 /\ uint8Used (cb self 0) = 0) /\
  (fst r = 0 ->
   (cmd self' = MKCB /\ uint8Stg self' = SFCB_STG_00 /\ uint8Busy self' = 1 /\
    error self' = NO /\ uint16IterElem self' = 0) /\
   (ptrCbs self' = ptrCbs self /\ uint16SpiLen self' = uint16SpiLen self /\
    uint8Spi self' = uint8Spi self) /\
   0 <= uint8IterCb self' /\
   (uint8IterCb self' = 0 \/ uint8IterCb self' < uint8NumCbs self) /\
   (Z.to_nat (uint8IterCb self') < length (ptrCbs self))%nat /\
   (forall k, 0 <= k <= uint8IterCb self' -> uint8Used (cb self k) <> 0) /\
   (forall k, 0 <= k <= uint8IterCb self' -> 0 < uint8IterCb self' ->
      uint8Init (cb self k) <> 0) /\
   ((uint8IterCb self' = 0 /\
     (uint8NumCbs self <= 0 \/ uint8Init (cb self 0) = 0)) \/
    (0 <= uint8IterCb self' < uint8NumCbs self /\
     (forall k, 0 <= k <= uint8IterCb self' ->
        uint8Used (cb self k) <> 0 /\ uint8Init (cb self k) <> 0) /\
     (uint8IterCb self' + 1 = uint8NumCbs self \/
      uint8Used (cb self (uint8IterCb self' + 1)) = 0 \/
      uint8Init (cb self (uint8IterCb self' + 1)) = 0)))).
Proof.
  cbv zeta. unfold sfcb_mkcb.
  destruct (uint8Busy self =? 0) eqn:Eb; cbn [negb].
  2:{ apply Z.eqb_neq in Eb. cbn [fst snd].
      repeat split; intros; try lia; try discriminate; tauto. }
  apply Z.eqb_eq in Eb.
  destruct (uint8Used (cb self 0) =? 0) eqn:Eu.
  { apply Z.eqb_eq in Eu. cbn [fst snd].
    repeat split; intros; try lia; try discriminate; tauto. }
  apply Z.eqb_neq in Eu.
  pose proof (mkcb_first_spec (set_uint8IterCb 0 self)
                (Z.to_nat (uint8NumCbs (set_uint8IterCb 0 self))) 0
                (uint8IterCb (set_uint8IterCb 0 self))) as F.
  pose proof (mkcb_first_exact (set_uint8IterCb 0 self)
                (Z.to_nat (uint8NumCbs (set_uint8IterCb 0 self))) 0
                (uint8IterCb (set_uint8IterCb 0 self))) as X.
  cbv zeta in F, X.
  set (first := mkcb_first (set_uint8IterCb 0 self)
                  (Z.to_nat (uint8NumCbs (set_uint8IterCb 0 self))) 0
                  (uint8IterCb (set_uint8IterCb 0 self))) in *.
  assert (Hcb : forall k, cb (set_uint8IterCb 0 self) k = cb self k)
    by (intros; destruct self; reflexivity).
  assert (Hit : uint8IterCb (set_uint8IterCb 0 self) = 0)
    by (destruct self; reflexivity).
  assert (Hnc : uint8NumCbs (set_uint8IterCb 0 self) = uint8NumCbs self)
    by (destruct self; reflexivity).
  rewrite Hit, Hnc in F, X.
  assert (Hexact :
            (first = 0 /\ (uint8NumCbs self <= 0 \/ uint8Init (cb self 0) = 0)) \/
            (0 <= first < uint8NumCbs self /\
             (forall k, 0 <= k <= first ->
                uint8Used (cb self k) <> 0 /\ uint8Init (cb self k) <> 0) /\
             (first + 1 = uint8NumCbs self \/
              uint8Used (cb self (first + 1)) = 0 \/
              uint8Init (cb self (first + 1)) = 0))).
  { destruct X as [[X0 Xs]|(Xr & Xk & Xe)].
    - left. split; [exact X0|]. rewrite Hcb in Xs.
      destruct Xs as [Xs|[Xs|Xs]]; [left; lia | contradiction | right; exact Xs].
    - right. split; [lia|]. split.
      + intros k Hk. rewrite <- Hcb. now apply Xk.
      + rewrite Hcb in Xe. destruct Xe as [Xe|Xe]; [left; lia | right; exact Xe]. }
  clear X.
  assert (Hfirst : 0 <= first /\
            (first = 0 \/ first < uint8NumCbs self) /\
            (forall k, 0 <= k <= first -> uint8Used (cb self k) <> 0) /\
            (forall k, 0 <= k <= first -> 0 < first -> uint8Init (cb self k) <> 0)).
  { destruct F as [F|[Fr Fk]].
    - rewrite F. repeat split; try lia; auto.
      intros k Hk. assert (k = 0) as -> by lia. exact Eu.
    - repeat split; try lia.
      + intros k Hk. rewrite <- Hcb. now apply Fk.
      + intros k Hk _. rewrite <- Hcb. now apply Fk. }
  destruct Hfirst as (F0 & F1 & F2 & F3).
  assert (Hres : uint8IterCb
                   (snd (0, set_uint8Busy 1 (set_error NO (set_uint8Stg SFCB_STG_00
                      (set_uint16IterElem 0 (set_cmd MKCB
                         (set_uint8IterCb first (set_uint8IterCb 0 self)))))))) = first)
    by (destruct self; reflexivity).
  cbn [fst snd] in *.
  split; [split; [auto | reflexivity]|].
  split; [split; [discriminate | intros [_ H]; contradiction]|].
  intros _.
  split; [destruct self; cbn; auto|].
  split; [destruct self; cbn; auto|].
  rewrite Hres.
  split; [exact F0|]. split; [exact F1|].
  split; [apply cb_used_in_table, F2; lia|].
  split; [exact F2|]. split; [exact F3 | exact Hexact].
Qed.

(** ** The raw read *)

Ltac rec_cbn :=
  cbn [uint8FlashType uint8FlashPresent uint8NumCbs uint16SpiLen uint8Busy cmd
       uint8Stg error ptrCbs uint8Spi uint8IterCb uint16IterElem uint32IterPage
       ptrData uint16DataLen
       set_uint8FlashType set_uint8FlashPresent set_uint8NumCbs set_uint16SpiLen
       set_uint8Busy set_cmd set_uint8Stg set_error set_ptrCbs set_uint8Spi
       set_uint8IterCb set_uint16IterElem set_uint32IterPage set_ptrData
       set_uint16DataLen set_spi fst snd negb orb andb].

(** the worker call whose argument is an explicit handle *)
Ltac worker_at_record k :=
  match goal with
  | |- context [sfcb_worker ?T ?B ?x] =>
      lazymatch x with
      | Build_spi_flash_cb _ _ _ _ _ _ _ _ _ _ _ _ _ _ _ => k T B x
      end
  end.

Section RawJob.

Variable SPI_FLASH_CB_TYPES : list spi_flash_cb_type.
Variable SFCB_SPI_BUF : Z.

Lemma worker_poll self :
  cmd self = MKCB \/ cmd self = ADD \/ cmd self = RAW ->
  uint8Stg self = SFCB_STG_00 ->
  wip_pending SPI_FLASH_CB_TYPES self = true ->
  sfcb_worker SPI_FLASH_CB_TYPES SFCB_SPI_BUF self
  = req_status SPI_FLASH_CB_TYPES self.
Proof.
  intros Hc Hs Hp. unfold sfcb_worker.
  destruct Hc as [Hc|[Hc|Hc]]; rewrite Hc, Hs, Hp; reflexivity.
Qed.

Lemma worker_raw_read self :
  cmd self = RAW -> uint8Stg self = SFCB_STG_00 ->
  wip_pending SPI_FLASH_CB_TYPES self = false ->
  sfcb_worker SPI_FLASH_CB_TYPES SFCB_SPI_BUF self
  = raw_stg01 SPI_FLASH_CB_TYPES SFCB_SPI_BUF
      (set_uint8Stg SFCB_STG_01 (set_uint16SpiLen 0 self)).
Proof. intros Hc Hs Hp. unfold sfcb_worker. rewrite Hc, Hs, Hp. reflexivity. Qed.

Lemma worker_raw_copy self :
  cmd self = RAW -> uint8Stg self = SFCB_STG_02 ->
  sfcb_worker SPI_FLASH_CB_TYPES SFCB_SPI_BUF self = raw_stg02 self.
Proof. intros Hc Hs. unfold sfcb_worker. rewrite Hc, Hs. reflexivity. Qed.

(** X10: a raw read that fits the buffer.  With the driver idle and the
    packet length 0 at the call, [sfcb_flash_read] of [len] bytes with
    [len + 4 <= SFCB_SPI_BUF] is accepted; the job sends the status poll
    and, once the flash shows no write in progress, a read-data packet
    of [len + 4] bytes at the address given (its low 24 bits), the bytes
    behind the address cleared.  The worker call after that transfer
    copies the bytes 4 to [len + 3] of the response to the front of the
    application buffer and ends the job with no error, the table
    untouched. *)
Theorem raw_read_delivers (self : spi_flash_cb) (adr : Z) (data : list Z)
    (len : Z) (r1 r2 : Buf.t) :
  uint8Busy self = 0 -> uint16SpiLen self = 0 ->
  0 <= len -> len + 4 <= SFCB_SPI_BUF -> len + 4 < 2 ^ 16 ->
  Z.land (r1 1) (uint8FlashMngWipMsk (flash SPI_FLASH_CB_TYPES self)) = 0 ->
  let s1 := snd (sfcb_flash_read self adr data len) in
  let s2 := run SPI_FLASH_CB_TYPES SFCB_SPI_BUF [Worker; Transfer r1; Worker] s1 in
  let s3 := run SPI_FLASH_CB_TYPES SFCB_SPI_BUF [Transfer r2; Worker] s2 in
  fst (sfcb_flash_read self adr data len) = 0 /\
  (uint16SpiLen s2 = len + 4 /\
   uint8Spi s2 0 = uint8FlashIstRdData (flash SPI_FLASH_CB_TYPES self) /\
   Host.addr24 (uint8Spi s2) = adr mod 2 ^ 24 /\
   (forall i, 4 <= i < len + 4 -> uint8Spi s2 i = 0) /\
   uint8Busy s2 = 1) /\
  (ptrData s3 = Buf.slice 4 (Z.to_nat len) r2 ++ skipn (Z.to_nat len) data /\
   cmd s3 = IDLE /\ uint8Busy s3 = 0 /\ error s3 = NO /\ uint16SpiLen s3 = 0 /\
   uint8Stg s3 = SFCB_STG_00 /\ ptrCbs s3 = ptrCbs self).
Proof.
  intros Hb Hl H0 Hfit H16 Hr1.
  destruct self as [ft fp nc sl bz c st er cbs spi ic ie ip pd dl].
  cbn [uint8Busy uint16SpiLen] in Hb, Hl. subst bz sl.
  unfold sfcb_flash_read. rec_cbn. change (0 =? 0) with true. rec_cbn.
  unfold run. cbn [fold_left exec].
  unfold flash in Hr1. cbn [uint8FlashType] in Hr1.
  set (fl := nth (Z.to_nat ft) SPI_FLASH_CB_TYPES type_zero) in *.
  worker_at_record ltac:(fun T B x =>
    rewrite (worker_poll x) by (rec_cbn; auto)).
  unfold req_status, flash. rec_cbn. fold fl.
  worker_at_record ltac:(fun T B x =>
    rewrite (worker_raw_read x)
      by (try reflexivity; unfold wip_pending, flash; rec_cbn; fold fl;
          rewrite Hr1; reflexivity)).
  unfold raw_stg01, put_addr, flash. rec_cbn. fold fl.
  replace (SFCB_SPI_BUF <? len + 4) with false
    by (symmetry; apply Z.ltb_ge; lia).
  rec_cbn.
  assert (Hw : wrap16 (len + 4) = len + 4)
    by (unfold wrap16; apply Z.mod_small; lia).
  rewrite Hw.
  worker_at_record ltac:(fun T B x =>
    rewrite (worker_raw_copy x) by reflexivity).
  unfold raw_stg02, go_idle. rec_cbn.
  split; [reflexivity|]. split.
  - split; [reflexivity|]. split; [reflexivity|]. split.
    + unfold Host.addr24, Buf.poke. cbn [Z.eqb Pos.eqb].
      rewrite !land_255, !shiftr_div by lia.
      change (2 ^ 16) with 65536. change (2 ^ 8) with 256.
      change (2 ^ 24) with 16777216. apply bytes24.
    + split; [|reflexivity]. intros i Hi. unfold Buf.poke, Buf.memset.
      replace (i =? 3) with false by (symmetry; apply Z.eqb_neq; lia).
      replace (i =? 2) with false by (symmetry; apply Z.eqb_neq; lia).
      replace (i =? 1) with false by (symmetry; apply Z.eqb_neq; lia).
      replace (i =? 0) with false by (symmetry; apply Z.eqb_neq; lia).
      replace (0 <=? i) with true by (symmetry; apply Z.leb_le; lia).
      replace (i <? len + 4) with true by (symmetry; apply Z.ltb_lt; lia).
      reflexivity.
  - repeat split; reflexivity.
Qed.

End RawJob.

(** ** The append job *)

Lemma memcpy_in off src n p j :
  off <= j < off + n ->
  Buf.memcpy off src n p j = nth (Z.to_nat (j - off)) src 0.
Proof.
  intros H. unfold Buf.memcpy.
  replace (off <=? j) with true by (symmetry; apply Z.leb_le; lia).
  replace (j <? off + n) with true by (symmetry; apply Z.ltb_lt; lia).
  reflexivity.
Qed.

Lemma memcpy_out off src n p j :
  j < off \/ off + n <= j -> Buf.memcpy off src n p j = p j.
Proof.
  intros H. unfold Buf.memcpy.
  destruct (off <=? j) eqn:E1; [|reflexivity].
  destruct (j <? off + n) eqn:E2; [|reflexivity].
  apply Z.leb_le in E1. apply Z.ltb_lt in E2. lia.
Qed.

Lemma poke_other i v p j : j <> i -> Buf.poke i v p j = p j.
Proof. intros H. unfold Buf.poke. apply Z.eqb_neq in H. now rewrite H. Qed.

Lemma poke_same i v p : Buf.poke i v p i = v.
Proof. unfold Buf.poke. now rewrite Z.eqb_refl. Qed.

Lemma get32_bytes32 off v p rest n :
  0 <= v < 2 ^ 32 -> 4 <= n ->
  Buf.get32 off (Buf.memcpy off (Buf.bytes32 v ++ rest) n p) = v.
Proof.
  intros Hv Hn. unfold Buf.get32.
  rewrite !memcpy_in by lia.
  replace (off - off) with 0 by ring.
  replace (off + 1 - off) with 1 by ring.
  replace (off + 2 - off) with 2 by ring.
  replace (off + 3 - off) with 3 by ring.
  cbn [Z.to_nat Pos.to_nat Pos.iter_op Nat.add Buf.bytes32 app nth].
  rewrite !land_255, !shiftr_div by lia.
  now apply bytes32_get32.
Qed.

Section AddJob.

Variable SPI_FLASH_CB_TYPES : list spi_flash_cb_type.
Variable SFCB_SPI_BUF : Z.

Lemma nth_skipn_Z (l : list Z) (m k : Z) :
  0 <= m -> 0 <= k ->
  nth (Z.to_nat k) (skipn (Z.to_nat m) l) 0 = nth (Z.to_nat (m + k)) l 0.
Proof.
  intros Hm Hk. rewrite nth_skipn. f_equal. lia.
Qed.

Lemma add_stg02_step (self : spi_flash_cb) :
  0 <= uint16IterElem self <= uint16DataLen self ->
  uint16DataLen self < 2 ^ 16 ->
  8 < uint32FlashTopoPageSizeByte (flash SPI_FLASH_CB_TYPES self) < 2 ^ 16 - 4 ->
  let ps := uint32FlashTopoPageSizeByte (flash SPI_FLASH_CB_TYPES self) in
  let first := uint16IterElem self =? 0 in
  let room := if first then ps - sizeof_head else ps in
  let off := if first then 4 + sizeof_head else 4 in
  let n := Z.min (uint16DataLen self - uint16IterElem self) room in
  let self' := add_stg02 SPI_FLASH_CB_TYPES self in
  (uint16IterElem self' = uint16IterElem self + n /\
   uint16SpiLen self' = off + n /\
   0 <= n /\ (uint16IterElem self < uint16DataLen self -> 0 < n) /\
   uint16IterElem self' <= uint16DataLen self /\
   uint16SpiLen self' <= ps + 4) /\
  (uint8Spi self' 0 = uint8FlashIstWrPage (flash SPI_FLASH_CB_TYPES self) /\
   Host.addr24 (uint8Spi self') = uint32IterPage self mod 2 ^ 24) /\
  (forall k, 0 <= k < n ->
     uint8Spi self' (off + k)
     = nth (Z.to_nat (uint16IterElem self + k)) (ptrData self) 0) /\
  (uint32IterPage self' = wrap32 (uint32IterPage self + 1) /\
   uint8Stg self' = SFCB_STG_00 /\ cmd self' = cmd self /\
   uint8Busy self' = uint8Busy self /\ ptrCbs self' = ptrCbs self /\
   ptrData self' = ptrData self /\ uint16DataLen self' = uint16DataLen self /\
   uint8IterCb self' = uint8IterCb self).
Proof.
  intros Hie Hdl Hps.
  destruct self as [ft fp nc sl bz c st er cbs spi ic ie ip pd dl].
  cbn [uint16IterElem uint16DataLen ptrData uint32IterPage] in *.
  unfold flash in *. cbn [uint8FlashType] in *.
  set (fl := nth (Z.to_nat ft) SPI_FLASH_CB_TYPES type_zero) in *.
  set (ps := uint32FlashTopoPageSizeByte fl) in *.
  cbv zeta.
  unfold add_stg02, put_addr, flash. rec_cbn. fold fl. fold ps.
  unfold sizeof_head in *. change (2 ^ 16) with 65536 in *.
  assert (W16 : forall x, 0 <= x < 65536 -> wrap16 x = x)
    by (intros; unfold wrap16; apply Z.mod_small; pow2; lia).
  assert (Haddr : forall p0,
            Host.addr24 (Buf.poke 3 (Z.land ip 255)
                           (Buf.poke 2 (Z.land (Z.shiftr ip 8) 255)
                              (Buf.poke 1 (Z.land (Z.shiftr ip 16) 255) p0)))
            = ip mod 2 ^ 24).
  { intros p0. unfold Host.addr24, Buf.poke. cbn [Z.eqb Pos.eqb].
    rewrite !land_255, !shiftr_div by lia.
    change (2 ^ 16) with 65536. change (2 ^ 8) with 256.
    change (2 ^ 24) with 16777216. apply bytes24. }
  destruct (ie =? 0) eqn:E; cbv iota; rec_cbn.
  - apply Z.eqb_eq in E. subst ie.
    rewrite (W16 ps), (W16 (4 + 8)), (W16 (ps - 8)) by lia.
    replace (dl - 0) with dl by ring.
    rewrite (W16 dl) by lia.
    assert (Hn : (if dl >? ps - 8 then ps - 8 else dl) = Z.min dl (ps - 8)).
    { destruct (dl >? ps - 8) eqn:G.
      - apply Z.gtb_lt in G. lia.
      - rewrite Z.gtb_ltb in G. apply Z.ltb_ge in G. lia. }
    rewrite Hn. set (n := Z.min dl (ps - 8)).
    assert (Hn0 : 0 <= n <= ps - 8) by (unfold n; lia).
    rewrite !W16 by lia.
    split; [repeat split; unfold n; lia|].
    split.
    { split.
      - rewrite !memcpy_out by lia. rewrite !poke_other by lia. apply poke_same.
      - unfold Host.addr24. rewrite !memcpy_out by lia. apply Haddr. }
    split.
    { intros k Hk. rewrite memcpy_in by lia.
      replace (4 + 8 + k - (4 + 8)) with k by ring.
      change (Z.to_nat 0) with 0%nat. cbn [skipn]. reflexivity. }
    repeat split.
  - apply Z.eqb_neq in E.
    rewrite (W16 ps) by lia.
    rewrite (W16 (dl - ie)) by lia.
    assert (Hn : (if dl - ie >? ps then ps else dl - ie) = Z.min (dl - ie) ps).
    { destruct (dl - ie >? ps) eqn:G.
      - apply Z.gtb_lt in G. lia.
      - rewrite Z.gtb_ltb in G. apply Z.ltb_ge in G. lia. }
    rewrite Hn. set (n := Z.min (dl - ie) ps).
    assert (Hn0 : 0 <= n <= ps) by (unfold n; lia).
    rewrite !W16 by (unfold n; lia).
    split; [repeat split; unfold n; lia|].
    split.
    { split.
      - rewrite !memcpy_out by lia. rewrite !poke_other by lia. apply poke_same.
      - unfold Host.addr24. rewrite !memcpy_out by lia. apply Haddr. }
    split.
    { intros k Hk. rewrite memcpy_in by lia.
      replace (4 + k - 4) with k by ring.
      apply nth_skipn_Z; lia. }
    repeat split.
Qed.

(** X11: one page program of an append.  With [iterElem] bytes of the
    [dataLen] written so far, stage 2 builds a page-program packet at
    the address [uint32IterPage] that carries the next
    [n = min(dataLen - iterElem, room)] bytes of the application data,
    where [room] is the page size, less the eight header bytes on the
    first fragment; the data start at offset 12 on the first fragment and
    at offset 4 afterwards.  The packet is no longer than the page size
    plus 4, the worker never reads beyond the application data, a
    fragment of a record that is not yet complete carries at least one
    byte, and [uint32IterPage] goes up by one.  The table, the command
    and the busy flag are not touched. *)
Theorem add_fragment (self : spi_flash_cb) :
  0 <= uint16IterElem self <= uint16DataLen self ->
  uint16DataLen self < 2 ^ 16 ->
  8 < uint32FlashTopoPageSizeByte (flash SPI_FLASH_CB_TYPES self) < 2 ^ 16 - 4 ->
  let ps := uint32FlashTopoPageSizeByte (flash SPI_FLASH_CB_TYPES self) in
  let first := uint16IterElem self =? 0 in
  let room := if first then ps - sizeof_head else ps in
  let off := if first then 4 + sizeof_head else 4 in
  let n := Z.min (uint16DataLen self - uint16IterElem self) room in
  let self' := add_stg02 SPI_FLASH_CB_TYPES self in
  (uint16IterElem self' = uint16IterElem self + n /\
   uint16SpiLen self' = off + n /\
   0 <= n /\ (uint16IterElem self < uint16DataLen self -> 0 < n) /\
   uint16IterElem self' <= uint16DataLen self /\
   uint16SpiLen self' <= ps + 4) /\
  (uint8Spi self' 0 = uint8FlashIstWrPage (flash SPI_FLASH_CB_TYPES self) /\
   Host.addr24 (uint8Spi self') = uint32IterPage self mod 2 ^ 24) /\
  (forall k, 0 <= k < n ->
     uint8Spi self' (off + k)
     = nth (Z.to_nat (uint16IterElem self + k)) (ptrData self) 0) /\
  (uint32IterPage self' = wrap32 (uint32IterPage self + 1) /\
   uint8Stg self' = SFCB_STG_00 /\ cmd self' = cmd self /\
   uint8Busy self' = uint8Busy self /\ ptrCbs self' = ptrCbs self /\
   ptrData self' = ptrData self /\ uint16DataLen self' = uint16DataLen self /\
   uint8IterCb self' = uint8IterCb self).
Proof. exact (add_stg02_step self). Qed.

Lemma add_stg02_header (self : spi_flash_cb) :
  uint16IterElem self = 0 ->
  0 <= uint32MagicNum (cb self (uint8IterCb self)) < 2 ^ 32 ->
  let self' := add_stg02 SPI_FLASH_CB_TYPES self in
  head_MagicNum self' = uint32MagicNum (cb self (uint8IterCb self)) /\
  head_IdNum self'
  = wrap32 (uint32IdNumMax (cb self (uint8IterCb self)) + 1).
Proof.
  intros Hie Hm.
  destruct self as [ft fp nc sl bz c st er cbs spi ic ie ip pd dl].
  cbn [uint16IterElem uint8IterCb] in *. subst ie.
  cbv zeta. unfold head_MagicNum, head_IdNum.
  unfold add_stg02, put_addr, flash. rec_cbn.
  change (0 =? 0) with true. cbv iota. rec_cbn.
  unfold cb in *. cbn [ptrCbs] in Hm. rec_cbn.
  change (wrap16 (4 + sizeof_head)) with 12. unfold sizeof_head.
  set (e := nth (Z.to_nat ic) cbs elem_zero) in *.
  assert (Hid : 0 <= wrap32 (uint32IdNumMax e + 1) < 2 ^ 32)
    by (unfold wrap32; apply Z.mod_pos_bound; pow2; lia).
  unfold Buf.get32.
  rewrite !(memcpy_out 12) by lia.
  rewrite !(memcpy_in 4) by lia.
  change (Z.to_nat (4 - 4)) with 0%nat.
  change (Z.to_nat (4 + 1 - 4)) with 1%nat.
  change (Z.to_nat (4 + 2 - 4)) with 2%nat.
  change (Z.to_nat (4 + 3 - 4)) with 3%nat.
  change (Z.to_nat (8 - 4)) with 4%nat.
  change (Z.to_nat (8 + 1 - 4)) with 5%nat.
  change (Z.to_nat (8 + 2 - 4)) with 6%nat.
  change (Z.to_nat (8 + 3 - 4)) with 7%nat.
  cbn [Buf.bytes32 app nth].
  rewrite !land_255, !shiftr_div by lia.
  split; now apply bytes32_get32.
Qed.

(** X12: the first page program of an append carries, behind the
    instruction and the address, the header of the record: the magic
    number of the queue and the id [uint32IdNumMax + 1] (modulo [2^32]),
    in the byte order in which the scan of the mount reads them back. *)
Theorem add_first_fragment_header (self : spi_flash_cb) :
  uint16IterElem self = 0 ->
  0 <= uint32MagicNum (cb self (uint8IterCb self)) < 2 ^ 32 ->
  let self' := add_stg02 SPI_FLASH_CB_TYPES self in
  head_MagicNum self' = uint32MagicNum (cb self (uint8IterCb self)) /\
  head_IdNum self'
  = wrap32 (uint32IdNumMax (cb self (uint8IterCb self)) + 1).
Proof. exact (add_stg02_header self). Qed.

End AddJob.

(** ** The append job runs to its end *)

Section AppendRuns.

Variable SPI_FLASH_CB_TYPES : list spi_flash_cb_type.
Variable SFCB_SPI_BUF : Z.

Lemma worker_idle self :
  cmd self = IDLE -> sfcb_worker SPI_FLASH_CB_TYPES SFCB_SPI_BUF self = self.
Proof. intros H. unfold sfcb_worker. now rewrite H. Qed.

Lemma worker_add_next self :
  cmd self = ADD -> uint8Stg self = SFCB_STG_00 ->
  wip_pending SPI_FLASH_CB_TYPES self = false ->
  sfcb_worker SPI_FLASH_CB_TYPES SFCB_SPI_BUF self
  = add_stg01 SPI_FLASH_CB_TYPES (set_uint8Stg SFCB_STG_01 self).
Proof. intros Hc Hs Hp. unfold sfcb_worker. rewrite Hc, Hs, Hp. reflexivity. Qed.

Lemma worker_add_page self :
  cmd self = ADD -> uint8Stg self = SFCB_STG_02 ->
  sfcb_worker SPI_FLASH_CB_TYPES SFCB_SPI_BUF self
  = add_stg02 SPI_FLASH_CB_TYPES self.
Proof. intros Hc Hs. unfold sfcb_worker. rewrite Hc, Hs. reflexivity. Qed.

Lemma rounds_cons r rs s :
  run SPI_FLASH_CB_TYPES SFCB_SPI_BUF (rounds (r :: rs)) s
  = run SPI_FLASH_CB_TYPES SFCB_SPI_BUF (rounds rs)
      (set_uint8Spi r (sfcb_worker SPI_FLASH_CB_TYPES SFCB_SPI_BUF s)).
Proof. reflexivity. Qed.

Lemma add_done_rounds dl cbs rs s :
  add_done dl cbs s ->
  add_done dl cbs (run SPI_FLASH_CB_TYPES SFCB_SPI_BUF (rounds rs) s).
Proof.
  revert s. induction rs as [|r rs IH]; intros s D; [exact D|].
  rewrite rounds_cons. apply IH.
  rewrite worker_idle by apply D.
  destruct s. exact D.
Qed.

Lemma add_round_done ft dl cbs s r :
  add_waits ft dl cbs s ->
  ready (nth (Z.to_nat ft) SPI_FLASH_CB_TYPES type_zero) (uint8Spi s) ->
  uint16IterElem s = dl ->
  add_done dl cbs
    (set_uint8Spi r (sfcb_worker SPI_FLASH_CB_TYPES SFCB_SPI_BUF s)).
Proof.
  intros W R E.
  destruct s as [ft' fp nc sl bz c st er cbs' spi ic ie ip pd dl'].
  unfold add_waits, ready in *. rec_cbn.
  cbn [cmd uint8Stg uint8Busy error uint16SpiLen uint8FlashType uint16DataLen
       ptrCbs uint16IterElem uint8Spi] in *.
  destruct W as (-> & -> & -> & -> & Hl & -> & -> & -> & Hie). subst ie.
  rewrite worker_add_next; try reflexivity.
  - unfold add_stg01, go_idle. rec_cbn. rewrite Z.ltb_irrefl. rec_cbn.
    repeat split.
  - unfold wip_pending, flash. rec_cbn. rewrite R.
    apply Z.eqb_neq in Hl. rewrite Hl. reflexivity.
Qed.

Lemma set_uint8Spi_proj r s :
  let s' := set_uint8Spi r s in
  cmd s' = cmd s /\ uint8Stg s' = uint8Stg s /\ uint8Busy s' = uint8Busy s /\
  error s' = error s /\ uint16SpiLen s' = uint16SpiLen s /\
  uint8FlashType s' = uint8FlashType s /\ uint16DataLen s' = uint16DataLen s /\
  ptrCbs s' = ptrCbs s /\ uint16IterElem s' = uint16IterElem s /\
  uint8Spi s' = r.
Proof. destruct s. repeat split. Qed.

Lemma add_stg02_keeps s :
  uint8FlashType (add_stg02 SPI_FLASH_CB_TYPES s) = uint8FlashType s /\
  error (add_stg02 SPI_FLASH_CB_TYPES s) = error s.
Proof.
  destruct s as [ft fp nc sl bz c st er cbs spi ic ie ip pd dl].
  unfold add_stg02, put_addr, flash. rec_cbn.
  destruct (ie =? 0); cbv iota; rec_cbn; split; reflexivity.
Qed.

Lemma add_round_page ft dl cbs s r1 r2 :
  let fl := nth (Z.to_nat ft) SPI_FLASH_CB_TYPES type_zero in
  dl < 2 ^ 16 -> 8 < uint32FlashTopoPageSizeByte fl < 2 ^ 16 - 4 ->
  add_waits ft dl cbs s -> ready fl (uint8Spi s) ->
  uint16IterElem s < dl ->
  let s' := set_uint8Spi r2 (sfcb_worker SPI_FLASH_CB_TYPES SFCB_SPI_BUF
              (set_uint8Spi r1 (sfcb_worker SPI_FLASH_CB_TYPES SFCB_SPI_BUF s))) in
  add_waits ft dl cbs s' /\ uint8Spi s' = r2 /\
  uint16IterElem s < uint16IterElem s'.
Proof.
  intros fl Hdl Hps W R E.
  destruct s as [ft' fp nc sl bz c st er cbs' spi ic ie ip pd dl'].
  unfold add_waits, ready in *.
  cbn [cmd uint8Stg uint8Busy error uint16SpiLen uint8FlashType uint16DataLen
       ptrCbs uint16IterElem uint8Spi] in *.
  destruct W as (-> & -> & -> & -> & Hl & -> & -> & -> & Hie).
  cbv zeta.
  worker_at_record ltac:(fun T B x =>
    rewrite (worker_add_next x)
      by (try reflexivity; unfold wip_pending, flash; rec_cbn; fold fl;
          rewrite R; apply Z.eqb_neq in Hl; rewrite Hl; reflexivity)).
  unfold add_stg01, flash. rec_cbn. fold fl.
  replace (ie <? dl) with true by (symmetry; apply Z.ltb_lt; lia).
  rec_cbn.
  worker_at_record ltac:(fun T B x =>
    rewrite (worker_add_page x) by reflexivity;
    pose proof (add_stg02_step SPI_FLASH_CB_TYPES x) as F;
    pose proof (add_stg02_keeps x) as K;
    set (y := add_stg02 SPI_FLASH_CB_TYPES x) in * ).
  unfold flash in F. cbv zeta in F.
  cbn [cmd uint8Stg uint8Busy error uint16SpiLen uint8FlashType uint16DataLen
       ptrCbs uint16IterElem uint8Spi uint32IterPage ptrData uint8IterCb] in F, K.
  fold fl in F.
  destruct F as ((F1 & F2 & F3 & F4 & F5 & F6) & _ & _ &
                 (_ & G2 & G3 & G4 & G5 & _ & G7 & _)); [lia|lia|lia|].
  destruct K as [K1 K2].
  destruct (set_uint8Spi_proj r2 y)
    as (P1 & P2 & P3 & P4 & P5 & P6 & P7 & P8 & P9 & P10).
  rewrite P1, P2, P3, P4, P5, P6, P7, P8, P9, P10.
  rewrite G2, G3, G4, G5, G7, K1, K2, F1, F2.
  specialize (F4 E).
  assert (0 < if ie =? 0 then 4 + sizeof_head else 4)
    by (unfold sizeof_head; destruct (ie =? 0); lia).
  repeat split; lia.
Qed.

Lemma add_loop (ft dl : Z) (cbs : list spi_flash_cb_elem) :
  let fl := nth (Z.to_nat ft) SPI_FLASH_CB_TYPES type_zero in
  dl < 2 ^ 16 -> 8 < uint32FlashTopoPageSizeByte fl < 2 ^ 16 - 4 ->
  forall (m : nat) (s : spi_flash_cb) (rs : list Buf.t),
  add_waits ft dl cbs s -> ready fl (uint8Spi s) ->
  dl - uint16IterElem s <= Z.of_nat m ->
  Forall (ready fl) rs ->
  (2 * m + 1 <= length rs)%nat ->
  add_done dl cbs (run SPI_FLASH_CB_TYPES SFCB_SPI_BUF (rounds rs) s).
Proof.
  intros fl Hdl Hps m.
  induction m as [|m IH]; intros s rs W R Hm Hrs Hlen.
  - destruct rs as [|r rs]; [cbn in Hlen; lia|].
    rewrite rounds_cons. apply add_done_rounds.
    apply (add_round_done ft); auto.
    unfold add_waits in W. lia.
  - destruct rs as [|r1 rs]; [cbn in Hlen; lia|].
    destruct (Z.eq_dec (uint16IterElem s) dl) as [Ed|Ed].
    + rewrite rounds_cons. apply add_done_rounds.
      apply (add_round_done ft); auto.
    + destruct rs as [|r2 rs]; [cbn in Hlen; lia|].
      rewrite !rounds_cons.
      inversion Hrs as [|? ? Hr1 Hrs1]; subst.
      inversion Hrs1 as [|? ? Hr2 Hrs2]; subst.
      assert (E : uint16IterElem s < dl) by (unfold add_waits in W; lia).
      destruct (add_round_page ft dl cbs s r1 r2 Hdl Hps W R E) as (W' & S' & I').
      apply IH; auto.
      * unfold ready. rewrite S'. exact Hr2.
      * lia.
      * cbn [length] in Hlen. lia.
Qed.

(** X13: an accepted append runs to its end.  With the packet length
    0 at the call (as [sfcb_init] and every completed job leave it) and a
    flash that shows no write in progress in any response, the loop of
    worker call and transfer ends the job within [2 * len + 2] rounds:
    the driver is idle and not busy, no error is set, all [len] bytes
    have been handed to page programs, the packet length is 0 again and
    the table is the one [sfcb_add] left.  Further rounds change none of
    this. *)
Theorem append_terminates (self s1 : spi_flash_cb) (cbID : Z) (data : list Z)
    (len : Z) (rs : list Buf.t) :
  let fl := flash SPI_FLASH_CB_TYPES self in
  sfcb_add SPI_FLASH_CB_TYPES self cbID data len = (0, s1) ->
  uint16SpiLen self = 0 ->
  0 <= len < 2 ^ 16 ->
  8 < uint32FlashTopoPageSizeByte fl < 2 ^ 16 - 4 ->
  Forall (ready fl) rs ->
  2 * len + 2 <= Z.of_nat (length rs) ->
  let s := run SPI_FLASH_CB_TYPES SFCB_SPI_BUF (rounds rs) s1 in
  cmd s = IDLE /\ uint8Busy s = 0 /\ error s = NO /\ uint16SpiLen s = 0 /\
  uint16IterElem s = len /\ ptrCbs s = ptrCbs s1.
Proof.
  intros fl Ha Hl Hlen Hps Hrs Hn s. subst s.
  change (add_done len (ptrCbs s1)
            (run SPI_FLASH_CB_TYPES SFCB_SPI_BUF (rounds rs) s1)).
  destruct rs as [|r rs]; [cbn [length] in Hn; lia|].
  rewrite rounds_cons.
  inversion Hrs as [|? ? Hr Hrs']; subst.
  unfold sfcb_add in Ha.
  destruct (negb (uint8Busy self =? 0)); [discriminate|].
  destruct (_ || _)%bool; [discriminate|].
  destruct (len >? _); [discriminate|].
  cbv zeta in Ha. injection Ha as <-.
  destruct self as [ft fp nc sl bz c st er cbs spi ic ie ip pd dl].
  cbn [uint16SpiLen] in Hl. subst sl.
  unfold fl, flash in *. cbn [uint8FlashType] in *. clear fl.
  unfold upd_cb. rec_cbn.
  rewrite worker_poll by (rec_cbn; auto).
  unfold req_status, flash, upd_cb. rec_cbn.
  apply (add_loop ft len _ ltac:(lia) Hps (Z.to_nat len)).
  - unfold add_waits. rec_cbn. repeat split; lia.
  - exact Hr.
  - rec_cbn. lia.
  - exact Hrs'.
  - cbn [length] in Hn. lia.
Qed.

End AppendRuns.

(** ** An append of no data *)

Section AppendEmpty.

Variable SPI_FLASH_CB_TYPES : list spi_flash_cb_type.
Variable SFCB_SPI_BUF : Z.

(** X14: an append of zero bytes to a mounted queue is accepted.  The
    job sends the status poll and, once the flash shows no write in
    progress, ends without a write-enable or a page program; the queue
    has lost its [uint8Init] flag all the same, so the next append needs
    a mount although nothing was written. *)
Theorem append_empty (self : spi_flash_cb) (cbID : Z) (data : list Z)
    (r : Buf.t) :
  uint8Busy self = 0 -> uint16SpiLen self = 0 ->
  uint8Used (cb self cbID) <> 0 -> uint8Init (cb self cbID) <> 0 ->
  ready (flash SPI_FLASH_CB_TYPES self) r ->
  let s1 := snd (sfcb_add SPI_FLASH_CB_TYPES self cbID data 0) in
  let s2 := sfcb_worker SPI_FLASH_CB_TYPES SFCB_SPI_BUF s1 in
  let s3 := sfcb_worker SPI_FLASH_CB_TYPES SFCB_SPI_BUF (set_uint8Spi r s2) in
  fst (sfcb_add SPI_FLASH_CB_TYPES self cbID data 0) = 0 /\
  (uint16SpiLen s2 = 2 /\
   uint8Spi s2 0 = uint8FlashIstRdStateReg (flash SPI_FLASH_CB_TYPES self) /\
   uint8Busy s2 = 1) /\
  (cmd s3 = IDLE /\ uint8Busy s3 = 0 /\ uint16SpiLen s3 = 0 /\ error s3 = NO) /\
  uint8Init (cb s3 cbID) = 0 /\
  fst (sfcb_add SPI_FLASH_CB_TYPES s3 cbID data 0) = 2.
Proof.
  intros Hb Hl Hu Hi Hr.
  pose proof (cb_used_in_table self cbID Hu) as Hin.
  destruct self as [ft fp nc sl bz c st er cbs spi ic ie ip pd dl].
  cbn [uint8Busy uint16SpiLen ptrCbs] in Hb, Hl, Hin. subst bz sl.
  unfold ready, flash in Hr. cbn [uint8FlashType] in Hr.
  apply Z.eqb_neq in Hu, Hi.
  unfold sfcb_add at 1 2. rec_cbn. change (0 =? 0) with true.
  rewrite Hu, Hi. rec_cbn.
  replace (0 >? _) with false.
  2:{ symmetry. rewrite Z.gtb_ltb. apply Z.ltb_ge. unfold wrap32.
      apply Z.mod_pos_bound. pow2. lia. }
  unfold upd_cb. rec_cbn.
  unfold cb in Hu, Hi. cbn [ptrCbs] in Hu, Hi.
  cbv zeta.
  worker_at_record ltac:(fun T B x =>
    rewrite (worker_poll T B x) by (rec_cbn; auto)).
  unfold req_status, flash. rec_cbn.
  worker_at_record ltac:(fun T B x =>
    rewrite (worker_add_next T B x)
      by (try reflexivity; unfold wip_pending, flash; rec_cbn;
          rewrite Hr; reflexivity)).
  unfold add_stg01, go_idle. rec_cbn. change (0 <? 0) with false.
  cbv iota. rec_cbn.
  assert (Hz : uint8Init (nth (Z.to_nat cbID)
                 (list_upd (Z.to_nat cbID) (set_uint8Init 0) cbs) elem_zero) = 0).
  { rewrite nth_list_upd, Nat.eqb_refl.
    apply Nat.ltb_lt in Hin. rewrite Hin.
    destruct (nth (Z.to_nat cbID) cbs elem_zero); reflexivity. }
  split; [reflexivity|]. split; [repeat split|]. split; [repeat split|].
  split.
  - unfold cb. rec_cbn. exact Hz.
  - unfold sfcb_add. rec_cbn. unfold cb. rec_cbn. rewrite Hz.
    rewrite Bool.orb_true_r. reflexivity.
Qed.

End AppendEmpty.

(** ** Registration takes the first free slot *)

Section FirstFree.

Variable SPI_FLASH_CB_TYPES : list spi_flash_cb_type.

(** X15: [sfcb_new_cb] returns 0 or 1.  It fails with code 1 exactly
    when every slot of the table is used, and returns 0 exactly when a
    slot is unused.  Then it takes the lowest unused slot [k]: [*cbID] is
    [k], the slot is marked used with the magic number given, no
    entries, [uint32IdNumMax = 0] and [uint32IdNumMin = 2^32 - 1]; its
    [uint8Init] flag is left as it was, and every other slot is left as
    it was. *)
Theorem new_cb_first_free (self : spi_flash_cb)
    (magicNum elemSizeByte numElems cbID : Z) :
  0 <= uint8NumCbs self <= Z.of_nat (length (ptrCbs self)) ->
  let r := sfcb_new_cb SPI_FLASH_CB_TYPES self magicNum elemSizeByte numElems cbID in
  let self' := snd (fst r) in
  let k := snd r in
  (fst (fst r) = 0 \/ fst (fst r) = 1) /\
  (fst (fst r) = 1 <->
   forall i, 0 <= i < uint8NumCbs self -> uint8Used (cb self i) <> 0) /\
  (fst (fst r) = 0 <->
   exists i, 0 <= i < uint8NumCbs self /\ uint8Used (cb self i) = 0) /\
  (fst (fst r) = 0 ->
   0 <= k < uint8NumCbs self /\ uint8Used (cb self k) = 0 /\
   (forall i, 0 <= i < k -> uint8Used (cb self i) <> 0) /\
   (uint8Used (cb self' k) = 1 /\ uint32MagicNum (cb self' k) = magicNum /\
    uint16NumEntries (cb self' k) = 0 /\ uint32IdNumMax (cb self' k) = 0 /\
    uint32IdNumMin (cb self' k) = 2 ^ 32 - 1 /\
    uint8Init (cb self' k) = uint8Init (cb self k)) /\
   (forall j, 0 <= j -> j <> k -> cb self' j = cb self j)).
Proof.
  intros Hn r self' k.
  assert (Hcode : fst (fst r) = 0 \/ fst (fst r) = 1)
    by apply (new_cb_job SPI_FLASH_CB_TYPES self magicNum elemSizeByte numElems cbID).
  assert (Hfull : fst (fst r) = 1 <->
            forall i, 0 <= i < uint8NumCbs self -> uint8Used (cb self i) <> 0).
  { unfold r. rewrite new_cb_code. apply new_cb_scan_full. lia. }
  assert (Hslot : fst (fst r) = 0 ->
            0 <= k < uint8NumCbs self /\ uint8Used (cb self k) = 0 /\
            (forall i, 0 <= i < k -> uint8Used (cb self i) <> 0) /\
            (uint8Used (cb self' k) = 1 /\ uint32MagicNum (cb self' k) = magicNum /\
             uint16NumEntries (cb self' k) = 0 /\ uint32IdNumMax (cb self' k) = 0 /\
             uint32IdNumMin (cb self' k) = 2 ^ 32 - 1 /\
             uint8Init (cb self' k) = uint8Init (cb self k)) /\
            (forall j, 0 <= j -> j <> k -> cb self' j = cb self j)).
  { intros H0.
    assert (E : r = (0, self', k)).
    { unfold self', k. destruct r as [[c s] k0]. cbn [fst snd] in *.
      now subst c. }
    destruct (new_cb_ok SPI_FLASH_CB_TYPES self magicNum elemSizeByte numElems
                cbID self' k Hn E) as (Hk & Hr & Hcb & Ho & _).
    split; [exact Hr|].
    split.
    { rewrite Hk. apply new_cb_scan_free. rewrite <- Hk. lia. }
    split.
    { intros i Hi.
      apply (new_cb_scan_used self (Z.to_nat (uint8NumCbs self)) 0 0).
      rewrite <- Hk. lia. }
    split.
    { rewrite Hcb. cbn. repeat split; reflexivity. }
    intros j Hj Hjk. apply Ho. lia. }
  split; [exact Hcode|]. split; [exact Hfull|]. split; [|exact Hslot].
  split.
  - intros H0. exists k. destruct (Hslot H0) as (Hk & Hu & _). auto.
  - intros (i & Hi & Hu). destruct Hcode as [Hc|Hc]; [exact Hc|].
    exfalso. apply (proj1 Hfull Hc i Hi). exact Hu.
Qed.

End FirstFree.

(** ** The read request of the scan *)

Section ScanRequest.

Variable SPI_FLASH_CB_TYPES : list spi_flash_cb_type.
Variable SFCB_SPI_BUF : Z.

Lemma worker_mkcb_scan self :
  cmd self = MKCB -> uint8Stg self = SFCB_STG_01 ->
  sfcb_worker SPI_FLASH_CB_TYPES SFCB_SPI_BUF self
  = mkcb_stg01 SPI_FLASH_CB_TYPES self.
Proof. intros Hc Hs. unfold sfcb_worker. rewrite Hc, Hs. reflexivity. Qed.

Lemma worker_mkcb_begin self :
  cmd self = MKCB -> uint8Stg self = SFCB_STG_00 ->
  wip_pending SPI_FLASH_CB_TYPES self = false ->
  sfcb_worker SPI_FLASH_CB_TYPES SFCB_SPI_BUF self
  = mkcb_stg01 SPI_FLASH_CB_TYPES
      (set_uint8Stg SFCB_STG_01 (set_uint16SpiLen 0 self)).
Proof. intros Hc Hs Hp. unfold sfcb_worker. rewrite Hc, Hs, Hp. reflexivity. Qed.

(** behind the table, the check of the response leaves the handle alone *)
Lemma mkcb_response_handle s :
  mkcb_response s = set_ptrCbs (ptrCbs (mkcb_response s)) s.
Proof.
  destruct s as [ft fp nc sl bz c st er cbs spi ic ie ip pd dl].
  unfold mkcb_response, upd_cb. rec_cbn.
  repeat match goal with
         | |- context [if ?c then _ else _] =>
             lazymatch c with
             | context [if _ then _ else _] => fail
             | _ => destruct c
             end; rec_cbn
         end; reflexivity.
Qed.

(** X16: the read request of the scan.  In stage 1 of a mount, while
    the element counter is below [uint16NumEntriesMax] of the queue under
    scan, the worker asks for the header of element [uint16IterElem]: a
    read-data packet of 12 bytes at the byte address
    [uint32StartSector * sector size + uint16NumPagesPerElem * page size
    * uint16IterElem] (modulo [2^32], of which the packet carries the low
    24 bits), with the eight bytes behind the address cleared.  The
    element counter goes up by one; the job stays in stage 1 on the same
    queue. *)
Theorem mount_scan_request (self : spi_flash_cb) :
  let q := uint8IterCb self in
  let e := cb self q in
  let fl := flash SPI_FLASH_CB_TYPES self in
  let adr := wrap32 (uint32StartSector e * uint32FlashTopoSectorSizeByte fl
                     + uint16NumPagesPerElem e * uint32FlashTopoPageSizeByte fl
                       * uint16IterElem self) in
  cmd self = MKCB -> uint8Stg self = SFCB_STG_01 ->
  0 <= uint16IterElem self < uint16NumEntriesMax e ->
  uint16IterElem self < 2 ^ 16 - 1 ->
  let self' := sfcb_worker SPI_FLASH_CB_TYPES SFCB_SPI_BUF self in
  (uint16SpiLen self' = 12 /\ uint8Spi self' 0 = uint8FlashIstRdData fl /\
   Host.addr24 (uint8Spi self') = adr mod 2 ^ 24 /\
   (forall i, 4 <= i < 12 -> uint8Spi self' i = 0)) /\
  (uint32IterPage self' = adr /\
   uint16IterElem self' = uint16IterElem self + 1 /\
   uint8IterCb self' = q /\ cmd self' = MKCB /\ uint8Stg self' = SFCB_STG_01 /\
   uint8Busy self' = uint8Busy self).
Proof.
  intros q e fl adr Hc Hs Hie H16 self'.
  pose proof (scan_ordered_response self self (scan_ordered_refl self)) as [_ Ho].
  specialize (Ho q). destruct Ho as [Hreg _].
  pose proof (mkcb_response_handle self) as Hh.
  subst self' q e fl adr.
  rewrite worker_mkcb_scan by assumption.
  destruct self as [ft fp nc sl bz c st er cbs spi ic ie ip pd dl].
  cbn [uint8IterCb uint16IterElem cmd uint8Stg uint8Busy] in *.
  subst c st. unfold cb in Hreg.
  set (t := ptrCbs (mkcb_response _)) in *.
  cbv delta [mkcb_stg01]. cbv beta. rewrite Hh. clear Hh.
  unfold flash, cb, put_addr in *.
  cbn [ptrCbs uint8FlashType] in Hreg, Hie.
  rec_cbn.
  set (fl := nth (Z.to_nat ft) SPI_FLASH_CB_TYPES type_zero) in *.
  unfold registration in Hreg.
  destruct (nth (Z.to_nat ic) t elem_zero)
    as [u' i' m' p' s1' s2' nm' ne' mn' mx' pm' pw'].
  destruct (nth (Z.to_nat ic) cbs elem_zero) as [u i0 m p s1 s2 nm ne mn mx pm pw].
  cbn [uint8Used uint32MagicNum uint16NumPagesPerElem uint32StartSector
       uint32StopSector uint16NumEntriesMax] in *.
  injection Hreg as -> -> -> -> -> ->.
  replace (ie <? nm) with true by (symmetry; apply Z.ltb_lt; lia).
  rec_cbn.
  set (adr := wrap32 (s1 * uint32FlashTopoSectorSizeByte fl
                      + p * uint32FlashTopoPageSizeByte fl * ie)).
  split.
  - split; [reflexivity|]. split; [reflexivity|]. split.
    + unfold Host.addr24, Buf.poke. cbn [Z.eqb Pos.eqb].
      rewrite !land_255, !shiftr_div by lia.
      change (2 ^ 16) with 65536. change (2 ^ 8) with 256.
      change (2 ^ 24) with 16777216. apply bytes24.
    + intros i Hi. unfold Buf.poke, Buf.memset, sizeof_head.
      replace (i =? 3) with false by (symmetry; apply Z.eqb_neq; lia).
      replace (i =? 2) with false by (symmetry; apply Z.eqb_neq; lia).
      replace (i =? 1) with false by (symmetry; apply Z.eqb_neq; lia).
      replace (i =? 0) with false by (symmetry; apply Z.eqb_neq; lia).
      replace (0 <=? i) with true by (symmetry; apply Z.leb_le; lia).
      replace (i <? 4 + 8) with true by (symmetry; apply Z.ltb_lt; lia).
      reflexivity.
  - split; [reflexivity|]. split.
    + unfold wrap16. apply Z.mod_small. pow2. lia.
    + repeat split.
Qed.

End ScanRequest.

(** ** The layout of the table, at any time *)

Lemma layout_chain self n i start b :
  layout_from self n i start = true -> i <= b < i + Z.of_nat n ->
  uint8Used (cb self b) <> 0 ->
  (forall a, i <= a <= b -> uint8Used (cb self a) <> 0) /\
  uint32StartSector (cb self b)
  = (if b =? i then start else uint32StopSector (cb self (b - 1)) + 1) /\
  uint32StartSector (cb self b) + 1 <= uint32StopSector (cb self b)
  <= uint32StartSector (cb self b) + 65534.
Proof.
  revert i start. induction n as [|n IH]; intros i start H Hb Hu.
  - lia.
  - destruct (uint8Used (cb self i) =? 0) eqn:E.
    + apply layout_from_unused in H; [|exact E].
      destruct (Z.eq_dec b i) as [->|].
      * apply Z.eqb_eq in E. contradiction.
      * elim Hu. apply (all_unused_spec self n (i + 1)); [exact H | lia].
    + apply layout_from_used in H; [|exact E]. destruct H as (H1 & H2 & H3).
      destruct (Z.eq_dec b i) as [->|Hne].
      * rewrite Z.eqb_refl. split; [|split; [exact H1 | lia]].
        intros a Ha. assert (a = i) as -> by lia. now apply Z.eqb_neq.
      * destruct (IH (i + 1) _ H3 ltac:(lia) Hu) as (I1 & I2 & I3).
        split; [|split; [|exact I3]].
        -- intros a Ha. destruct (Z.eq_dec a i) as [->|].
           ++ now apply Z.eqb_neq.
           ++ apply I1. lia.
        -- replace (b =? i) with false by (symmetry; apply Z.eqb_neq; lia).
           rewrite I2. destruct (b =? i + 1) eqn:Eb; [|reflexivity].
           apply Z.eqb_eq in Eb. subst b.
           replace (i + 1 - 1) with i by ring. reflexivity.
Qed.

Section Layout.

Variable SPI_FLASH_CB_TYPES : list spi_flash_cb_type.
Variable SFCB_SPI_BUF : Z.

(** X17: the layout of the table is an invariant of the driver.  On
    every handle reached from a successful [sfcb_init] by API calls,
    worker calls and transfers, none of the raw reads asking for more
    than [SFCB_SPI_BUF - 4] bytes, the used slots are the first ones of the
    table; the queue in slot 0 starts at sector 0 and every other one at
    the sector behind the stop sector of the slot before it; a queue owns
    between 2 and 65535 sectors; and the sector ranges of two queues do
    not overlap. *)
Theorem table_layout_invariant (self0 self : spi_flash_cb) (flashType : Z)
    (cbMem : list spi_flash_cb_elem) (numCbs : Z) (tr : list event) (j : Z) :
  0 <= numCbs < 2 ^ 8 -> numCbs <= Z.of_nat (length cbMem) ->
  sfcb_init SPI_FLASH_CB_TYPES self0 flashType cbMem numCbs = (0, self) ->
  reads_fit SFCB_SPI_BUF tr = true ->
  let s := run SPI_FLASH_CB_TYPES SFCB_SPI_BUF tr self in
  0 <= j < uint8NumCbs s -> uint8Used (cb s j) <> 0 ->
  (forall i, 0 <= i <= j -> uint8Used (cb s i) <> 0) /\
  uint32StartSector (cb s j)
  = (if j =? 0 then 0 else uint32StopSector (cb s (j - 1)) + 1) /\
  uint32StartSector (cb s j) + 1 <= uint32StopSector (cb s j)
  <= uint32StartSector (cb s j) + 65534 /\
  (forall i, 0 <= i < j -> uint32StopSector (cb s i) < uint32StartSector (cb s j)).
Proof.
  intros Hn Hl Hinit _ s Hj Hu.
  assert (Hok : layout_ok s = true).
  { apply run_layout_ok. exact (init_layout_ok _ _ _ _ _ _ Hn Hl Hinit). }
  pose proof Hok as Hok'. unfold layout_ok in Hok'.
  apply Bool.andb_true_iff in Hok'. destruct Hok' as [_ Hlay].
  destruct (layout_chain s _ 0 0 j Hlay ltac:(lia) Hu) as (C1 & C2 & C3).
  split; [exact C1|]. split; [exact C2|]. split; [exact C3|].
  intros i Hi. apply layout_ok_nonoverlap; auto; lia.
Qed.

End Layout.

(** ** The mount of an erased queue *)

Lemma erased_head_unused s :
  erased_head (uint8Spi s) -> head_unused s = true.
Proof.
  intros H. unfold head_unused, Buf.slice, sizeof_head.
  change (Z.to_nat 8) with 8%nat. cbn [seq map forallb].
  rewrite !H by lia. reflexivity.
Qed.

Lemma erased_head_magic s :
  erased_head (uint8Spi s) -> head_MagicNum s = 2 ^ 32 - 1.
Proof.
  intros H. unfold head_MagicNum, Buf.get32.
  rewrite !H by lia. reflexivity.
Qed.

Section MountLoop.

Variable SPI_FLASH_CB_TYPES : list spi_flash_cb_type.
Variable SFCB_SPI_BUF : Z.

Variables ft nc : Z.
Variable t0 : list spi_flash_cb_elem.

Hypothesis Hlen : (0 < length t0)%nat.
Hypothesis Hinit : uint8Init (nth 0 t0 elem_zero) = 0.
Hypothesis Hmagic : uint32MagicNum (nth 0 t0 elem_zero) <> 2 ^ 32 - 1.
Hypothesis Hnm : 0 < uint16NumEntriesMax (nth 0 t0 elem_zero) < 2 ^ 16.
Hypothesis Hlast : nc <= 1 \/ uint8Used (nth 1 t0 elem_zero) = 0.

Lemma fresh_slot0 :
  nth 0 (fresh_table SPI_FLASH_CB_TYPES ft t0) elem_zero
  = set_uint8Init 1
      (set_uint32StartPageWrite (fresh_adr SPI_FLASH_CB_TYPES ft t0)
         (nth 0 t0 elem_zero)).
Proof.
  unfold fresh_table. rewrite !nth_list_upd, !length_list_upd.
  apply Nat.ltb_lt in Hlen. rewrite Hlen. reflexivity.
Qed.

Lemma fresh_slot1 :
  nth 1 (fresh_table SPI_FLASH_CB_TYPES ft t0) elem_zero = nth 1 t0 elem_zero.
Proof. unfold fresh_table. rewrite !nth_list_upd. reflexivity. Qed.

Lemma fresh_slot0_fields :
  let e := nth 0 t0 elem_zero in
  let e1 := nth 0 (fresh_table SPI_FLASH_CB_TYPES ft t0) elem_zero in
  uint32MagicNum e1 = uint32MagicNum e /\
  uint8Init e1 = 1 /\
  uint16NumEntriesMax e1 = uint16NumEntriesMax e.
Proof.
  cbv zeta. rewrite fresh_slot0. destruct (nth 0 t0 elem_zero). repeat split.
Qed.

Lemma scan_response s :
  mount_scans SPI_FLASH_CB_TYPES ft nc t0 s ->
  mkcb_response s = set_ptrCbs (fresh_table SPI_FLASH_CB_TYPES ft t0) s.
Proof.
  intros P.
  destruct s as [ft' fp nc' sl bz c st er cbs spi ic ie ip pd dl].
  unfold mount_scans in P.
  cbn [cmd uint8Stg uint8Busy error uint16SpiLen uint8IterCb uint8FlashType
       uint8NumCbs uint16IterElem uint8Spi ptrCbs uint32IterPage] in P.
  destruct P as (-> & -> & -> & -> & -> & -> & -> & -> & Hie & Her & Ht).
  destruct fresh_slot0_fields as (F1 & F2 & _).
  unfold mkcb_response. rec_cbn. change (negb (12 =? 0)) with true. cbv iota.
  match goal with
  | |- context [head_MagicNum ?x] => rewrite (erased_head_magic x Her)
  end.
  unfold cb. rec_cbn. change (Z.to_nat 0) with 0%nat.
  destruct Ht as [-> | [-> ->]].
  - rewrite F1, F2.
    replace (2 ^ 32 - 1 =? uint32MagicNum (nth 0 t0 elem_zero)) with false
      by (symmetry; apply Z.eqb_neq; congruence).
    reflexivity.
  - rewrite Hinit.
    replace (2 ^ 32 - 1 =? uint32MagicNum (nth 0 t0 elem_zero)) with false
      by (symmetry; apply Z.eqb_neq; congruence).
    change (0 =? 0) with true. cbv iota.
    match goal with
    | |- context [head_unused ?x] => rewrite (erased_head_unused x Her)
    end.
    unfold upd_cb. rec_cbn. reflexivity.
Qed.

Lemma scan_next s d :
  mount_scans SPI_FLASH_CB_TYPES ft nc t0 s ->
  uint16IterElem s < uint16NumEntriesMax (nth 0 t0 elem_zero) ->
  erased_head d ->
  let s' := set_uint8Spi d (sfcb_worker SPI_FLASH_CB_TYPES SFCB_SPI_BUF s) in
  mount_scans SPI_FLASH_CB_TYPES ft nc t0 s' /\
  uint16IterElem s' = uint16IterElem s + 1.
Proof.
  intros P Hlt Hd.
  pose proof (scan_response s P) as R.
  destruct s as [ft' fp nc' sl bz c st er cbs spi ic ie ip pd dl].
  pose proof P as P0. unfold mount_scans in P0.
  cbn [cmd uint8Stg uint8Busy error uint16SpiLen uint8IterCb uint8FlashType
       uint8NumCbs uint16IterElem uint8Spi ptrCbs uint32IterPage] in P0, Hlt.
  destruct P0 as (-> & -> & -> & -> & -> & -> & -> & -> & Hie & Her & Ht).
  clear P.
  destruct fresh_slot0_fields as (F1 & F2 & F3).
  assert (W : wrap16 (ie + 1) = ie + 1)
    by (unfold wrap16; apply Z.mod_small; lia).
  match goal with
  | |- let s' := set_uint8Spi d ?w in _ =>
      assert (E : exists ip' spi', w =
          {| uint8FlashType := ft; uint8FlashPresent := fp; uint8NumCbs := nc;
             uint16SpiLen := 12; uint8Busy := 1; cmd := MKCB;
             uint8Stg := SFCB_STG_01; error := NO;
             ptrCbs := fresh_table SPI_FLASH_CB_TYPES ft t0;
             uint8Spi := spi'; uint8IterCb := 0; uint16IterElem := ie + 1;
             uint32IterPage := ip'; ptrData := pd; uint16DataLen := dl |})
  end.
  { rewrite worker_mkcb_scan by reflexivity.
    cbv delta [mkcb_stg01]. cbv beta. rewrite R. clear R.
    unfold cb, flash, put_addr. rec_cbn. change (Z.to_nat 0) with 0%nat.
    rewrite F3.
    replace (ie <? uint16NumEntriesMax (nth 0 t0 elem_zero)) with true
      by (symmetry; apply Z.ltb_lt; lia).
    rec_cbn. rewrite W. eexists. eexists. reflexivity. }
  destruct E as (ip' & spi' & ->).
  cbv zeta. unfold mount_scans. rec_cbn.
  repeat split; auto; lia.
Qed.

Lemma scan_end s d :
  mount_scans SPI_FLASH_CB_TYPES ft nc t0 s ->
  uint16IterElem s = uint16NumEntriesMax (nth 0 t0 elem_zero) ->
  mount_done (fresh_table SPI_FLASH_CB_TYPES ft t0)
    (set_uint8Spi d (sfcb_worker SPI_FLASH_CB_TYPES SFCB_SPI_BUF s)).
Proof.
  intros P Heq.
  pose proof (scan_response s P) as R.
  rewrite worker_mkcb_scan by apply P.
  cbv delta [mkcb_stg01]. cbv beta. rewrite R. clear R.
  destruct s as [ft' fp nc' sl bz c st er cbs spi ic ie ip pd dl].
  unfold mount_scans in *.
  cbn [cmd uint8Stg uint8Busy error uint16SpiLen uint8IterCb uint8FlashType
       uint8NumCbs uint16IterElem uint8Spi ptrCbs uint32IterPage] in P, Heq.
  destruct P as (-> & -> & -> & -> & -> & -> & -> & -> & Hie & Her & Ht).
  destruct fresh_slot0_fields as (F1 & F2 & F3).
  unfold cb, flash, put_addr. rec_cbn. change (Z.to_nat 0) with 0%nat.
  rewrite F3, F2. subst ie.
  rewrite Z.ltb_irrefl. change (negb (1 =? 0)) with true. cbv iota.
  change (wrap8 (0 + 1)) with 1.
  destruct (Z.to_nat (nc - 1)) as [|n] eqn:En; cbn [mkcb_lookahead].
  - replace (1 <? nc) with false by (symmetry; apply Z.ltb_ge; lia).
    unfold go_idle. rec_cbn. repeat split.
  - unfold cb. rec_cbn. change (Z.to_nat 1) with 1%nat.
    rewrite fresh_slot1.
    destruct Hlast as [H|H]; [lia|]. rewrite H.
    change (0 =? 0) with true. cbv iota.
    unfold go_idle. rec_cbn. repeat split.
Qed.

Lemma mount_done_rounds t1 rs s :
  mount_done t1 s ->
  mount_done t1 (run SPI_FLASH_CB_TYPES SFCB_SPI_BUF (rounds rs) s).
Proof.
  revert s. induction rs as [|r rs IH]; intros s D; [exact D|].
  rewrite rounds_cons. apply IH.
  rewrite worker_idle by apply D.
  destruct s. exact D.
Qed.

Lemma mount_loop (m : nat) :
  forall (s : spi_flash_cb) (ds : list Buf.t),
  mount_scans SPI_FLASH_CB_TYPES ft nc t0 s ->
  uint16NumEntriesMax (nth 0 t0 elem_zero) - uint16IterElem s <= Z.of_nat m ->
  Forall erased_head ds ->
  (m + 1 <= length ds)%nat ->
  mount_done (fresh_table SPI_FLASH_CB_TYPES ft t0)
    (run SPI_FLASH_CB_TYPES SFCB_SPI_BUF (rounds ds) s).
Proof.
  induction m as [|m IH]; intros s ds P Hm Hds Hlen'.
  - destruct ds as [|d ds]; [cbn in Hlen'; lia|].
    rewrite rounds_cons. apply mount_done_rounds. apply scan_end; auto.
    unfold mount_scans in P. lia.
  - destruct ds as [|d ds]; [cbn in Hlen'; lia|].
    rewrite rounds_cons.
    destruct (Z.eq_dec (uint16IterElem s)
                (uint16NumEntriesMax (nth 0 t0 elem_zero))) as [Ed|Ed].
    + apply mount_done_rounds. apply scan_end; auto.
    + inversion Hds as [|? ? Hd Hds']; subst.
      assert (Hlt : uint16IterElem s < uint16NumEntriesMax (nth 0 t0 elem_zero))
        by (unfold mount_scans in P; lia).
      destruct (scan_next s d P Hlt Hd) as [P' I'].
      apply IH; auto.
      * lia.
      * cbn [length] in Hlen'. lia.
Qed.

End MountLoop.

Section MountFresh.

Variable SPI_FLASH_CB_TYPES : list spi_flash_cb_type.
Variable SFCB_SPI_BUF : Z.

(** X18: the mount of an erased queue.  Let slot 0 hold the only
    queue, registered and not initialised, with a magic number other than
    [0xFFFFFFFF] and [uint16NumEntriesMax] between 1 and 65535, the
    packet length 0 at the call.  If the flash answers the status poll
    with no write in progress and every header read with erased bytes,
    then [sfcb_mkcb] is accepted and the job ends within
    [uint16NumEntriesMax + 2] rounds of worker call and transfer: the
    driver is idle and not busy, the queue is initialised, its
    [uint32StartPageWrite] is the byte address of its first sector, and
    nothing else in the table has changed (the entry count and the id
    extremes are the ones from before the mount). *)
Theorem mount_fresh_queue (self : spi_flash_cb) (r0 : Buf.t) (ds : list Buf.t) :
  let e := cb self 0 in
  let fl := flash SPI_FLASH_CB_TYPES self in
  uint8Busy self = 0 -> uint16SpiLen self = 0 ->
  uint8Used e <> 0 -> uint8Init e = 0 ->
  uint8NumCbs self <= 1 \/ uint8Used (cb self 1) = 0 ->
  0 < uint16NumEntriesMax e < 2 ^ 16 -> uint32MagicNum e <> 2 ^ 32 - 1 ->
  ready fl r0 -> Forall erased_head ds ->
  uint16NumEntriesMax e + 1 <= Z.of_nat (length ds) ->
  let s := run SPI_FLASH_CB_TYPES SFCB_SPI_BUF (rounds (r0 :: ds))
             (snd (sfcb_mkcb self)) in
  fst (sfcb_mkcb self) = 0 /\
  (cmd s = IDLE /\ uint8Busy s = 0 /\ error s = NO /\ uint16SpiLen s = 0) /\
  cb s 0 = set_uint8Init 1
             (set_uint32StartPageWrite
                (wrap32 (uint32StartSector e * uint32FlashTopoSectorSizeByte fl)) e) /\
  (forall j, 0 < j -> cb s j = cb self j).
Proof.
  intros e fl Hb Hl Hu Hi Hlast Hnm Hmagic Hr0 Hds Hlen.
  pose proof (cb_used_in_table self 0 Hu) as Hin.
  destruct self as [ft fp nc sl bz c st er cbs spi ic ie ip pd dl].
  unfold e, fl, cb, flash, ready in *. clear e fl.
  cbn [uint8Busy uint16SpiLen ptrCbs uint8NumCbs uint8FlashType] in *.
  change (Z.to_nat 0) with 0%nat in *. change (Z.to_nat 1) with 1%nat in *.
  subst bz sl.
  set (e := nth 0 cbs elem_zero) in *.
  set (fl := nth (Z.to_nat ft) SPI_FLASH_CB_TYPES type_zero) in *.
  assert (Hfirst : forall s0 n, ptrCbs s0 = cbs -> mkcb_first s0 n 0 0 = 0).
  { intros s0 n Hs0. destruct n; [reflexivity|]. cbn [mkcb_first].
    unfold cb. rewrite Hs0. change (Z.to_nat 0) with 0%nat. fold e.
    rewrite Hi. rewrite Bool.orb_true_r. reflexivity. }
  unfold sfcb_mkcb. rec_cbn. change (0 =? 0) with true. cbn [negb].
  unfold cb. rec_cbn. change (Z.to_nat 0) with 0%nat. fold e.
  replace (uint8Used e =? 0) with false by (symmetry; now apply Z.eqb_neq).
  rewrite Hfirst by reflexivity. rec_cbn.
  split; [reflexivity|].
  destruct ds as [|d0 ds]; [cbn [length] in Hlen; lia|].
  inversion Hds as [|? ? Hd0 Hds']; subst.
  rewrite !rounds_cons.
  worker_at_record ltac:(fun T B x =>
    rewrite (worker_poll T B x) by (rec_cbn; auto)).
  unfold req_status, flash. rec_cbn. fold fl.
  worker_at_record ltac:(fun T B x =>
    rewrite (worker_mkcb_begin T B x)
      by (try reflexivity; unfold wip_pending, flash; rec_cbn; fold fl;
          rewrite Hr0; reflexivity)).
  rec_cbn. cbv delta [mkcb_stg01]. cbv beta.
  match goal with
  | |- context [mkcb_response ?x] =>
      replace (mkcb_response x) with x by reflexivity
  end.
  unfold cb, flash, put_addr. rec_cbn. change (Z.to_nat 0) with 0%nat.
  fold e. fold fl.
  replace (0 <? uint16NumEntriesMax e) with true
    by (symmetry; apply Z.ltb_lt; lia).
  rec_cbn. change (wrap16 (0 + 1)) with 1.
  match goal with
  | |- context [run _ _ (rounds ds) ?x] =>
      pose proof (mount_loop SPI_FLASH_CB_TYPES SFCB_SPI_BUF ft nc cbs
                    Hin Hi Hmagic Hnm Hlast
                    (Z.to_nat (uint16NumEntriesMax e - 1)) x ds) as L
  end.
  fold e in L.
  set (s := run _ _ _ _) in *.
  destruct L as (L1 & L2 & L3 & L4 & L5).
  { unfold mount_scans. rec_cbn. fold e.
    repeat split; try reflexivity; try assumption; try lia.
    right. split; reflexivity. }
  { rec_cbn. lia. }
  { exact Hds'. }
  { cbn [length] in Hlen. lia. }
  split; [auto|].
  rewrite L5.
  split.
  - rewrite (fresh_slot0 SPI_FLASH_CB_TYPES ft cbs Hin).
    unfold fresh_adr. fold e. fold fl. cbv zeta. do 3 f_equal. ring.
  - intros j Hj. unfold fresh_table. rewrite !nth_list_upd.
    replace (0 =? Z.to_nat j)%nat with false
      by (symmetry; apply Nat.eqb_neq; lia).
    reflexivity.
Qed.

End MountFresh.

(** ** The configuration is fixed *)

Section Config.

Variable SPI_FLASH_CB_TYPES : list spi_flash_cb_type.
Variable SFCB_SPI_BUF : Z.

Lemma configured_response ft nc s :
  configured ft nc s -> configured ft nc (mkcb_response s).
Proof. intros H. cbv delta [mkcb_response]. frame'. Qed.

#[local] Hint Resolve configured_response : frame.

Lemma configured_stg01 ft nc s :
  configured ft nc s -> configured ft nc (mkcb_stg01 SPI_FLASH_CB_TYPES s).
Proof. intros H. cbv delta [mkcb_stg01]. frame'. Qed.

Lemma configured_raw_stg01 ft nc s :
  configured ft nc s ->
  configured ft nc (raw_stg01 SPI_FLASH_CB_TYPES SFCB_SPI_BUF s).
Proof. intros H. cbv delta [raw_stg01]. frame'. Qed.

#[local] Hint Resolve configured_stg01 configured_raw_stg01 : frame.





End Config.

(** ** How a job ends *)

Section JobEnd.

Variable SPI_FLASH_CB_TYPES : list spi_flash_cb_type.
Variable SFCB_SPI_BUF : Z.

Lemma add_stg02_cmd s :
  cmd (add_stg02 SPI_FLASH_CB_TYPES s) = cmd s.
Proof.
  destruct s as [ft fp nc sl bz c st er cbs spi ic ie ip pd dl].
  unfold add_stg02, put_addr, flash. rec_cbn.
  destruct (ie =? 0); reflexivity.
Qed.

Lemma mkcb_stg01_end s :
  cmd s = MKCB ->
  let s' := mkcb_stg01 SPI_FLASH_CB_TYPES s in
  cmd s' = IDLE ->
  uint8Busy s' = 0 /\ uint16SpiLen s' = 0 /\ uint8Stg s' = SFCB_STG_00 /\
  error s' = error s.
Proof.
  intros Hc s'.
  assert (E : s' = mkcb_stg01 SPI_FLASH_CB_TYPES s) by reflexivity.
  clearbody s'.
  pose proof (mkcb_response_handle s) as R.
  destruct s as [ft fp nc sl bz c st er cbs spi ic ie ip pd dl].
  cbn [cmd] in Hc. subst c.
  set (t := ptrCbs (mkcb_response _)) in *. clearbody t.
  cbv delta [mkcb_stg01] in E. cbv beta in E. rewrite R in E. clear R.
  revert E. unfold put_addr, go_idle. rec_cbn.
  repeat match goal with
         | |- context [if ?c then _ else _] =>
             lazymatch c with
             | context [if _ then _ else _] => fail
             | _ => destruct c
             end
         | |- context [match ?l with
                       | AllDone => _ | Rebuild _ => _ | NoneFound => _
                       end] =>
             destruct l
         end;
    intros -> H; cbn in H; try discriminate H; repeat split.
Qed.

(** X20: how a job ends.  A worker call that takes the driver from a
    job to [IDLE] clears the busy flag.  It leaves the packet length 0,
    so that nothing more is sent, the stage at 0 and the error as it was;
    the one exception is a raw read whose size check fails: it ends with
    the error [SPI_BUF_SIZE]. *)
Theorem job_end_no_packet (self : spi_flash_cb) :
  let self' := sfcb_worker SPI_FLASH_CB_TYPES SFCB_SPI_BUF self in
  cmd self <> IDLE -> cmd self' = IDLE ->
  uint8Busy self' = 0 /\
  ((sfcb_spi_len self' = 0 /\ uint8Stg self' = SFCB_STG_00 /\
    error self' = error self) \/
   (cmd self = RAW /\ error self' = SPI_BUF_SIZE /\
    SFCB_SPI_BUF < uint16DataLen self + 4)).
Proof.
  intros self' Hne.
  assert (E : self' = sfcb_worker SPI_FLASH_CB_TYPES SFCB_SPI_BUF self)
    by reflexivity.
  clearbody self'. unfold sfcb_spi_len.
  destruct self as [ft fp nc sl bz c st er cbs spi ic ie ip pd dl].
  cbn [cmd uint16DataLen error] in *.
  destruct c; [contradiction| | | |]; destruct st;
    cbv beta iota delta [sfcb_worker cmd uint8Stg] in E.
  all: try (destruct (wip_pending _ _);
            [subst self'; intros H; cbn in H; discriminate H|]).
  all: cbv zeta in E.
  all: try (subst self'; intros H; cbn in H; discriminate H).
  - (* the first read of a mount *)
    subst self'. intros H.
    match goal with
    | H : cmd (mkcb_stg01 _ ?x) = IDLE |- _ =>
        destruct (mkcb_stg01_end x eq_refl H) as (E1 & E2 & E3 & E4)
    end.
    split; [exact E1|]. left. auto.
  - subst self'. intros H.
    match goal with
    | H : cmd (mkcb_stg01 _ ?x) = IDLE |- _ =>
        destruct (mkcb_stg01_end x eq_refl H) as (E1 & E2 & E3 & E4)
    end.
    split; [exact E1|]. left. auto.
  - (* an append, stage 0 *)
    revert E. unfold add_stg01, go_idle. rec_cbn.
    destruct (ie <? dl); intros -> H; cbn in H; try discriminate H.
    split; [reflexivity|]. left. repeat split.
  - revert E. unfold add_stg01, go_idle. rec_cbn.
    destruct (ie <? dl); intros -> H; cbn in H; try discriminate H.
    split; [reflexivity|]. left. repeat split.
  - (* an append, stage 2 *)
    subst self'. rewrite add_stg02_cmd. intros H. discriminate H.
  - (* a raw read, stage 0 *)
    revert E. unfold raw_stg01, put_addr. rec_cbn.
    destruct (SFCB_SPI_BUF <? dl + 4) eqn:Eb; intros -> H; cbn in H;
      try discriminate H.
    apply Z.ltb_lt in Eb. split; [reflexivity|]. right. repeat split; auto.
  - revert E. unfold raw_stg01, put_addr. rec_cbn.
    destruct (SFCB_SPI_BUF <? dl + 4) eqn:Eb; intros -> H; cbn in H;
      try discriminate H.
    apply Z.ltb_lt in Eb. split; [reflexivity|]. right. repeat split; auto.
  - (* a raw read, stage 2 *)
    subst self'. intros _. unfold raw_stg02, go_idle. rec_cbn.
    split; [reflexivity|]. left. repeat split.
Qed.

End JobEnd.

(** ** The first packets of an append *)

Section AppendFirst.

Variable SPI_FLASH_CB_TYPES : list spi_flash_cb_type.
Variable SFCB_SPI_BUF : Z.

(** X21: the packets of an accepted append.  With the packet length 0
    at the call, the job sends the status poll; once the flash shows no
    write in progress it sends the write-enable instruction, and then the
    page program: at the address [uint32StartPageWrite] of the queue
    (its low 24 bits), the header with the magic number of the queue and
    the id [uint32IdNumMax + 1], and behind it the first
    [min(len, page size - 8)] bytes of the data. *)
Theorem append_first_packet (self s1 : spi_flash_cb) (cbID : Z)
    (data : list Z) (len : Z) (r1 r2 : Buf.t) :
  let e := cb self cbID in
  let fl := flash SPI_FLASH_CB_TYPES self in
  let ps := uint32FlashTopoPageSizeByte fl in
  sfcb_add SPI_FLASH_CB_TYPES self cbID data len = (0, s1) ->
  uint16SpiLen self = 0 -> 0 < len < 2 ^ 16 -> 8 < ps < 2 ^ 16 - 4 ->
  0 <= uint32MagicNum e < 2 ^ 32 -> ready fl r1 ->
  let s2 := run SPI_FLASH_CB_TYPES SFCB_SPI_BUF [Worker; Transfer r1; Worker] s1 in
  let s3 := run SPI_FLASH_CB_TYPES SFCB_SPI_BUF [Transfer r2; Worker] s2 in
  let n := Z.min len (ps - 8) in
  (uint16SpiLen s2 = 1 /\ uint8Spi s2 0 = uint8FlashIstWrEnable fl) /\
  (uint16SpiLen s3 = 12 + n /\ uint8Spi s3 0 = uint8FlashIstWrPage fl /\
   Host.addr24 (uint8Spi s3) = uint32StartPageWrite e mod 2 ^ 24) /\
  (head_MagicNum s3 = uint32MagicNum e /\
   head_IdNum s3 = wrap32 (uint32IdNumMax e + 1)) /\
  (forall k, 0 <= k < n ->
     uint8Spi s3 (12 + k) = nth (Z.to_nat k) data 0).
Proof.
  intros e fl ps Ha Hl Hlen Hps Hm Hr.
  unfold sfcb_add in Ha.
  destruct (negb (uint8Busy self =? 0)); [discriminate|].
  destruct (_ || _)%bool eqn:Eu; [discriminate|].
  destruct (len >? _); [discriminate|].
  cbv zeta in Ha. injection Ha as <-.
  apply Bool.orb_false_iff in Eu. destruct Eu as [Eu _].
  apply Z.eqb_neq in Eu.
  pose proof (cb_used_in_table self cbID Eu) as Hin.
  destruct self as [ft fp nc sl bz c st er cbs spi ic ie ip pd dl].
  cbn [uint16SpiLen ptrCbs] in Hl, Hin. subst sl.
  subst ps fl e. unfold flash, cb, ready in *.
  cbn [uint8FlashType ptrCbs] in *.
  set (fl := nth (Z.to_nat ft) SPI_FLASH_CB_TYPES type_zero) in *.
  set (e := nth (Z.to_nat cbID) cbs elem_zero) in *.
  cbv zeta.
  unfold upd_cb, run. cbn [fold_left exec]. rec_cbn.
  assert (He : nth (Z.to_nat cbID)
                 (list_upd (Z.to_nat cbID) (set_uint8Init 0) cbs) elem_zero
               = set_uint8Init 0 e).
  { rewrite nth_list_upd, Nat.eqb_refl. apply Nat.ltb_lt in Hin.
    rewrite Hin. reflexivity. }
  unfold cb. rec_cbn. rewrite He.
  replace (uint32StartPageWrite (set_uint8Init 0 e))
    with (uint32StartPageWrite e) by (destruct e; reflexivity).
  worker_at_record ltac:(fun T B x =>
    rewrite (worker_poll T B x) by (rec_cbn; auto)).
  unfold req_status, flash. rec_cbn. fold fl.
  worker_at_record ltac:(fun T B x =>
    rewrite (worker_add_next T B x)
      by (try reflexivity; unfold wip_pending, flash; rec_cbn; fold fl;
          rewrite Hr; reflexivity)).
  unfold add_stg01, flash. rec_cbn. fold fl.
  replace (0 <? len) with true by (symmetry; apply Z.ltb_lt; lia).
  rec_cbn.
  split; [split; reflexivity|].
  worker_at_record ltac:(fun T B x =>
    rewrite (worker_add_page T B x) by reflexivity;
    pose proof (add_stg02_step SPI_FLASH_CB_TYPES x) as F;
    pose proof (add_stg02_header SPI_FLASH_CB_TYPES x) as G;
    set (y := add_stg02 SPI_FLASH_CB_TYPES x) in * ).
  unfold flash, cb in F, G. cbv zeta in F, G.
  cbn [cmd uint8Stg uint8Busy error uint16SpiLen uint8FlashType uint16DataLen
       ptrCbs uint16IterElem uint8Spi uint32IterPage ptrData uint8IterCb] in F, G.
  fold fl in F. rewrite He in G.
  change (0 =? 0) with true in F. cbv iota in F.
  replace (uint32MagicNum (set_uint8Init 0 e)) with (uint32MagicNum e) in G
    by (destruct e; reflexivity).
  replace (uint32IdNumMax (set_uint8Init 0 e)) with (uint32IdNumMax e) in G
    by (destruct e; reflexivity).
  unfold sizeof_head in F.
  destruct F as ((F1 & F2 & _) & (F3 & F4) & F5 & _); [lia|lia|lia|].
  destruct (G eq_refl Hm) as [G1 G2].
  replace (len - 0) with len in * by ring.
  split; [split; [rewrite F2; ring | split; [exact F3 | exact F4]]|].
  split; [split; [exact G1 | exact G2]|].
  intros k Hk. specialize (F5 k Hk).
  replace (4 + 8 + k) with (12 + k) in F5 by ring.
  replace (0 + k) with k in F5 by ring. exact F5.
Qed.

End AppendFirst.

(** ** From one queue to the next *)

Lemma mkcb_lookahead_spec s n i :
  match mkcb_lookahead s n i with
  | AllDone =>
      exists stop, i <= stop < i + Z.of_nat n /\ uint8Used (cb s stop) = 0 /\
        forall k, i <= k < stop ->
          uint8Used (cb s k) <> 0 /\ uint8Init (cb s k) <> 0
  | Rebuild j =>
      i <= j < i + Z.of_nat n /\
      uint8Used (cb s j) <> 0 /\ uint8Init (cb s j) = 0 /\
      forall k, i <= k < j ->
        uint8Used (cb s k) <> 0 /\ uint8Init (cb s k) <> 0
  | NoneFound =>
      forall k, i <= k < i + Z.of_nat n ->
        uint8Used (cb s k) <> 0 /\ uint8Init (cb s k) <> 0
  end.
Proof.
  revert i. induction n as [|n IH]; intros i; cbn [mkcb_lookahead].
  - intros k Hk. lia.
  - destruct (uint8Used (cb s i) =? 0) eqn:Eu.
    + apply Z.eqb_eq in Eu. exists i. split; [lia|]. split; [exact Eu|].
      intros k Hk. lia.
    + apply Z.eqb_neq in Eu.
      destruct (uint8Init (cb s i) =? 0) eqn:Ei.
      * apply Z.eqb_eq in Ei. split; [lia|]. split; [exact Eu|].
        split; [exact Ei|]. intros k Hk. lia.
      * apply Z.eqb_neq in Ei. specialize (IH (i + 1)).
        destruct (mkcb_lookahead s n (i + 1)) as [|j|].
        -- destruct IH as (stop & Hs & Hu & Hk). exists stop.
           split; [lia|]. split; [exact Hu|].
           intros k Hki. destruct (Z.eq_dec k i) as [->|]; [auto|].
           apply Hk. lia.
        -- destruct IH as (Hj & Hu & Hi & Hk).
           split; [lia|]. split; [exact Hu|]. split; [exact Hi|].
           intros k Hki. destruct (Z.eq_dec k i) as [->|]; [auto|].
           apply Hk. lia.
        -- intros k Hki. destruct (Z.eq_dec k i) as [->|]; [auto|].
           apply IH. lia.
Qed.

Lemma mkcb_lookahead_table s s' n i :
  ptrCbs s' = ptrCbs s -> mkcb_lookahead s' n i = mkcb_lookahead s n i.
Proof.
  intros H. revert i. induction n as [|n IH]; intros i; cbn [mkcb_lookahead].
  - reflexivity.
  - unfold cb. rewrite H, IH. reflexivity.
Qed.

Section NextQueue.

Variable SPI_FLASH_CB_TYPES : list spi_flash_cb_type.
Variable SFCB_SPI_BUF : Z.

(** X22: from one queue to the next.  In stage 1 of a mount, when the
    element counter has reached [uint16NumEntriesMax] of the queue [q]
    under scan and the queue is initialised, the worker looks at the
    slots behind [q].  If the first slot that is not a used and
    initialised queue is unused, or if [q] is the last slot of the
    table, the job ends.  If that slot is a used queue that is not
    initialised, the scan goes on there, the element counter at 0.  If
    every slot behind [q] is a used and initialised queue, the job does
    not end: the scan goes on with slot [q + 1]. *)
Theorem mount_next_queue (self : spi_flash_cb) :
  let q := uint8IterCb self in
  let self' := sfcb_worker SPI_FLASH_CB_TYPES SFCB_SPI_BUF self in
  let ready_queue k :=
    uint8Used (cb self' k) <> 0 /\ uint8Init (cb self' k) <> 0 in
  cmd self = MKCB -> uint8Stg self = SFCB_STG_01 ->
  uint8Init (cb self q) <> 0 ->
  uint16NumEntriesMax (cb self q) <= uint16IterElem self ->
  0 <= q < 2 ^ 8 - 1 ->
  (cmd self' = IDLE /\ uint8Busy self' = 0 /\ uint16SpiLen self' = 0 /\
   (uint8NumCbs self <= q + 1 \/
    exists stop, q < stop < uint8NumCbs self /\
      uint8Used (cb self' stop) = 0 /\
      forall k, q < k < stop -> ready_queue k)) \/
  (cmd self' = MKCB /\ uint8Stg self' = SFCB_STG_01 /\
   uint16IterElem self' = 0 /\ q < uint8IterCb self' < uint8NumCbs self /\
   ((uint8Used (cb self' (uint8IterCb self')) <> 0 /\
     uint8Init (cb self' (uint8IterCb self')) = 0 /\
     forall k, q < k < uint8IterCb self' -> ready_queue k) \/
    (uint8IterCb self' = q + 1 /\
     forall k, q < k < uint8NumCbs self -> ready_queue k))).
Proof.
  intros q self' ready_queue Hc Hs Hi Hn Hq.
  pose proof (scan_ordered_response self self (scan_ordered_refl self)) as [_ Ho].
  specialize (Ho q). destruct Ho as (Hreg & _ & _ & Hinit).
  specialize (Hinit Hi). destruct Hinit as [Hi' _].
  assert (Hnm : uint16NumEntriesMax (cb (mkcb_response self) q)
                = uint16NumEntriesMax (cb self q)).
  { unfold registration in Hreg. congruence. }
  clear Hreg.
  pose proof (mkcb_response_handle self) as Hh.
  subst ready_queue self' q.
  rewrite (worker_mkcb_scan SPI_FLASH_CB_TYPES SFCB_SPI_BUF) by assumption.
  destruct self as [ft fp nc sl bz c st er cbs spi ic ie ip pd dl].
  cbn [uint8IterCb uint16IterElem cmd uint8Stg uint8Busy uint8NumCbs] in *.
  subst c st. unfold cb in Hi', Hnm, Hn, Hi. cbn [ptrCbs] in Hnm, Hn, Hi.
  set (t := ptrCbs (mkcb_response _)) in *. clearbody t.
  cbv delta [mkcb_stg01]. cbv beta. rewrite Hh. clear Hh.
  unfold flash, put_addr, cb. rec_cbn.
  rewrite Hnm.
  replace (ie <? uint16NumEntriesMax (nth (Z.to_nat ic) cbs elem_zero))
    with false by (symmetry; apply Z.ltb_ge; lia).
  replace (uint8Init (nth (Z.to_nat ic) t elem_zero) =? 0) with false
    by (symmetry; now apply Z.eqb_neq).
  cbn [negb].
  assert (W : wrap8 (ic + 1) = ic + 1)
    by (unfold wrap8; apply Z.mod_small; change (2 ^ 8) with 256 in *; lia).
  rewrite W.
  match goal with
  | |- context [mkcb_lookahead ?x ?n ?i] =>
      pose proof (mkcb_lookahead_spec x n i) as L;
      destruct (mkcb_lookahead x n i) as [|j|]
  end; unfold cb in L; cbn [ptrCbs] in L.
  - (* an unused slot *)
    left. unfold go_idle. rec_cbn.
    split; [reflexivity|]. split; [reflexivity|]. split; [reflexivity|].
    destruct L as (stop & Hstop & Hu & Hk).
    right. exists stop. split; [lia|]. split; [exact Hu|].
    intros k Hki. apply Hk. lia.
  - (* a queue to rebuild *)
    right. rec_cbn. destruct L as (Hj & Hu & Hi0 & Hk).
    split; [reflexivity|]. split; [reflexivity|]. split; [reflexivity|].
    split; [lia|]. left. split; [exact Hu|]. split; [exact Hi0|].
    intros k Hki. apply Hk. lia.
  - (* the loop ran to the end of the table *)
    destruct (ic + 1 <? nc) eqn:El; cbn [negb].
    + apply Z.ltb_lt in El. right. rec_cbn.
      split; [reflexivity|]. split; [reflexivity|]. split; [reflexivity|].
      split; [lia|]. right. split; [reflexivity|].
      intros k Hki. apply L. lia.
    + apply Z.ltb_ge in El. left. unfold go_idle. rec_cbn.
      split; [reflexivity|]. split; [reflexivity|]. split; [reflexivity|].
      left. lia.
Qed.

End NextQueue.

(** ** The properties on concrete inputs *)

Lemma init_resets_handle_witness :
  0 <= 2 <= Z.of_nat (length (repeat mem_elem 2)) /\
  sfcb_init types_ex handle_raw 1 (repeat mem_elem 2) 2 = (1, handle_raw) /\
  fst (sfcb_init types_ex handle_raw 0 (repeat mem_elem 2) 2) = 0 /\
  uint8Used (cb (handle_init 2) 1) = 0.
Proof.
  assert (H : 0 <= 2 <= Z.of_nat (length (repeat mem_elem 2)))
    by (vm_compute; split; discriminate).
  split; [exact H|]. split.
  - apply (proj1 (init_resets_handle types_ex spi_buf_ex handle_raw 1
                    (repeat mem_elem 2) 2 H)).
    vm_compute. discriminate.
  - destruct (proj2 (init_resets_handle types_ex spi_buf_ex handle_raw 0
                       (repeat mem_elem 2) 2 H)) as (H1 & _ & _ & H4 & _).
    + vm_compute. reflexivity.
    + split; [exact H1|]. apply (H4 1). lia.
Defined.

Lemma table_layout_invariant_witness :
  let s := run types_ex spi_buf_ex
             [Api (NewCb 10 100 32); Api (NewCb 11 250 8);
              Api (FlashRead 4096 [0; 0; 0; 0] 4); Worker;
              Transfer resp_zero; Worker]
             (handle_init 2) in
  uint8Used (cb s 1) <> 0 /\
  uint32StartSector (cb s 1) = uint32StopSector (cb s 0) + 1 /\
  uint32StopSector (cb s 0) < uint32StartSector (cb s 1).
Proof.
  intros s.
  assert (Hn : 0 <= 2 < 2 ^ 8) by lia.
  assert (Hl : 2 <= Z.of_nat (length (repeat mem_elem 2)))
    by (vm_compute; discriminate).
  assert (Hi : sfcb_init types_ex handle_raw 0 (repeat mem_elem 2) 2
               = (0, handle_init 2)) by (vm_compute; reflexivity).
  assert (Hf : reads_fit spi_buf_ex
                 [Api (NewCb 10 100 32); Api (NewCb 11 250 8);
                  Api (FlashRead 4096 [0; 0; 0; 0] 4); Worker;
                  Transfer resp_zero; Worker] = true)
    by (vm_compute; reflexivity).
  assert (Hj : 0 <= 1 < uint8NumCbs s)
    by (vm_compute; split; [discriminate | reflexivity]).
  assert (Hu : uint8Used (cb s 1) <> 0) by (vm_compute; discriminate).
  destruct (table_layout_invariant types_ex spi_buf_ex handle_raw (handle_init 2)
              0 (repeat mem_elem 2) 2
              [Api (NewCb 10 100 32); Api (NewCb 11 250 8);
               Api (FlashRead 4096 [0; 0; 0; 0] 4); Worker;
               Transfer resp_zero; Worker]
              1 Hn Hl Hi Hf Hj Hu) as (_ & H2 & _ & H4).
  split; [exact Hu|]. split; [exact H2|]. apply (H4 0). lia.
Defined.

Lemma add_first_fragment_header_witness :
  uint16IterElem add_page_ex = 0 /\
  head_MagicNum (add_stg02 types_ex add_page_ex) = 10 /\
  head_IdNum (add_stg02 types_ex add_page_ex) = 1.
Proof.
  assert (H0 : uint16IterElem add_page_ex = 0) by (vm_compute; reflexivity).
  assert (Hm : 0 <= uint32MagicNum (cb add_page_ex (uint8IterCb add_page_ex))
               < 2 ^ 32) by (vm_compute; split; [discriminate | reflexivity]).
  destruct (add_first_fragment_header types_ex add_page_ex H0 Hm) as [H1 H2].
  split; [exact H0|]. split.
  - rewrite H1. vm_compute. reflexivity.
  - rewrite H2. vm_compute. reflexivity.
Defined.

Lemma raw_read_delivers_witness :
  let s1 := snd (sfcb_flash_read (handle_init 1) 4096 [0; 0; 0; 0] 4) in
  let s2 := run types_ex spi_buf_ex [Worker; Transfer resp_zero; Worker] s1 in
  let s3 := run types_ex spi_buf_ex [Transfer resp_index; Worker] s2 in
  uint16SpiLen s2 = 8 /\ Host.addr24 (uint8Spi s2) = 4096 /\
  ptrData s3 = [4; 5; 6; 7] /\ uint8Busy s3 = 0.
Proof.
  assert (Hb : uint8Busy (handle_init 1) = 0) by (vm_compute; reflexivity).
  assert (Hl : uint16SpiLen (handle_init 1) = 0) by (vm_compute; reflexivity).
  assert (H0 : 0 <= 4) by lia.
  assert (Hf : 4 + 4 <= spi_buf_ex) by (vm_compute; discriminate).
  assert (H16 : 4 + 4 < 2 ^ 16) by lia.
  assert (Hr : Z.land (resp_zero 1)
                 (uint8FlashMngWipMsk (flash types_ex (handle_init 1))) = 0)
    by (vm_compute; reflexivity).
  destruct (raw_read_delivers types_ex spi_buf_ex (handle_init 1) 4096
              [0; 0; 0; 0] 4 resp_zero resp_index Hb Hl H0 Hf H16 Hr)
    as (_ & (A1 & _ & A3 & _) & (B1 & _ & B3 & _)).
  cbv zeta. split; [exact A1|]. split; [exact A3|]. split; [exact B1 | exact B3].
Defined.

Lemma busy_tells_job_witness :
  let s := run types_ex spi_buf_ex
             [Api (NewCb 10 100 32); Api (FlashRead 4096 [0; 0; 0; 0] 4); Worker]
             (handle_init 1) in
  sfcb_init types_ex handle_raw 0 (repeat mem_elem 1) 1 = (0, handle_init 1) /\
  cmd s = RAW /\ sfcb_busy s = -1 /\ raw_fits spi_buf_ex s = true.
Proof.
  intros s.
  assert (Hi : sfcb_init types_ex handle_raw 0 (repeat mem_elem 1) 1
               = (0, handle_init 1)) by (vm_compute; reflexivity).
  assert (Hf : reads_fit spi_buf_ex
                 [Api (NewCb 10 100 32); Api (FlashRead 4096 [0; 0; 0; 0] 4);
                  Worker] = true) by (vm_compute; reflexivity).
  assert (Hc : cmd s = RAW) by (vm_compute; reflexivity).
  destruct (busy_tells_job types_ex spi_buf_ex handle_raw (handle_init 1) 0
              (repeat mem_elem 1) 1
              [Api (NewCb 10 100 32); Api (FlashRead 4096 [0; 0; 0; 0] 4); Worker]
              Hi Hf) as (_ & H2 & _ & H4).
  split; [exact Hi|]. split; [exact Hc|].
  split; [apply H2; right; right; exact Hc | exact H4].
Defined.

Lemma wip_poll_witness :
  uint16SpiLen busy_ex = 0 /\
  uint16SpiLen (sfcb_worker types_ex spi_buf_ex busy_ex) = 2 /\
  uint8Spi (sfcb_worker types_ex spi_buf_ex busy_ex) 0 = 5.
Proof.
  assert (Hc : cmd busy_ex = MKCB \/ cmd busy_ex = ADD \/ cmd busy_ex = RAW)
    by (left; vm_compute; reflexivity).
  assert (Hs : uint8Stg busy_ex = SFCB_STG_00) by (vm_compute; reflexivity).
  assert (Hl : uint16SpiLen busy_ex = 0) by (vm_compute; reflexivity).
  destruct (wip_poll types_ex spi_buf_ex busy_ex Hc Hs (or_introl Hl))
    as (H1 & H2 & _).
  split; [exact Hl|]. split; [exact H1|]. rewrite H2. vm_compute. reflexivity.
Defined.


Lemma append_empty_witness :
  let self := snd mounted_empty in
  let s1 := snd (sfcb_add types_ex self 0 [] 0) in
  let s2 := sfcb_worker types_ex spi_buf_ex s1 in
  let s3 := sfcb_worker types_ex spi_buf_ex (set_uint8Spi resp_zero s2) in
  uint8Init (cb self 0) <> 0 /\
  fst (sfcb_add types_ex self 0 [] 0) = 0 /\
  cmd s3 = IDLE /\ uint8Init (cb s3 0) = 0.
Proof.
  assert (Hb : uint8Busy (snd mounted_empty) = 0) by (vm_compute; reflexivity).
  assert (Hl : uint16SpiLen (snd mounted_empty) = 0) by (vm_compute; reflexivity).
  assert (Hu : uint8Used (cb (snd mounted_empty) 0) <> 0)
    by (vm_compute; discriminate).
  assert (Hi : uint8Init (cb (snd mounted_empty) 0) <> 0)
    by (vm_compute; discriminate).
  assert (Hr : ready (flash types_ex (snd mounted_empty)) resp_zero)
    by (vm_compute; reflexivity).
  destruct (append_empty types_ex spi_buf_ex (snd mounted_empty) 0 [] resp_zero
              Hb Hl Hu Hi Hr) as (H1 & _ & (H3 & _) & H4 & _).
  cbv zeta. split; [exact Hi|]. split; [exact H1|]. split; [exact H3 | exact H4].
Defined.

Lemma mount_fresh_queue_witness :
  let s := run types_ex spi_buf_ex (rounds (resp_zero :: repeat resp_erased 33))
             (snd (sfcb_mkcb handle_q0)) in
  uint8Init (cb handle_q0 0) = 0 /\
  fst (sfcb_mkcb handle_q0) = 0 /\ cmd s = IDLE /\
  uint8Init (cb s 0) = 1 /\ uint32StartPageWrite (cb s 0) = 0.
Proof.
  assert (Hb : uint8Busy handle_q0 = 0) by (vm_compute; reflexivity).
  assert (Hl : uint16SpiLen handle_q0 = 0) by (vm_compute; reflexivity).
  assert (Hu : uint8Used (cb handle_q0 0) <> 0) by (vm_compute; discriminate).
  assert (Hi : uint8Init (cb handle_q0 0) = 0) by (vm_compute; reflexivity).
  assert (Hq : uint8NumCbs handle_q0 <= 1 \/ uint8Used (cb handle_q0 1) = 0)
    by (left; vm_compute; discriminate).
  assert (Hn : 0 < uint16NumEntriesMax (cb handle_q0 0) < 2 ^ 16)
    by (vm_compute; split; reflexivity).
  assert (Hm : uint32MagicNum (cb handle_q0 0) <> 2 ^ 32 - 1)
    by (vm_compute; discriminate).
  assert (Hr : ready (flash types_ex handle_q0) resp_zero)
    by (vm_compute; reflexivity).
  assert (Hd : Forall erased_head (repeat resp_erased 33))
    by (repeat constructor; intros i _; reflexivity).
  assert (Hlen : uint16NumEntriesMax (cb handle_q0 0) + 1
                 <= Z.of_nat (length (repeat resp_erased 33)))
    by (vm_compute; discriminate).
  destruct (mount_fresh_queue types_ex spi_buf_ex handle_q0 resp_zero
              (repeat resp_erased 33) Hb Hl Hu Hi Hq Hn Hm Hr Hd Hlen)
    as (H1 & (H2 & _) & H3 & _).
  cbv zeta. split; [exact Hi|]. split; [exact H1|]. split; [exact H2|].
  rewrite H3. vm_compute. split; reflexivity.
Defined.

Lemma add_fragment_witness :
  uint16IterElem add_page_ex = 0 /\ uint16DataLen add_page_ex = 3 /\
  uint16SpiLen (add_stg02 types_ex add_page_ex) = 15 /\
  uint16IterElem (add_stg02 types_ex add_page_ex) = 3 /\
  uint8Spi (add_stg02 types_ex add_page_ex) 14 = 51.
Proof.
  assert (Hie : 0 <= uint16IterElem add_page_ex <= uint16DataLen add_page_ex)
    by (vm_compute; split; discriminate).
  assert (Hdl : uint16DataLen add_page_ex < 2 ^ 16) by (vm_compute; reflexivity).
  assert (Hps : 8 < uint32FlashTopoPageSizeByte (flash types_ex add_page_ex)
                < 2 ^ 16 - 4) by (vm_compute; split; reflexivity).
  destruct (add_fragment types_ex add_page_ex Hie Hdl Hps)
    as ((H1 & H2 & _) & _ & H3 & _).
  split; [vm_compute; reflexivity|]. split; [vm_compute; reflexivity|].
  split; [rewrite H2; vm_compute; reflexivity|].
  split; [rewrite H1; vm_compute; reflexivity|].
  change 14 with ((if uint16IterElem add_page_ex =? 0 then 4 + sizeof_head else 4) + 2).
  rewrite H3; [vm_compute; reflexivity | vm_compute; split; [discriminate | reflexivity]].
Defined.

Lemma append_terminates_witness :
  let s := run types_ex spi_buf_ex (rounds (repeat resp_zero 8)) add_ex in
  sfcb_add types_ex (snd mounted_empty) 0 [17; 34; 51] 3 = (0, add_ex) /\
  cmd s = IDLE /\ uint8Busy s = 0 /\ uint16IterElem s = 3.
Proof.
  assert (Ha : sfcb_add types_ex (snd mounted_empty) 0 [17; 34; 51] 3 = (0, add_ex))
    by (vm_compute; reflexivity).
  assert (Hl : uint16SpiLen (snd mounted_empty) = 0) by (vm_compute; reflexivity).
  assert (Hlen : 0 <= 3 < 2 ^ 16) by lia.
  assert (Hps : 8 < uint32FlashTopoPageSizeByte (flash types_ex (snd mounted_empty))
                < 2 ^ 16 - 4) by (vm_compute; split; reflexivity).
  assert (Hr : Forall (ready (flash types_ex (snd mounted_empty)))
                 (repeat resp_zero 8))
    by (repeat constructor).
  assert (Hn : 2 * 3 + 2 <= Z.of_nat (length (repeat resp_zero 8)))
    by (vm_compute; discriminate).
  destruct (append_terminates types_ex spi_buf_ex (snd mounted_empty) add_ex 0
              [17; 34; 51] 3 (repeat resp_zero 8) Ha Hl Hlen Hps Hr Hn)
    as (H1 & H2 & _ & _ & H5 & _).
  cbv zeta. split; [exact Ha|]. split; [exact H1|]. split; [exact H2 | exact H5].
Defined.

Lemma new_cb_first_free_witness :
  let r := sfcb_new_cb types_ex handle_q0_of2 11 250 8 0 in
  fst (fst r) = 0 /\ uint8Used (cb handle_q0_of2 (snd r)) = 0 /\
  uint8Used (cb handle_q0_of2 0) <> 0 /\
  uint32MagicNum (cb (snd (fst r)) (snd r)) = 11 /\
  cb (snd (fst r)) 0 = cb handle_q0_of2 0.
Proof.
  assert (Hn : 0 <= uint8NumCbs handle_q0_of2
               <= Z.of_nat (length (ptrCbs handle_q0_of2)))
    by (vm_compute; split; discriminate).
  assert (H0 : fst (fst (sfcb_new_cb types_ex handle_q0_of2 11 250 8 0)) = 0)
    by (vm_compute; reflexivity).
  destruct (new_cb_first_free types_ex handle_q0_of2 11 250 8 0 Hn)
    as (_ & _ & _ & Hs).
  destruct (Hs H0) as (_ & H2 & H3 & (_ & H5 & _) & H6).
  cbv zeta. split; [exact H0|]. split; [exact H2|].
  split; [apply H3; vm_compute; split; [discriminate | reflexivity]|].
  split; [exact H5|]. apply H6; vm_compute; discriminate.
Defined.

Lemma mount_scan_request_witness :
  cmd scan_ex = MKCB /\ uint16IterElem scan_ex = 1 /\
  uint16SpiLen (sfcb_worker types_ex spi_buf_ex scan_ex) = 12 /\
  uint32IterPage (sfcb_worker types_ex spi_buf_ex scan_ex) = 256 /\
  uint16IterElem (sfcb_worker types_ex spi_buf_ex scan_ex) = 2.
Proof.
  assert (Hc : cmd scan_ex = MKCB) by (vm_compute; reflexivity).
  assert (Hs : uint8Stg scan_ex = SFCB_STG_01) by (vm_compute; reflexivity).
  assert (Hie : 0 <= uint16IterElem scan_ex
                < uint16NumEntriesMax (cb scan_ex (uint8IterCb scan_ex)))
    by (vm_compute; split; [discriminate | reflexivity]).
  assert (H16 : uint16IterElem scan_ex < 2 ^ 16 - 1) by (vm_compute; reflexivity).
  destruct (mount_scan_request types_ex spi_buf_ex scan_ex Hc Hs Hie H16)
    as ((H1 & _) & (H2 & H3 & _)).
  split; [exact Hc|]. split; [vm_compute; reflexivity|].
  split; [exact H1|].
  split; [rewrite H2; vm_compute; reflexivity|].
  rewrite H3. vm_compute. reflexivity.
Defined.

Lemma job_end_no_packet_witness :
  cmd add_last_ex = ADD /\
  cmd (sfcb_worker types_ex spi_buf_ex add_last_ex) = IDLE /\
  uint8Busy (sfcb_worker types_ex spi_buf_ex add_last_ex) = 0.
Proof.
  assert (Hne : cmd add_last_ex <> IDLE) by (vm_compute; discriminate).
  assert (He : cmd (sfcb_worker types_ex spi_buf_ex add_last_ex) = IDLE)
    by (vm_compute; reflexivity).
  destruct (job_end_no_packet types_ex spi_buf_ex add_last_ex Hne He) as [H1 _].
  split; [vm_compute; reflexivity|]. split; [exact He | exact H1].
Defined.

Lemma append_first_packet_witness :
  let s2 := run types_ex spi_buf_ex [Worker; Transfer resp_zero; Worker] add_ex in
  let s3 := run types_ex spi_buf_ex [Transfer resp_zero; Worker] s2 in
  sfcb_add types_ex (snd mounted_empty) 0 [17; 34; 51] 3 = (0, add_ex) /\
  uint16SpiLen s2 = 1 /\ uint8Spi s2 0 = 6 /\
  uint16SpiLen s3 = 15 /\ uint8Spi s3 0 = 2 /\ uint8Spi s3 12 = 17.
Proof.
  assert (Ha : sfcb_add types_ex (snd mounted_empty) 0 [17; 34; 51] 3 = (0, add_ex))
    by (vm_compute; reflexivity).
  assert (Hl : uint16SpiLen (snd mounted_empty) = 0) by (vm_compute; reflexivity).
  assert (Hlen : 0 < 3 < 2 ^ 16) by lia.
  assert (Hps : 8 < uint32FlashTopoPageSizeByte (flash types_ex (snd mounted_empty))
                < 2 ^ 16 - 4) by (vm_compute; split; reflexivity).
  assert (Hm : 0 <= uint32MagicNum (cb (snd mounted_empty) 0) < 2 ^ 32)
    by (vm_compute; split; [discriminate | reflexivity]).
  assert (Hr : ready (flash types_ex (snd mounted_empty)) resp_zero)
    by (vm_compute; reflexivity).
  destruct (append_first_packet types_ex spi_buf_ex (snd mounted_empty) add_ex 0
              [17; 34; 51] 3 resp_zero resp_zero Ha Hl Hlen Hps Hm Hr)
    as ((A1 & A2) & (B1 & B2 & _) & _ & D).
  cbv zeta. split; [exact Ha|].
  split; [exact A1|]. split; [rewrite A2; vm_compute; reflexivity|].
  split; [rewrite B1; vm_compute; reflexivity|].
  split; [rewrite B2; vm_compute; reflexivity|].
  change 12 with (12 + 0) at 1. rewrite D; [reflexivity|].
  vm_compute. split; [discriminate | reflexivity].
Defined.

Lemma mount_next_queue_witness :
  uint16IterElem scan_end_ex = 32 /\ uint8Init (cb scan_end_ex 0) = 1 /\
  cmd (sfcb_worker types_ex spi_buf_ex scan_end_ex) = IDLE /\
  uint16SpiLen (sfcb_worker types_ex spi_buf_ex scan_end_ex) = 0.
Proof.
  assert (Hc : cmd scan_end_ex = MKCB) by (vm_compute; reflexivity).
  assert (Hs : uint8Stg scan_end_ex = SFCB_STG_01) by (vm_compute; reflexivity).
  assert (Hi : uint8Init (cb scan_end_ex (uint8IterCb scan_end_ex)) <> 0)
    by (vm_compute; discriminate).
  assert (Hn : uint16NumEntriesMax (cb scan_end_ex (uint8IterCb scan_end_ex))
               <= uint16IterElem scan_end_ex) by (vm_compute; discriminate).
  assert (Hq : 0 <= uint8IterCb scan_end_ex < 2 ^ 8 - 1)
    by (vm_compute; split; [discriminate | reflexivity]).
  split; [vm_compute; reflexivity|]. split; [vm_compute; reflexivity|].
  destruct (mount_next_queue types_ex spi_buf_ex scan_end_ex Hc Hs Hi Hn Hq)
    as [(H1 & _ & H3 & _) | (H1 & _)].
  - split; [exact H1 | exact H3].
  - vm_compute in H1. discriminate H1.
Defined.

